(** * JOB_MONITOR: the ingestion and indexing core, embedded in Rocq

    The development follows the Python sources:
    - [collector/db.py]            the record store ([DatabaseManager]),
    - [collector/rss_client.py]    feed polling, relevance gate, content fetch,
    - [analysis/llm_client.py]     the analysis service client,
    - [analysis/vector_store.py]   the vector index,
    - [ui/backend_api.py]          the statistics endpoint.

    Conventions.
    - A Python [str] is a Rocq [string] with one [ascii] per code point, so the
      model covers text in U+0000..U+00FF (module [PyStr]).
    - A Python [int] is a [Z].
    - A call that may raise returns a [result]; [try/except] is a [match].
    - The outside world (HTTP responses, the language model, the embedding
      model, the configuration file) is passed in explicitly. *)

From Stdlib Require Import ZArith List String Ascii Bool Lia Arith DecimalString.
Import ListNotations.
Local Open Scope string_scope.
Local Open Scope Z_scope.

Set Implicit Arguments.

(* ===================================================================== *)
(** ** Exceptions and results *)
(* ===================================================================== *)

Inductive exn_class : Type :=
  | KeyError | AttributeError | ValueError | TypeError | AssertionError
  | RuntimeError | ImportError | RequestException | HTTPError | OSError.

(** An exception object: its class and [str(e)]. *)
Record exn : Type := PyExn { exn_cls : exn_class; exn_msg : string }.

Inductive result (A : Type) : Type :=
  | Ok (a : A)
  | Raise (e : exn).
Arguments Ok {A} a.
Arguments Raise {A} e.

Definition bind {A B} (r : result A) (k : A -> result B) : result B :=
  match r with
  | Ok a => k a
  | Raise e => Raise e
  end.

Declare Scope py_scope.
Delimit Scope py_scope with py.
Notation "x <- c ;; k" := (bind c (fun x => k))
  (at level 61, c at next level, right associativity) : py_scope.

(** [s in l] for a list of [str]. *)
Definition str_in (s : string) (l : list string) : bool := existsb (String.eqb s) l.

(** [d.get(key, default)] on an optional key. *)
Definition dict_get {A} (v : option A) (default : A) : A :=
  match v with
  | Some a => a
  | None => default
  end.

(* ===================================================================== *)
(** ** Python strings *)
(* ===================================================================== *)

Module PyStr.

Definition code (c : ascii) : Z := Z.of_N (N_of_ascii c).

(** Truthiness of a [str]: non-empty. *)
Definition truthy (s : string) : bool :=
  match s with
  | EmptyString => false
  | String _ _ => true
  end.

(** [len(s)]. *)
Definition len (s : string) : Z := Z.of_nat (String.length s).

(** [s[:n]] for a bound [n >= 0]. *)
Definition take (n : Z) (s : string) : string := substring 0 (Z.to_nat n) s.

(** [a > b] on two [str]: code points compared from the left. *)
Definition gtb (a b : string) : bool := String.ltb b a.

Definition nl : string := String (ascii_of_nat 10) EmptyString.

(** [str.isspace] on one code point below U+0100. *)
Definition isspace (c : ascii) : bool :=
  let n := code c in
  ((9 <=? n) && (n <=? 13)) || ((28 <=? n) && (n <=? 32))
  || (n =? 133) || (n =? 160).

Fixpoint lstrip (s : string) : string :=
  match s with
  | EmptyString => EmptyString
  | String c r => if isspace c then lstrip r else s
  end.

(** Drops trailing white space: a character is kept when something that
    is kept follows it or when it is not white space. *)
Fixpoint rstrip (s : string) : string :=
  match s with
  | EmptyString => EmptyString
  | String c r =>
      match rstrip r with
      | EmptyString => if isspace c then EmptyString else String c EmptyString
      | r' => String c r'
      end
  end.

(** [s.strip()]. *)
Definition strip (s : string) : string := rstrip (lstrip s).

(** [sep.join(parts)]. *)
Fixpoint join (sep : string) (parts : list string) : string :=
  match parts with
  | [] => ""
  | [p] => p
  | p :: rest => p ++ sep ++ join sep rest
  end.

(** [s.encode('utf-8')], as a list of byte values. *)
Definition utf8_char (c : ascii) : list Z :=
  let n := code c in
  if n <? 128 then [n]
  else [Z.lor 192 (Z.shiftr n 6); Z.lor 128 (Z.land n 63)].

Fixpoint encode_utf8 (s : string) : list Z :=
  match s with
  | EmptyString => []
  | String c r => utf8_char c ++ encode_utf8 r
  end.

Definition is_digit (c : ascii) : bool :=
  let n := code c in (48 <=? n) && (n <=? 57).

(** The digits of an [int] literal as [int(str)] reads them: decimal
    digits, single underscores allowed between two digits. [acc] is the
    value so far, [prev] tells whether the previous character was a
    digit. *)
Fixpoint int_digits (s : string) (acc : Z) (prev : bool) : option Z :=
  match s with
  | EmptyString => if prev then Some acc else None
  | String c r =>
      if is_digit c then int_digits r (10 * acc + (code c - 48)) true
      else if Ascii.eqb c "_"%char
           then (if prev then int_digits r acc false else None)
           else None
  end.

(** [int(s)] for a [str] argument: [None] stands for [ValueError]. *)
Definition int_of_str (s : string) : option Z :=
  match strip s with
  | String "-"%char r => option_map Z.opp (int_digits r 0 false)
  | String "+"%char r => int_digits r 0 false
  | r => int_digits r 0 false
  end.

End PyStr.

(* ===================================================================== *)
(** ** [hashlib.md5] (RFC 1321) *)
(* ===================================================================== *)

Module MD5.

Definition mask32 : Z := 0xFFFFFFFF.
Definition w32 (x : Z) : Z := Z.land x mask32.
Definition add32 (x y : Z) : Z := w32 (x + y).
Definition not32 (x : Z) : Z := Z.lxor x mask32.
Definition rotl32 (x : Z) (c : Z) : Z :=
  w32 (Z.lor (Z.shiftl x c) (Z.shiftr x (32 - c))).

Definition S : list Z :=
  [7; 12; 17; 22; 7; 12; 17; 22; 7; 12; 17; 22; 7; 12; 17; 22;
   5;  9; 14; 20; 5;  9; 14; 20; 5;  9; 14; 20; 5;  9; 14; 20;
   4; 11; 16; 23; 4; 11; 16; 23; 4; 11; 16; 23; 4; 11; 16; 23;
   6; 10; 15; 21; 6; 10; 15; 21; 6; 10; 15; 21; 6; 10; 15; 21].

Definition K : list Z :=
  [0xd76aa478; 0xe8c7b756; 0x242070db; 0xc1bdceee; 0xf57c0faf; 0x4787c62a; 0xa8304613; 0xfd469501;
   0x698098d8; 0x8b44f7af; 0xffff5bb1; 0x895cd7be; 0x6b901122; 0xfd987193; 0xa679438e; 0x49b40821;
   0xf61e2562; 0xc040b340; 0x265e5a51; 0xe9b6c7aa; 0xd62f105d; 0x02441453; 0xd8a1e681; 0xe7d3fbc8;
   0x21e1cde6; 0xc33707d6; 0xf4d50d87; 0x455a14ed; 0xa9e3e905; 0xfcefa3f8; 0x676f02d9; 0x8d2a4c8a;
   0xfffa3942; 0x8771f681; 0x6d9d6122; 0xfde5380c; 0xa4beea44; 0x4bdecfa9; 0xf6bb4b60; 0xbebfbc70;
   0x289b7ec6; 0xeaa127fa; 0xd4ef3085; 0x04881d05; 0xd9d4d039; 0xe6db99e5; 0x1fa27cf8; 0xc4ac5665;
   0xf4292244; 0x432aff97; 0xab9423a7; 0xfc93a039; 0x655b59c3; 0x8f0ccc92; 0xffeff47d; 0x85845dd1;
   0x6fa87e4f; 0xfe2ce6e0; 0xa3014314; 0x4e0811a1; 0xf7537e82; 0xbd3af235; 0x2ad7d2bb; 0xeb86d391].

Record state : Type := mkState { sa : Z; sb : Z; sc : Z; sd : Z }.

Definition init : state :=
  mkState 0x67452301 0xefcdab89 0x98badcfe 0x10325476.

(** The message padded to a multiple of 64 bytes: one [0x80], zeros up to
    56 modulo 64, the bit length on 8 little-endian bytes. *)
Definition le_bytes (n : nat) (x : Z) : list Z :=
  map (fun i => Z.land (Z.shiftr x (8 * Z.of_nat i)) 255) (seq 0 n).

Definition pad (msg : list Z) : list Z :=
  let len := Z.of_nat (List.length msg) in
  let zeros := Z.to_nat ((55 - len) mod 64) in
  msg ++ [128] ++ repeat 0 zeros ++ le_bytes 8 (Z.land (8 * len) 0xFFFFFFFFFFFFFFFF).

Fixpoint le_word (bs : list Z) : Z :=
  match bs with
  | [] => 0
  | b :: r => b + 256 * le_word r
  end.

(** The sixteen 32-bit words of a 64-byte block. *)
Definition words (block : list Z) : list Z :=
  map (fun i => le_word (firstn 4 (skipn (4 * i) block))) (seq 0 16).

Definition round (m : list Z) (st : state) (i : nat) : state :=
  let '(mkState a b c d) := st in
  let zi := Z.of_nat i in
  let '(f, g) :=
    if zi <? 16 then (Z.lor (Z.land b c) (Z.land (not32 b) d), zi)
    else if zi <? 32 then (Z.lor (Z.land d b) (Z.land (not32 d) c), (5 * zi + 1) mod 16)
    else if zi <? 48 then (Z.lxor (Z.lxor b c) d, (3 * zi + 5) mod 16)
    else (Z.lxor c (Z.lor b (not32 d)), (7 * zi) mod 16) in
  let f' := add32 (add32 (add32 f a) (nth i K 0)) (nth (Z.to_nat g) m 0) in
  mkState d (add32 b (rotl32 f' (nth i S 0))) b c.

Definition compress (st : state) (block : list Z) : state :=
  let r := fold_left (round (words block)) (seq 0 64) st in
  mkState (add32 (sa st) (sa r)) (add32 (sb st) (sb r))
          (add32 (sc st) (sc r)) (add32 (sd st) (sd r)).

Fixpoint blocks (n : nat) (bs : list Z) : list (list Z) :=
  match n with
  | O => []
  | Datatypes.S n' => firstn 64 bs :: blocks n' (skipn 64 bs)
  end.

Definition digest_state (msg : list Z) : state :=
  let p := pad msg in
  fold_left compress (blocks (List.length p / 64) p) init.

Definition hex_digit (n : Z) : ascii :=
  ascii_of_N (Z.to_N (if n <? 10 then 48 + n else 87 + n)).

Definition hex_byte (b : Z) : string :=
  String (hex_digit (Z.shiftr b 4)) (String (hex_digit (Z.land b 15)) EmptyString).

Definition hex_word (w : Z) : string :=
  hex_byte (Z.land w 255) ++ hex_byte (Z.land (Z.shiftr w 8) 255)
  ++ hex_byte (Z.land (Z.shiftr w 16) 255) ++ hex_byte (Z.land (Z.shiftr w 24) 255).

(** [hashlib.md5(msg).hexdigest()]. *)
Definition hexdigest (msg : list Z) : string :=
  let st := digest_state msg in
  hex_word (sa st) ++ hex_word (sb st) ++ hex_word (sc st) ++ hex_word (sd st).

End MD5.

(* ===================================================================== *)
(** ** collector/db.py *)
(* ===================================================================== *)

(** [DatabaseManager.generate_job_id]. *)
Definition generate_job_id (title link : string) : string :=
  let content := PyStr.encode_utf8 (title ++ "|" ++ link) in
  MD5.hexdigest content.

(** A row of the table [job_entries]. *)
Module JobEntry.
Record t : Type := Build {
  id : string;
  title : string;
  link : string;
  description : string;
  content : string;
  published : string;
  source : string;
  category : string;
  created_at : Z;
  analyzed : bool;
  analysis_result : option string;
  relevance_score : Z
}.
End JobEntry.

(** The [entry_data] dictionaries handed to [add_job_entry]: the seven keys
    every fetcher writes, and the optional key ['relevance_score']. *)
Module Entry.
Record t : Type := Build {
  title : string;
  link : string;
  description : string;
  published : string;
  source : string;
  category : string;
  content : string;
  relevance_score : option Z
}.
End Entry.

(** The table, rows in insertion order; [id] is its primary key. *)
Definition Database : Type := list JobEntry.t.

Definition primary_key (db : Database) : Prop := NoDup (map JobEntry.id db).

(** [session.query(JobEntry).filter_by(id=job_id).first()]. *)
Definition query_by_id (job_id : string) (db : Database) : option JobEntry.t :=
  find (fun r => String.eqb (JobEntry.id r) job_id) db.

(** [SELECT COUNT( * ) ... WHERE p]. *)
Definition count_rows (p : JobEntry.t -> bool) (db : Database) : Z :=
  Z.of_nat (List.length (filter p db)).

(** [DatabaseManager.add_job_entry]; [now] is [datetime.utcnow()], the
    column default of [created_at]. *)
Definition add_job_entry (now : Z) (entry_data : Entry.t) (db : Database)
  : bool * Database :=
  let job_id := generate_job_id (Entry.title entry_data) (Entry.link entry_data) in
  match query_by_id job_id db with
  | Some existing => (false, db)
  | None =>
      let job_entry := {|
        JobEntry.id := job_id;
        JobEntry.title := Entry.title entry_data;
        JobEntry.link := Entry.link entry_data;
        JobEntry.description := Entry.description entry_data;
        JobEntry.content := Entry.content entry_data;
        JobEntry.published := Entry.published entry_data;
        JobEntry.source := Entry.source entry_data;
        JobEntry.category := Entry.category entry_data;
        JobEntry.created_at := now;
        JobEntry.analyzed := false;
        JobEntry.analysis_result := None;
        JobEntry.relevance_score := dict_get (Entry.relevance_score entry_data) 0
      |} in
      (true, (db ++ [job_entry])%list)
  end.

(** [DatabaseManager.get_unanalyzed_entries]. *)
Definition get_unanalyzed_entries (db : Database) : list JobEntry.t :=
  filter (fun r => negb (JobEntry.analyzed r)) db.

(** [DatabaseManager.update_analysis_result]. *)
Fixpoint update_analysis_result (job_id analysis_result : string) (db : Database)
  : Database :=
  match db with
  | [] => []
  | r :: rest =>
      if String.eqb (JobEntry.id r) job_id then
        {| JobEntry.id := JobEntry.id r;
           JobEntry.title := JobEntry.title r;
           JobEntry.link := JobEntry.link r;
           JobEntry.description := JobEntry.description r;
           JobEntry.content := JobEntry.content r;
           JobEntry.published := JobEntry.published r;
           JobEntry.source := JobEntry.source r;
           JobEntry.category := JobEntry.category r;
           JobEntry.created_at := JobEntry.created_at r;
           JobEntry.analyzed := true;
           JobEntry.analysis_result := Some analysis_result;
           JobEntry.relevance_score := JobEntry.relevance_score r |} :: rest
      else r :: update_analysis_result job_id analysis_result rest
  end.

(** [DatabaseManager.get_all_entries(limit, offset)]; the defaults are
    [limit = 100] and [offset = 0]. *)
Definition get_all_entries (limit offset : N) (db : Database) : list JobEntry.t :=
  firstn (N.to_nat limit) (skipn (N.to_nat offset) db).

(* ===================================================================== *)
(** ** ui/backend_api.py: [get_stats] *)
(* ===================================================================== *)

Record Stats : Type := {
  total_jobs : Z;
  analyzed_jobs : Z;
  pending_analysis : Z
}.

Definition get_stats (db : Database) : Stats :=
  let total := Z.of_nat (List.length (get_all_entries 10000 0 db)) in
  let unanalyzed_jobs := Z.of_nat (List.length (get_unanalyzed_entries db)) in
  {| total_jobs := total;
     analyzed_jobs := total - unanalyzed_jobs;
     pending_analysis := unanalyzed_jobs |}.

(* ===================================================================== *)
(** ** config/config_loader.py: the configuration dictionary *)
(* ===================================================================== *)

(** [config['recruitment_filters']], both keys optional. *)
Record RecruitmentFilters : Type := {
  required_degree : option string;
  citizenship_requirement : option string
}.

(** The keys of [config.yaml] that the modelled code reads. A key that the
    file need not have is an [option]: [keywords] is read with
    [config['keywords']] (a [KeyError] when absent), the others with
    [config.get]. *)
Record Config : Type := {
  keywords : option (list string);
  recruitment_filters : option RecruitmentFilters;
  last_miniflux_fetch : option string
}.

Definition set_last_miniflux_fetch (ts : string) (c : Config) : Config :=
  {| keywords := keywords c;
     recruitment_filters := recruitment_filters c;
     last_miniflux_fetch := Some ts |}.

(** [ConfigLoader]: the dictionary cached in [_config] and the one on disk
    in [config.yaml]. *)
Record ConfigLoader : Type := {
  cached : Config;
  on_disk : Config
}.

(** [ConfigLoader.save_yaml_config], called with the cached dictionary after
    it was updated in place: the cache holds the update whether or not the
    file could be written. *)
Definition save_yaml_config (write_error : option exn) (config : Config)
  (cl : ConfigLoader) : result unit * ConfigLoader :=
  match write_error with
  | Some e => (Raise e, {| cached := config; on_disk := on_disk cl |})
  | None => (Ok tt, {| cached := config; on_disk := config |})
  end.

(* ===================================================================== *)
(** ** analysis/llm_client.py *)
(* ===================================================================== *)

(** The three providers as seen from the client: what the body of each
    [try] block yields for a prompt, and the exception, if any, of the
    statements before the [try] (reading [self.config['model']] and the
    like, importing the provider's package, building its client). *)
Record LLMBackend : Type := {
  ollama_setup : option exn;
  ollama_generate : string -> result string;
  openai_setup : option exn;
  openai_chat : string -> result string;
  anthropic_setup : option exn;
  anthropic_messages : string -> result string
}.

Record LLMClient : Type := {
  provider : string;
  backend : LLMBackend
}.

Definition _call_ollama (c : LLMClient) (prompt : string) : result string :=
  match ollama_setup (backend c) with
  | Some e => Raise e
  | None =>
      match ollama_generate (backend c) prompt with
      | Ok response => Ok response
      | Raise e => Ok ("Error calling Ollama: " ++ exn_msg e)
      end
  end.

Definition _call_openai (c : LLMClient) (prompt : string) : result string :=
  match openai_setup (backend c) with
  | Some e => Raise e
  | None =>
      match openai_chat (backend c) prompt with
      | Ok response => Ok response
      | Raise e => Ok ("Error calling OpenAI: " ++ exn_msg e)
      end
  end.

Definition _call_anthropic (c : LLMClient) (prompt : string) : result string :=
  match anthropic_setup (backend c) with
  | Some e => Raise e
  | None =>
      match anthropic_messages (backend c) prompt with
      | Ok response => Ok response
      | Raise e => Ok ("Error calling Anthropic: " ++ exn_msg e)
      end
  end.

Definition _call_llm (c : LLMClient) (prompt : string) : result string :=
  if String.eqb (provider c) "ollama" then _call_ollama c prompt
  else if String.eqb (provider c) "openai" then _call_openai c prompt
  else if String.eqb (provider c) "anthropic" then _call_anthropic c prompt
  else Raise (PyExn ValueError ("Unsupported LLM provider: " ++ provider c)).

(* ===================================================================== *)
(** ** collector/rss_client.py: the relevance gate *)
(* ===================================================================== *)

(** [RSSClient._is_job_already_processed]. *)
Definition _is_job_already_processed (db : Database) (title link : string) : bool :=
  match query_by_id (generate_job_id title link) db with
  | Some _ => true
  | None => false
  end.

(** The scoring prompt of [_quick_relevance_check]. *)
Definition relevance_prompt (degree_req citizenship_req : string)
  (kws : list string) (title description : string) : string :=
  "Rate this job for " ++ degree_req ++ " international student (0-10):" ++ PyStr.nl
  ++ "    Keywords: " ++ PyStr.join ", " kws ++ PyStr.nl
  ++ "    Requirements: " ++ degree_req ++ " degree, " ++ citizenship_req ++ PyStr.nl
  ++ PyStr.nl
  ++ "    Title: " ++ title ++ PyStr.nl
  ++ "    Description: " ++ description ++ PyStr.nl
  ++ PyStr.nl
  ++ "    Check for: " ++ degree_req
  ++ " requirement, visa sponsorship, citizenship restrictions" ++ PyStr.nl
  ++ "    Score only (0-10):".

(** The prompt as the function builds it from the configuration, or the
    [KeyError] of [config_loader.config['keywords']]. *)
Definition build_relevance_prompt (cfg : Config) (title description : string)
  : result string :=
  let filters := dict_get (recruitment_filters cfg)
                   {| required_degree := None; citizenship_requirement := None |} in
  let degree_req := dict_get (required_degree filters) "PhD" in
  let citizenship_req :=
    dict_get (citizenship_requirement filters) "open to international students" in
  match keywords cfg with
  | None => Raise (PyExn KeyError "'keywords'")
  | Some kws => Ok (relevance_prompt degree_req citizenship_req kws title description)
  end.

(** The cache lookup at the head of [_quick_relevance_check]: the verdict
    of a stored score, when there is a link, a stored row for the identity
    and a positive score in it. *)
Definition cached_verdict (db : Database) (title link : string) : option (bool * Z) :=
  if PyStr.truthy link then
    match query_by_id (generate_job_id title link) db with
    | Some cached =>
        if JobEntry.relevance_score cached >? 0
        then Some (JobEntry.relevance_score cached >=? 6, JobEntry.relevance_score cached)
        else None
    | None => None
    end
  else None.

(** The [try] block of [_quick_relevance_check]. *)
Definition score_with_llm (llm : LLMClient) (prompt : string) : result (bool * Z) :=
  (score <- _call_llm llm prompt ;;
   match PyStr.int_of_str (PyStr.strip score) with
   | Some n => Ok (n >=? 6, n)
   | None => Raise (PyExn ValueError "invalid literal for int() with base 10")
   end)%py.

(** [RSSClient._quick_relevance_check]. *)
Definition _quick_relevance_check (cfg : Config) (db : Database) (llm : LLMClient)
  (title description link : string) : result (bool * Z) :=
  match cached_verdict db title link with
  | Some verdict => Ok verdict
  | None =>
      (prompt <- build_relevance_prompt cfg title description ;;
       match score_with_llm llm prompt with
       | Ok verdict => Ok verdict
       | Raise _ => Ok (true, 6)
       end)%py
  end.

(* ===================================================================== *)
(** ** collector/rss_client.py: content fetching *)
(* ===================================================================== *)

(** A parsed page as BeautifulSoup presents it: strings and elements. A
    string is an object of the class the parser gave it: [NavigableString]
    for the text of the page, [CData], [Comment], [Declaration], [Doctype]
    and [ProcessingInstruction] for markup of these kinds, and for the text
    inside certain elements the class of [string_containers]: [Script]
    inside [script], [Stylesheet] inside [style], [TemplateString] inside
    [template], [RubyTextString] inside [rt] and [RubyParenthesisString]
    inside [rp]. An element has a tag name, the multi-valued [class]
    attribute, the other attributes and the children. *)
Module Html.

Inductive string_class : Type :=
  | NavigableString
  | CData
  | Comment
  | Declaration
  | Doctype
  | ProcessingInstruction
  | Script
  | Stylesheet
  | TemplateString
  | RubyTextString
  | RubyParenthesisString.

Definition class_eqb (a b : string_class) : bool :=
  match a, b with
  | NavigableString, NavigableString
  | CData, CData
  | Comment, Comment
  | Declaration, Declaration
  | Doctype, Doctype
  | ProcessingInstruction, ProcessingInstruction
  | Script, Script
  | Stylesheet, Stylesheet
  | TemplateString, TemplateString
  | RubyTextString, RubyTextString
  | RubyParenthesisString, RubyParenthesisString => true
  | _, _ => false
  end.

(** [type(descendant) in types]. *)
Definition class_in (c : string_class) (types : list string_class) : bool :=
  existsb (class_eqb c) types.

#[warnings="-register-all"]
Inductive node : Type :=
  | Text (cls : string_class) (s : string)
  | Element (tag : string) (classes : list string)
            (attrs : list (string * string)) (children : list node).

(** [Tag.MAIN_CONTENT_STRING_TYPES]: the strings that count as the text of
    a page. *)
Definition MAIN_CONTENT_STRING_TYPES : list string_class := [NavigableString; CData].

(** [HTMLTreeBuilder.DEFAULT_STRING_CONTAINERS]. *)
Definition string_containers (tag : string) : option string_class :=
  if String.eqb tag "rt" then Some RubyTextString
  else if String.eqb tag "rp" then Some RubyParenthesisString
  else if String.eqb tag "style" then Some Stylesheet
  else if String.eqb tag "script" then Some Script
  else if String.eqb tag "template" then Some TemplateString
  else None.

(** [Tag.interesting_string_types], set when the element is built: the
    class of its container, else the main content classes. The document
    object itself has the main content classes. *)
Definition interesting_string_types (tag : string) : list string_class :=
  match string_containers tag with
  | Some c => [c]
  | None => MAIN_CONTENT_STRING_TYPES
  end.

(** [for element in soup(tags): element.decompose()]: every element with
    one of the tag names is removed with its subtree. *)
Fixpoint decompose_node (tags : list string) (n : node) : list node :=
  match n with
  | Text cls s => [Text cls s]
  | Element tag classes attrs children =>
      if str_in tag tags then []
      else [Element tag classes attrs (flat_map (decompose_node tags) children)]
  end.

Definition decompose (tags : list string) (soup : list node) : list node :=
  flat_map (decompose_node tags) soup.

(** The CSS selectors the code uses. *)
Inductive selector : Type :=
  | ByTag (name : string)
  | ByAttr (key value : string)
  | ByClass (name : string)
  | ById (name : string).

Definition attr_is (key value : string) (attrs : list (string * string)) : bool :=
  match find (fun kv => String.eqb (fst kv) key) attrs with
  | Some kv => String.eqb (snd kv) value
  | None => false
  end.

Definition matches (sel : selector) (tag : string) (classes : list string)
  (attrs : list (string * string)) : bool :=
  match sel with
  | ByTag name => String.eqb tag name
  | ByAttr key value => attr_is key value attrs
  | ByClass name => str_in name classes
  | ById name => attr_is "id" name attrs
  end.

(** [soup.select_one(selector)]: the first matching element in document
    order. *)
Fixpoint select_node (sel : selector) (n : node) : option node :=
  match n with
  | Text _ _ => None
  | Element tag classes attrs children =>
      if matches sel tag classes attrs then Some n
      else
        (fix first (l : list node) : option node :=
           match l with
           | [] => None
           | c :: r =>
               match select_node sel c with
               | Some e => Some e
               | None => first r
               end
           end) children
  end.

Fixpoint select_one (sel : selector) (soup : list node) : option node :=
  match soup with
  | [] => None
  | n :: r =>
      match select_node sel n with
      | Some e => Some e
      | None => select_one sel r
      end
  end.

(** [_all_strings(strip=True, types=types)] over a node and its
    descendants, in document order: a string whose class is not one of
    [types] is passed over, the others are stripped and the empty ones
    dropped. *)
Fixpoint _all_strings (types : list string_class) (n : node) : list string :=
  match n with
  | Text cls s =>
      if class_in cls types then
        let s' := PyStr.strip s in
        if PyStr.truthy s' then [s'] else []
      else []
  | Element _ _ _ children => flat_map (_all_strings types) children
  end.

(** [soup.get_text(strip=True, separator='\n')] on the document: the
    strings of the main content classes, so neither comments nor the text
    inside [template], [rt], [rp], [script] or [style]. *)
Definition get_text (soup : list node) : string :=
  PyStr.join PyStr.nl (flat_map (_all_strings MAIN_CONTENT_STRING_TYPES) soup).

(** [element.get_text(strip=True, separator='\n')] on an element of the
    page: the strings among its descendants whose class is one of the
    element's [interesting_string_types]. *)
Definition tag_get_text (n : node) : string :=
  match n with
  | Text _ _ => PyStr.join PyStr.nl (_all_strings MAIN_CONTENT_STRING_TYPES n)
  | Element tag _ _ children =>
      PyStr.join PyStr.nl
        (flat_map (_all_strings (interesting_string_types tag)) children)
  end.

End Html.

(** What [session.get] returns: the status code, [response.text], and
    [BeautifulSoup(response.content, 'html.parser')]. *)
Record Response : Type := {
  status_code : Z;
  text : string;
  soup : list Html.node
}.

(** The network as the client sees it: the outcome of the [k]-th request of
    the session when it is a GET of a given URL. *)
Definition Network : Type := nat -> string -> result Response.

(** [RSSClient._fetch_with_jina]; [k] numbers the request it sends. *)
Definition _fetch_with_jina (net : Network) (k : nat) (url : string) : string :=
  let jina_url := "https://r.jina.ai/" ++ url in
  match net k jina_url with
  | Ok response =>
      if status_code response =? 200 then PyStr.take 8000 (text response) else ""
  | Raise _ => ""
  end.

Definition content_selectors : list Html.selector :=
  [Html.ByTag "main"; Html.ByAttr "role" "main"; Html.ByClass "job-description";
   Html.ByClass "job-details"; Html.ByClass "position-summary"; Html.ByClass "content";
   Html.ById "content"; Html.ByClass "post-content"; Html.ByTag "article";
   Html.ByClass "job-posting"; Html.ByClass "job-info"].

(** The loop over [content_selectors]: the text of the first selected
    element with more than 200 characters. *)
Fixpoint first_substantial (selectors : list Html.selector) (page : list Html.node)
  : option string :=
  match selectors with
  | [] => None
  | sel :: rest =>
      match Html.select_one sel page with
      | Some content_div =>
          let t := Html.tag_get_text content_div in
          if PyStr.len t >? 200 then Some t else first_substantial rest page
      | None => first_substantial rest page
      end
  end.

(** The page after [_fetch_with_enhanced_bs4] removed the unwanted
    elements. *)
Definition without_unwanted (page : list Html.node) : list Html.node :=
  Html.decompose ["script"; "style"; "nav"; "header"; "footer"; "aside"] page.

(** The text [_fetch_with_enhanced_bs4] extracts from a parsed page: that
    of the first substantial selector, else ("Fallback to body") that of
    the whole page. *)
Definition enhanced_text (page : list Html.node) : string :=
  let page' := without_unwanted page in
  match first_substantial content_selectors page' with
  | Some t => PyStr.take 8000 t
  | None => PyStr.take 8000 (Html.get_text page')
  end.

(** [RSSClient._fetch_with_enhanced_bs4]. *)
Definition _fetch_with_enhanced_bs4 (net : Network) (k : nat) (url : string) : string :=
  match net k url with
  | Ok response => enhanced_text (soup response)
  | Raise _ => ""
  end.

(** The text [_fetch_basic_content] extracts from a parsed page. *)
Definition basic_text (page : list Html.node) : string :=
  PyStr.take 5000 (Html.get_text (Html.decompose ["script"; "style"] page)).

(** [RSSClient._fetch_basic_content]. *)
Definition _fetch_basic_content (net : Network) (k : nat) (url : string) : string :=
  match net k url with
  | Ok response => basic_text (soup response)
  | Raise _ => ""
  end.

(** [RSSClient._fetch_full_content]; the session has sent [k] requests
    before the call, the result comes with the number sent after it. *)
Definition _fetch_full_content (net : Network) (k : nat) (url : string)
  : string * nat :=
  if negb (PyStr.truthy url) then ("", k)
  else
    let content := _fetch_with_jina net k url in
    if PyStr.truthy content then (content, S k)
    else
      let content := _fetch_with_enhanced_bs4 net (S k) url in
      if PyStr.truthy content then (content, S (S k))
      else (_fetch_basic_content net (S (S k)) url, S (S (S k))).

(* ===================================================================== *)
(** ** collector/rss_client.py: the Miniflux provider *)
(* ===================================================================== *)

(** An entry of the JSON answer of [/v1/entries]; every key is read with
    [entry.get], so each may be absent. [relevance_score] is the key the
    loop writes into the entry. *)
Module Raw.
Record t : Type := Build {
  title : option string;
  url : option string;
  link : option string;
  description : option string;
  content : option string;
  published_at : option string;
  feed : option (option string);  (* entry['feed']['title'] *)
  relevance_score : option Z
}.

Definition set_relevance_score (score : Z) (e : t) : t :=
  {| title := title e; url := url e; link := link e;
     description := description e; content := content e;
     published_at := published_at e; feed := feed e;
     relevance_score := Some score |}.
End Raw.

(** What the poll needs from the outside: the decoded answer of the GET
    (after [raise_for_status] and [response.json()]) for a given [after]
    parameter, the pages behind the entry URLs, the analysis service, and
    whether [config.yaml] can be written. *)
Record World : Type := {
  miniflux_entries : option string -> result (option (list Raw.t));
  network : Network;
  llm_client : LLMClient;
  yaml_write_error : option exn
}.

(** Truthiness of a value that is [None] or a [str]. *)
Definition truthy_opt (v : option string) : bool :=
  match v with
  | Some s => PyStr.truthy s
  | None => false
  end.

(** The local variables the loop of [_fetch_miniflux] updates. *)
Record LoopState : Type := {
  entries : list Entry.t;
  latest_timestamp : option string;
  seen : list Raw.t;      (* the entries of the answer, as the loop leaves them *)
  requests : nat          (* requests sent by the session so far *)
}.

(** [if not latest_timestamp or entry_time > latest_timestamp:
    latest_timestamp = entry_time]. *)
Definition track_latest (latest_timestamp : option string) (entry_time : string)
  : option string :=
  if negb (truthy_opt latest_timestamp)
     || PyStr.gtb entry_time (dict_get latest_timestamp "")
  then Some entry_time else latest_timestamp.

(** One iteration of [for entry in data.get('entries', [])]. *)
Definition miniflux_step (w : World) (cfg : Config) (db : Database)
  (st : LoopState) (entry : Raw.t) : result LoopState :=
  let title := dict_get (Raw.title entry) "" in
  let link := dict_get (Raw.url entry) "" in
  if _is_job_already_processed db title link then
    Ok {| entries := entries st; latest_timestamp := latest_timestamp st;
          seen := (seen st ++ [entry])%list; requests := requests st |}
  else
    let entry_time := dict_get (Raw.published_at entry) "" in
    let latest := track_latest (latest_timestamp st) entry_time in
    (verdict <- _quick_relevance_check cfg db (llm_client w)
                  (dict_get (Raw.title entry) "")
                  (dict_get (Raw.description entry) "")
                  (dict_get (Raw.link entry) "") ;;
     let '(is_relevant, relevance_score) := verdict in
     if negb is_relevant then
       Ok {| entries := entries st; latest_timestamp := latest;
             seen := (seen st ++ [entry])%list; requests := requests st |}
     else if relevance_score <? 6 then
       Ok {| entries := entries st; latest_timestamp := latest;
             seen := (seen st ++ [entry])%list; requests := requests st |}
     else
       let entry' :=
         if relevance_score >=? 6
         then Raw.set_relevance_score relevance_score entry else entry in
       let '(full, k) :=
         _fetch_full_content (network w) (requests st) (dict_get (Raw.url entry') "") in
       Ok {| entries :=
               (entries st ++
                [{| Entry.title := dict_get (Raw.title entry') "";
                    Entry.link := dict_get (Raw.url entry') "";
                    Entry.description := dict_get (Raw.content entry') "";
                    Entry.published := entry_time;
                    Entry.source := dict_get (dict_get (Raw.feed entry') None) "";
                    Entry.category := "general";
                    Entry.content := full;
                    Entry.relevance_score := None |}])%list;
             latest_timestamp := latest;
             seen := (seen st ++ [entry'])%list;
             requests := k |})%py.

Fixpoint miniflux_loop (w : World) (cfg : Config) (db : Database)
  (st : LoopState) (data : list Raw.t) : result LoopState :=
  match data with
  | [] => Ok st
  | entry :: rest =>
      (st' <- miniflux_step w cfg db st entry ;;
       miniflux_loop w cfg db st' rest)%py
  end.

(** [a != b] for two values that are [None] or a [str]. *)
Definition opt_neqb (a b : option string) : bool :=
  match a, b with
  | Some x, Some y => negb (String.eqb x y)
  | None, None => false
  | _, _ => true
  end.

(** The body of the [try] of [_fetch_miniflux]: what it returns or raises,
    and the configuration loader it leaves. *)
Definition miniflux_try (w : World) (cl : ConfigLoader) (db : Database)
  : result (list Entry.t) * ConfigLoader :=
  let last_fetch := last_miniflux_fetch (cached cl) in
  let after := if truthy_opt last_fetch then last_fetch else None in
  match miniflux_entries w after with
  | Raise e => (Raise e, cl)
  | Ok data =>
      match miniflux_loop w (cached cl) db
              {| entries := []; latest_timestamp := last_fetch;
                 seen := []; requests := 1 |}
              (dict_get data []) with
      | Raise e => (Raise e, cl)
      | Ok st =>
          if truthy_opt (latest_timestamp st)
             && opt_neqb (latest_timestamp st) last_fetch then
            let config :=
              set_last_miniflux_fetch (dict_get (latest_timestamp st) "") (cached cl) in
            match save_yaml_config (yaml_write_error w) config cl with
            | (Raise e, cl') => (Raise e, cl')
            | (Ok _, cl') => (Ok (entries st), cl')
            end
          else (Ok (entries st), cl)
      end
  end.

(** [RSSClient._fetch_miniflux]: any exception is printed and the answer
    is the empty list. *)
Definition _fetch_miniflux (w : World) (cl : ConfigLoader) (db : Database)
  : list Entry.t * ConfigLoader :=
  match miniflux_try w cl db with
  | (Ok es, cl') => (es, cl')
  | (Raise _, cl') => ([], cl')
  end.

(** The value of a watermark: [None] and the empty text are both "no
    watermark". *)
Definition watermark (v : option string) : string := dict_get v "".

(** The answer the poll gets for the [after] parameter it sends. *)
Definition poll_answer (w : World) (cl : ConfigLoader)
  : result (option (list Raw.t)) :=
  let last_fetch := last_miniflux_fetch (cached cl) in
  miniflux_entries w (if truthy_opt last_fetch then last_fetch else None).

(** The entries of an answer whose identity is not in the store yet. *)
Definition fresh_entries (db : Database) (data : list Raw.t) : list Raw.t :=
  filter (fun entry =>
            negb (_is_job_already_processed db (dict_get (Raw.title entry) "")
                    (dict_get (Raw.url entry) ""))) data.

(** An entry dictionary without the key ['relevance_score']. *)
Definition unscored (e : Entry.t) : Prop := Entry.relevance_score e = None.

Definition published_times (data : list Raw.t) : list string :=
  map (fun entry => dict_get (Raw.published_at entry) "") data.

(** [x] is the greatest text of [l] in the order of [str] comparison. *)
Definition greatest (x : string) (l : list string) : Prop :=
  In x l /\ forall y, In y l -> String.leb y x = true.

(* ===================================================================== *)
(** ** collector/scheduler.py: storing what was fetched *)
(* ===================================================================== *)

(** The loop [for entry in entries: if db_manager.add_job_entry(entry): ...]
    of [fetch_and_analyze_jobs]; [clock i] is what [datetime.utcnow()]
    reads while entry number [i] is handled. *)
Fixpoint store_entries (clock : nat -> Z) (i : nat) (es : list Entry.t)
  (db : Database) (new_count : Z) : Z * Database :=
  match es with
  | [] => (new_count, db)
  | entry :: rest =>
      let '(inserted, db') := add_job_entry (clock i) entry db in
      store_entries clock (S i) rest db'
        (if inserted then new_count + 1 else new_count)
  end.

(* ===================================================================== *)
(** ** analysis/vector_store.py *)
(* ===================================================================== *)

(** A record of [documents]. *)
Module Doc.
Record t : Type := Build {
  id : string;
  title : string;
  link : string;
  source : string;
  published : string;
  text : string;
  analysis : option string
}.
End Doc.

(** The sentence-embedding model and the numeric routines applied to its
    vectors: the type of a vector, the width of the model's output, the
    embedding of one text, the error (if any) a batch call ends with, and
    [faiss.normalize_L2] and [astype('float32')] on one row. *)
Record Embedding : Type := {
  vec : Type;
  dimension : Z;
  embed : string -> vec;
  encode_error : list string -> option exn;
  normalize_L2 : vec -> vec;
  astype_float32 : vec -> vec
}.

Section VectorStoreModel.

Variable M : Embedding.

(** [embedding_model.encode(texts)]: one row per text. *)
Definition encode (texts : list string) : result (list (vec M)) :=
  match encode_error M texts with
  | Some e => Raise e
  | None => Ok (map (embed M) texts)
  end.

(** [faiss.IndexFlatIP]: the dimension [d] and the stored rows; [ntotal]
    is their number. *)
Record IndexFlatIP : Type := {
  d : Z;
  xb : list (vec M)
}.

Definition ntotal (ix : IndexFlatIP) : Z := Z.of_nat (List.length (xb ix)).

(** [index.add(x)] for a matrix [x] of width [width]: refused, before any
    row is stored, when the width is not the index's. *)
Definition index_add (width : Z) (x : list (vec M)) (ix : IndexFlatIP)
  : result IndexFlatIP :=
  if width =? d ix then Ok {| d := d ix; xb := (xb ix ++ x)%list |}
  else Raise (PyExn AssertionError "").

Record VectorStore : Type := {
  index : IndexFlatIP;
  documents : list Doc.t
}.

(** [VectorStore._create_new_index]. *)
Definition _create_new_index (vs : VectorStore) : result unit * VectorStore :=
  match encode ["sample text"] with
  | Raise e => (Raise e, vs)
  | Ok sample_embedding =>
      (Ok tt, {| index := {| d := dimension M; xb := [] |}; documents := [] |})
  end.

(** The body of the loop of [add_job_entries] for one job. *)
Definition make_doc (job : JobEntry.t) : Doc.t :=
  let analysis_text :=
    match JobEntry.analysis_result job with
    | Some a => if PyStr.truthy a then a else ""
    | None => ""
    end in
  let searchable_text :=
    JobEntry.title job ++ " " ++ JobEntry.description job ++ " " ++ analysis_text in
  {| Doc.id := JobEntry.id job;
     Doc.title := JobEntry.title job;
     Doc.link := JobEntry.link job;
     Doc.source := JobEntry.source job;
     Doc.published := JobEntry.published job;
     Doc.text := searchable_text;
     Doc.analysis := JobEntry.analysis_result job |}.

(** [VectorStore.add_job_entries]. An error of [_save_index] is caught
    there and the files it writes are not part of this state. *)
Definition add_job_entries (job_entries : list JobEntry.t) (vs : VectorStore)
  : result unit * VectorStore :=
  match job_entries with
  | [] => (Ok tt, vs)
  | _ =>
      let new_docs := map make_doc job_entries in
      let texts_to_embed := map Doc.text new_docs in
      match encode texts_to_embed with
      | Raise e => (Raise e, vs)
      | Ok embeddings =>
          let embeddings := map (normalize_L2 M) embeddings in
          match index_add (dimension M) (map (astype_float32 M) embeddings)
                  (index vs) with
          | Raise e => (Raise e, vs)
          | Ok ix =>
              (Ok tt, {| index := ix;
                         documents := (documents vs ++ new_docs)%list |})
          end
      end
  end.

(** [range(0, n, step)] as the list of its values, for [step > 0]. *)
Definition range_step (n step : nat) : list nat :=
  map (fun k => k * step)%nat (seq 0 ((n + step - 1) / step)).

(** [l[i:i + size]]. *)
Definition slice {A} (l : list A) (i size : nat) : list A :=
  firstn size (skipn i l).

(** [for i in range(0, len(all_jobs), batch_size): add_job_entries(...)]. *)
Fixpoint add_batches (all_jobs : list JobEntry.t) (batch_size : nat)
  (starts : list nat) (vs : VectorStore) : result unit * VectorStore :=
  match starts with
  | [] => (Ok tt, vs)
  | i :: rest =>
      match add_job_entries (slice all_jobs i batch_size) vs with
      | (Raise e, vs') => (Raise e, vs')
      | (Ok _, vs') => add_batches all_jobs batch_size rest vs'
      end
  end.

(** The names [rebuild_index] can reach. [JobEntry] names the mapped
    class, bound in the function by [from collector.db import JobEntry]. *)
Inductive pyobj : Type :=
  | JobEntryClass
  | EngineObj
  | SessionObj
  | BoundMethod (name : string).

(** Attribute lookup on the [DatabaseManager] instance [db_manager]: its
    instance attributes [engine] and [session] and the methods of its
    class. *)
Definition db_manager_getattr (name : string) : result pyobj :=
  if String.eqb name "engine" then Ok EngineObj
  else if String.eqb name "session" then Ok SessionObj
  else if str_in name ["__init__"; "generate_job_id"; "add_job_entry";
                         "get_unanalyzed_entries"; "update_analysis_result";
                         "get_all_entries"; "search_entries"]
  then Ok (BoundMethod name)
  else Raise (PyExn AttributeError
                ("'DatabaseManager' object has no attribute '" ++ name ++ "'")).

(** [session.query(entity).filter_by(analyzed=True).all()]. *)
Definition query_analyzed (entity : pyobj) (db : Database)
  : result (list JobEntry.t) :=
  match entity with
  | JobEntryClass => Ok (filter JobEntry.analyzed db)
  | _ => Raise (PyExn TypeError "not a mapped entity")
  end.

(** [VectorStore.rebuild_index]. *)
Definition rebuild_index (db : Database) (vs : VectorStore)
  : result unit * VectorStore :=
  match _create_new_index vs with
  | (Raise e, vs1) => (Raise e, vs1)
  | (Ok _, vs1) =>
      match db_manager_getattr "JobEntry" with
      | Raise e => (Raise e, vs1)
      | Ok entity =>
          match query_analyzed entity db with
          | Raise e => (Raise e, vs1)
          | Ok all_jobs =>
              let batch_size := 100%nat in
              add_batches all_jobs batch_size
                (range_step (List.length all_jobs) batch_size) vs1
          end
      end
  end.

(** The row the index holds for a document: the embedding of its text,
normalised and converted. *)
Definition stored_vector (doc : Doc.t) : vec M :=
astype_float32 M (normalize_L2 M (embed M (Doc.text doc))).

(** Alignment of the index with the documents: row [i] of the index is
the vector of document [i]. *)
Definition aligned (vs : VectorStore) : Prop :=
xb (index vs) = map stored_vector (documents vs).

(** An index of dimension [dim] with nothing in it, and no documents. *)
Definition empty_store (dim : Z) : VectorStore :=
{| index := {| d := dim; xb := [] |}; documents := [] |}.

(** A sequence of calls of [add_job_entries], whether they return or
raise. *)
Definition run_adds (calls : list (list JobEntry.t)) (vs : VectorStore)
: VectorStore :=
fold_left (fun vs job_entries => snd (add_job_entries job_entries vs)) calls vs.

End VectorStoreModel.

(* ===================================================================== *)
(** ** Sample data *)
(* ===================================================================== *)

Definition sample_entry : Entry.t :=
  {| Entry.title := "Assistant Professor X";
     Entry.link := "https://example.com/1";
     Entry.description := "Tenure-track position";
     Entry.published := "2024-05-01T10:00:00Z";
     Entry.source := "Example Jobs";
     Entry.category := "general";
     Entry.content := "";
     Entry.relevance_score := None |}.

Definition other_entry : Entry.t :=
  {| Entry.title := "Postdoc Y";
     Entry.link := "https://example.com/2";
     Entry.description := "Two-year postdoc";
     Entry.published := "2024-04-01T09:00:00Z";
     Entry.source := "Example Jobs";
     Entry.category := "general";
     Entry.content := "";
     Entry.relevance_score := None |}.

(** A table with one row. *)
Definition sample_db : Database := snd (add_job_entry 1000 other_entry []).

(** Row number [i] of a generated table: its link ends in [i], its id is
    that of its title and link. *)
Definition numbered_row (is_analyzed : bool) (i : nat) : JobEntry.t :=
  let link := "https://example.com/job/" ++ NilEmpty.string_of_uint (Nat.to_uint i) in
  {| JobEntry.id := generate_job_id "Job" link;
     JobEntry.title := "Job";
     JobEntry.link := link;
     JobEntry.description := "d";
     JobEntry.content := "";
     JobEntry.published := "";
     JobEntry.source := "s";
     JobEntry.category := "general";
     JobEntry.created_at := Z.of_nat i;
     JobEntry.analyzed := is_analyzed;
     JobEntry.analysis_result := if is_analyzed then Some "fit" else None;
     JobEntry.relevance_score := 0 |}.

Definition analyzed_row (i : nat) : JobEntry.t := numbered_row true i.

(** A table of 10001 rows, none analyzed. *)
Definition db10001 : Database := map (numbered_row false) (seq 0 (N.to_nat 10001)).

(** An analysis service that is an Ollama server answering every prompt
    with [answer], and one whose server cannot be reached. *)
Definition no_backend : LLMBackend :=
  {| ollama_setup := None;
     ollama_generate := fun _ => Raise (PyExn RequestException "connection refused");
     openai_setup := Some (PyExn ImportError "No module named 'openai'");
     openai_chat := fun _ => Raise (PyExn RequestException "connection refused");
     anthropic_setup := Some (PyExn ImportError "No module named 'anthropic'");
     anthropic_messages := fun _ => Raise (PyExn RequestException "connection refused") |}.

Definition answering (answer : string) : LLMClient :=
  {| provider := "ollama";
     backend :=
       {| ollama_setup := None;
          ollama_generate := fun _ => Ok answer;
          openai_setup := openai_setup no_backend;
          openai_chat := openai_chat no_backend;
          anthropic_setup := anthropic_setup no_backend;
          anthropic_messages := anthropic_messages no_backend |} |}.

Definition unreachable_llm : LLMClient :=
  {| provider := "ollama"; backend := no_backend |}.

Definition unsupported_llm : LLMClient :=
  {| provider := "llamacpp"; backend := no_backend |}.

Definition sample_config : Config :=
  {| keywords := Some ["machine learning"; "verification"];
     recruitment_filters := None;
     last_miniflux_fetch := Some "2024-01-01T00:00:00Z" |}.

(** A stored row with a cached score of 8, and one whose link is empty. *)
Definition scored_entry : Entry.t :=
  {| Entry.title := "Lecturer Z";
     Entry.link := "https://example.com/3";
     Entry.description := "";
     Entry.published := "";
     Entry.source := "";
     Entry.category := "general";
     Entry.content := "";
     Entry.relevance_score := Some 8 |}.

Definition linkless_entry : Entry.t :=
  {| Entry.title := "T";
     Entry.link := "";
     Entry.description := "";
     Entry.published := "";
     Entry.source := "";
     Entry.category := "general";
     Entry.content := "";
     Entry.relevance_score := Some 8 |}.

Definition scored_db : Database :=
  snd (add_job_entry 1001 linkless_entry (snd (add_job_entry 1000 scored_entry []))).

(** A page with a navigation bar and one paragraph, none of the content
    selectors matching, and a network where the reader service is down and
    every other URL serves that page. *)
Definition nav_page : list Html.node :=
  [Html.Element "html" [] []
     [Html.Element "body" [] []
        [Html.Element "nav" [] [] [Html.Text Html.NavigableString "Menu"];
         Html.Element "p" [] [] [Html.Text Html.NavigableString " Hello "]]]].

Definition reader_down (page : list Html.node) : Network :=
  fun _ u =>
    if String.prefix "https://r.jina.ai/" u
    then Raise (PyExn RequestException "read timed out")
    else Ok {| status_code := 200; text := ""; soup := page |}.

Definition offline : Network :=
  fun _ _ => Raise (PyExn RequestException "network unreachable").




(** A stand-in for the embedding model, for evaluating the vector store:
    vectors are pairs of integers, nothing fails. *)
Definition toy_embedding : Embedding :=
  {| vec := Z * Z;
     dimension := 2;
     embed := fun s => (PyStr.len s, 1);
     encode_error := fun _ => None;
     normalize_L2 := fun v => v;
     astype_float32 := fun v => v |}.

(** The same with a model that is out of memory on batches of more than
    two texts. *)
Definition small_embedding : Embedding :=
  {| vec := Z * Z;
     dimension := 2;
     embed := fun s => (PyStr.len s, 1);
     encode_error := fun texts =>
       if (2 <? Z.of_nat (List.length texts))
       then Some (PyExn RuntimeError "out of memory") else None;
     normalize_L2 := fun v => v;
     astype_float32 := fun v => v |}.

(** A table of 250 analyzed rows, with 3 pending ones in front. *)
Definition db250 : Database :=
  (map (numbered_row false) (seq 250 3) ++ map analyzed_row (seq 0 250))%list.

(** A Miniflux answer with one new entry, and a world where the analysis
    service scores it 8, the reader service is down and the entry's page is
    [nav_page]. *)
Definition new_raw_entry : Raw.t :=
  {| Raw.title := Some "Assistant Professor X";
     Raw.url := Some "https://example.com/1";
     Raw.link := None;
     Raw.description := None;
     Raw.content := Some "Tenure-track position";
     Raw.published_at := Some "2024-05-01T10:00:00Z";
     Raw.feed := Some (Some "Example Jobs");
     Raw.relevance_score := None |}.

(** An entry of the answer that is stored already (see [sample_db]),
    published after the watermark of [sample_config]. *)
Definition known_raw_entry : Raw.t :=
  {| Raw.title := Some "Postdoc Y";
     Raw.url := Some "https://example.com/2";
     Raw.link := None;
     Raw.description := None;
     Raw.content := Some "Two-year postdoc";
     Raw.published_at := Some "2024-06-01T00:00:00Z";
     Raw.feed := Some (Some "Example Jobs");
     Raw.relevance_score := None |}.

Definition world_with (answer : list Raw.t) (score : string) : World :=
  {| miniflux_entries := fun _ => Ok (Some answer);
     network := reader_down nav_page;
     llm_client := answering score;
     yaml_write_error := None |}.

Definition sample_loader : ConfigLoader :=
  {| cached := sample_config; on_disk := sample_config |}.

(** [sample_loader] with the watermark moved to the time of
    [new_raw_entry]. *)
Definition advanced_loader : ConfigLoader :=
  {| cached := set_last_miniflux_fetch "2024-05-01T10:00:00Z" sample_config;
     on_disk := set_last_miniflux_fetch "2024-05-01T10:00:00Z" sample_config |}.

(** The entry dictionary the poll builds from [new_raw_entry]. *)
Definition fetched_entry : Entry.t :=
  {| Entry.title := "Assistant Professor X";
     Entry.link := "https://example.com/1";
     Entry.description := "Tenure-track position";
     Entry.published := "2024-05-01T10:00:00Z";
     Entry.source := "Example Jobs";
     Entry.category := "general";
     Entry.content := "Hello";
     Entry.relevance_score := None |}.

(* ===================================================================== *)
(** * The rest of the pipeline *)
(* ===================================================================== *)

(* ===================================================================== *)
(** ** collector/db.py: the life of a row *)
(* ===================================================================== *)

(** The row [update_analysis_result] leaves in place of [r]. *)
Definition mark_analyzed (analysis_result : string) (r : JobEntry.t) : JobEntry.t :=
  {| JobEntry.id := JobEntry.id r;
     JobEntry.title := JobEntry.title r;
     JobEntry.link := JobEntry.link r;
     JobEntry.description := JobEntry.description r;
     JobEntry.content := JobEntry.content r;
     JobEntry.published := JobEntry.published r;
     JobEntry.source := JobEntry.source r;
     JobEntry.category := JobEntry.category r;
     JobEntry.created_at := JobEntry.created_at r;
     JobEntry.analyzed := true;
     JobEntry.analysis_result := Some analysis_result;
     JobEntry.relevance_score := JobEntry.relevance_score r |}.

(** The row [add_job_entry] builds from an entry dictionary. *)
Definition new_row (now : Z) (entry_data : Entry.t) : JobEntry.t :=
  {| JobEntry.id := generate_job_id (Entry.title entry_data) (Entry.link entry_data);
     JobEntry.title := Entry.title entry_data;
     JobEntry.link := Entry.link entry_data;
     JobEntry.description := Entry.description entry_data;
     JobEntry.content := Entry.content entry_data;
     JobEntry.published := Entry.published entry_data;
     JobEntry.source := Entry.source entry_data;
     JobEntry.category := Entry.category entry_data;
     JobEntry.created_at := now;
     JobEntry.analyzed := false;
     JobEntry.analysis_result := None;
     JobEntry.relevance_score := dict_get (Entry.relevance_score entry_data) 0 |}.

(** Every id is the one [generate_job_id] gives the row's title and link. *)
Definition content_addressed (db : Database) : Prop :=
  Forall (fun r => JobEntry.id r
                   = generate_job_id (JobEntry.title r) (JobEntry.link r)) db.

(** The two writes of [DatabaseManager], and a history of them. *)
Inductive store_op : Type :=
  | OpAdd (now : Z) (entry_data : Entry.t)
  | OpUpdate (job_id analysis_result : string).

Definition run_op (db : Database) (op : store_op) : Database :=
  match op with
  | OpAdd now entry_data => snd (add_job_entry now entry_data db)
  | OpUpdate job_id analysis_result => update_analysis_result job_id analysis_result db
  end.

Definition run_ops (ops : list store_op) (db : Database) : Database :=
  fold_left run_op ops db.

(* ===================================================================== *)
(** ** collector/rss_client.py: provider selection *)
(* ===================================================================== *)

(** The variables of the environment [_detect_provider] reads. *)
Record Env : Type := {
  MINIFLUX_URL : option string;
  FRESHRSS_URL : option string
}.

(** [RSSClient._detect_provider]; [rss_mode] is the key of that name in
    [config.yaml], when it is there. *)
Definition _detect_provider (rss_mode : option string) (env : Env) : string :=
  let rss_mode := dict_get rss_mode "auto" in
  if String.eqb rss_mode "direct" then "direct"
  else if String.eqb rss_mode "miniflux" then "miniflux"
  else if String.eqb rss_mode "freshrss" then "freshrss"
  else if String.eqb rss_mode "auto" then
    if truthy_opt (MINIFLUX_URL env) then "miniflux"
    else if truthy_opt (FRESHRSS_URL env) then "freshrss"
    else "direct"
  else "direct".

(* ===================================================================== *)
(** ** collector/rss_client.py: batched content fetching *)
(* ===================================================================== *)

(** A [dict] from [str] to [str], keys in insertion order. *)
Definition strdict : Type := list (string * string).

(** [d[key] = value]. *)
Fixpoint strdict_set (key value : string) (d : strdict) : strdict :=
  match d with
  | [] => [(key, value)]
  | (k, v) :: rest =>
      if String.eqb k key then (key, value) :: rest
      else (k, v) :: strdict_set key value rest
  end.

(** [d.get(key)], [None] when the key is absent. *)
Definition strdict_get (key : string) (d : strdict) : option string :=
  option_map snd (find (fun kv => String.eqb (fst kv) key) d).

(** [for url in batch: results[url] = self._fetch_full_content(url)];
    [k] counts the requests of the session. *)
Fixpoint fetch_batch (net : Network) (k : nat) (batch : list string)
  (results : strdict) : strdict * nat :=
  match batch with
  | [] => (results, k)
  | url :: rest =>
      let '(content, k') := _fetch_full_content net k url in
      fetch_batch net k' rest (strdict_set url content results)
  end.

(** The loop of [_fetch_full_content_batch] over the batch starts; [pauses]
    counts the calls of [time.sleep(10)]. *)
Fixpoint batch_loop (net : Network) (urls : list string) (batch_size : nat)
  (starts : list nat) (k : nat) (results : strdict) (pauses : nat)
  : strdict * nat * nat :=
  match starts with
  | [] => (results, k, pauses)
  | i :: rest =>
      let batch := slice urls i batch_size in
      let '(results', k') := fetch_batch net k batch results in
      let pauses' :=
        if (i + batch_size <? List.length urls)%nat then S pauses else pauses in
      batch_loop net urls batch_size rest k' results' pauses'
  end.

(** [RSSClient._fetch_full_content_batch]: the dictionary, the request
    count after it, and how many times it paused. *)
Definition _fetch_full_content_batch (net : Network) (k : nat) (urls : list string)
  : strdict * nat * nat :=
  let batch_size := 5%nat in
  batch_loop net urls batch_size (range_step (List.length urls) batch_size) k [] 0%nat.

(** What holds of a dictionary filled by the fetch loops: a key is present
    exactly when it is among the URLs, and a value is the
    content fetched for its key at some point. *)
Definition filled (net : Network) (urls : list string) (dct : strdict) : Prop :=
  (forall url, strdict_get url dct <> None <-> In url urls)
  /\ (forall url v, strdict_get url dct = Some v ->
        exists j, v = fst (_fetch_full_content net j url)).

(* ===================================================================== *)
(** ** collector/rss_client.py: the Direct and FreshRSS providers *)
(* ===================================================================== *)

(** An element of [config['rss_feeds']]. *)
Module Feed.
Record t : Type := Build {
  name : string;
  url : string;
  category : option string
}.
End Feed.

(** An entry of a parsed feed ([feedparser]); every key is read with
    [entry.get]. *)
Module Item.
Record t : Type := Build {
  title : option string;
  link : option string;
  description : option string;
  published : option string
}.
End Item.

(** What the GET of a feed URL and [feedparser.parse] yield during one
    poll. *)
Definition Feeds : Type := string -> result (list Item.t).

Definition item_is_new (db : Database) (entry : Item.t) : bool :=
  negb (_is_job_already_processed db (dict_get (Item.title entry) "")
          (dict_get (Item.link entry) "")).

(** The dictionary built for a feed entry, its content still empty. *)
Definition item_entry (feed_config : Feed.t) (entry : Item.t) : Entry.t :=
  {| Entry.title := dict_get (Item.title entry) "";
     Entry.link := dict_get (Item.link entry) "";
     Entry.description := dict_get (Item.description entry) "";
     Entry.published := dict_get (Item.published entry) "";
     Entry.source := Feed.name feed_config;
     Entry.category := dict_get (Feed.category feed_config) "general";
     Entry.content := "";
     Entry.relevance_score := None |}.

Definition with_content (content : string) (e : Entry.t) : Entry.t :=
  {| Entry.title := Entry.title e;
     Entry.link := Entry.link e;
     Entry.description := Entry.description e;
     Entry.published := Entry.published e;
     Entry.source := Entry.source e;
     Entry.category := Entry.category e;
     Entry.content := content;
     Entry.relevance_score := Entry.relevance_score e |}.

(** The body of [for feed_config in feeds] in [_fetch_direct]: the entries
    the feed adds (none when the [try] fails) and the request count. *)
Definition direct_feed (feeds : Feeds) (net : Network) (db : Database) (k : nat)
  (feed_config : Feed.t) : list Entry.t * nat :=
  match feeds (Feed.url feed_config) with
  | Raise _ => ([], S k)
  | Ok feed_entries =>
      let fresh := filter (item_is_new db) feed_entries in
      let batch_entries := map (item_entry feed_config) fresh in
      let urls_to_fetch := map (fun entry => dict_get (Item.link entry) "") fresh in
      let '(content_results, k', _) :=
        _fetch_full_content_batch net (S k) urls_to_fetch in
      (map (fun entry_data =>
              with_content
                (dict_get (strdict_get (Entry.link entry_data) content_results) "")
                entry_data) batch_entries, k')
  end.

(** [RSSClient._fetch_direct] over [config['rss_feeds']]. *)
Fixpoint _fetch_direct (feeds : Feeds) (net : Network) (db : Database) (k : nat)
  (rss_feeds : list Feed.t) : list Entry.t * nat :=
  match rss_feeds with
  | [] => ([], k)
  | feed_config :: rest =>
      let '(es, k') := direct_feed feeds net db k feed_config in
      let '(es', k'') := _fetch_direct feeds net db k' rest in
      ((es ++ es')%list, k'')
  end.

(** The entries a feed contributes to a poll, before their content is
    fetched: those of its new items, none when the feed cannot be read. *)
Definition feed_candidates (feeds : Feeds) (db : Database) (feed_config : Feed.t)
  : list Entry.t :=
  match feeds (Feed.url feed_config) with
  | Ok feed_entries => map (item_entry feed_config) (filter (item_is_new db) feed_entries)
  | Raise _ => []
  end.

(** An item of the FreshRSS reading list. [canonical] is a list of
    dictionaries with an optional [href]; [summary], [origin] and [content]
    are dictionaries with one optional key. *)
Module Fresh.
Record t : Type := Build {
  title : option string;
  canonical : option (list (option string));
  summary : option (option string);
  published : option string;
  origin : option (option string);
  content : option (option string)
}.
End Fresh.

(** The dictionary built for one item; [None] stands for the [IndexError]
    of [canonical[0]] on an empty list. *)
Definition fresh_entry (item : Fresh.t) : option Entry.t :=
  match dict_get (Fresh.canonical item) [None] with
  | [] => None
  | first :: _ =>
      Some {| Entry.title := dict_get (Fresh.title item) "";
              Entry.link := dict_get first "";
              Entry.description := dict_get (dict_get (Fresh.summary item) None) "";
              Entry.published := dict_get (Fresh.published item) "";
              Entry.source := dict_get (dict_get (Fresh.origin item) None) "";
              Entry.category := "general";
              Entry.content := dict_get (dict_get (Fresh.content item) None) "";
              Entry.relevance_score := None |}
  end.

(** The loop over the items, stopped by the first exception. *)
Fixpoint fresh_loop (items : list Fresh.t) (entries : list Entry.t)
  : option (list Entry.t) :=
  match items with
  | [] => Some entries
  | item :: rest =>
      match fresh_entry item with
      | Some e => fresh_loop rest (entries ++ [e])%list
      | None => None
      end
  end.

(** [RSSClient._fetch_freshrss]; [answer] is the decoded reading list, or
    the exception of the request. Any exception gives the empty list. *)
Definition _fetch_freshrss (answer : result (option (list Fresh.t))) : list Entry.t :=
  match answer with
  | Raise _ => []
  | Ok data =>
      match fresh_loop (dict_get data []) [] with
      | Some entries => entries
      | None => []
      end
  end.

(** Everything a poll reads from outside, whatever the provider;
    [rss_feeds] is the key of that name in [config.yaml], when it is
    there. *)
Record Sources : Type := {
  rss_feeds : option (list Feed.t);
  feed_answers : Feeds;
  freshrss_answer : result (option (list Fresh.t));
  world : World
}.

(** [RSSClient.fetch_entries]: the chain of [if]/[elif] on the provider has
    no [else], so another provider name gives [None]; the Direct provider
    starts with [config_loader.config['rss_feeds']], a [KeyError] when the
    key is absent. *)
Definition fetch_entries (provider : string) (src : Sources) (cl : ConfigLoader)
  (db : Database) : result (option (list Entry.t)) * ConfigLoader :=
  if String.eqb provider "direct" then
    match rss_feeds src with
    | None => (Raise (PyExn KeyError "'rss_feeds'"), cl)
    | Some feed_list =>
        (Ok (Some (fst (_fetch_direct (feed_answers src) (network (world src)) db 0
                          feed_list))), cl)
    end
  else if String.eqb provider "miniflux" then
    let '(es, cl') := _fetch_miniflux (world src) cl db in (Ok (Some es), cl')
  else if String.eqb provider "freshrss" then
    (Ok (Some (_fetch_freshrss (freshrss_answer src))), cl)
  else (Ok None, cl).

(** An entry whose identity the store does not hold. *)
Definition unknown_to (db : Database) (e : Entry.t) : Prop :=
  _is_job_already_processed db (Entry.title e) (Entry.link e) = false.

(* ===================================================================== *)
(** ** analysis/llm_client.py: analysis and query expansion *)
(* ===================================================================== *)

(** [prompt_templates.get_job_analysis_prompt], applied to the fields of a
    row and the keywords. Its text holds characters outside the range of
    [PyStr], so it is a parameter of what follows. *)
Definition AnalysisPrompt : Type := JobEntry.t -> list string -> string.

(** [LLMClient.analyze_job_posting]. *)
Definition analyze_job_posting (template : AnalysisPrompt) (cfg : Config)
  (llm : LLMClient) (job_entry : JobEntry.t) : result string :=
  match keywords cfg with
  | None => Raise (PyExn KeyError "'keywords'")
  | Some kws => _call_llm llm (template job_entry kws)
  end.

(** [prompt_templates.get_search_query_prompt]. *)
Definition get_search_query_prompt (user_query : string) : string :=
  PyStr.nl
  ++ "Convert the following user query into relevant search terms for finding academic job postings:"
  ++ PyStr.nl ++ PyStr.nl
  ++ "User Query: " ++ user_query ++ PyStr.nl ++ PyStr.nl
  ++ "Generate 3-5 relevant search terms or phrases that would help find matching job postings."
  ++ PyStr.nl
  ++ "Focus on job titles, departments, qualifications, and key requirements."
  ++ PyStr.nl ++ PyStr.nl
  ++ "Search Terms:" ++ PyStr.nl.

(** [s.split(sep)] for a separator of one character. *)
Fixpoint split_on (sep : ascii) (s : string) : list string :=
  match s with
  | EmptyString => [EmptyString]
  | String c r =>
      if Ascii.eqb c sep then EmptyString :: split_on sep r
      else
        match split_on sep r with
        | h :: t => String c h :: t
        | [] => [String c EmptyString]
        end
  end.

(** [c in chars]. *)
Fixpoint char_in (c : ascii) (chars : string) : bool :=
  match chars with
  | EmptyString => false
  | String x r => Ascii.eqb c x || char_in c r
  end.

Fixpoint lstrip_chars (chars s : string) : string :=
  match s with
  | EmptyString => EmptyString
  | String c r => if char_in c chars then lstrip_chars chars r else s
  end.

Fixpoint rstrip_chars (chars s : string) : string :=
  match s with
  | EmptyString => EmptyString
  | String c r =>
      match rstrip_chars chars r with
      | EmptyString => if char_in c chars then EmptyString else String c EmptyString
      | r' => String c r'
      end
  end.

(** [s.strip(chars)]. *)
Definition strip_chars (chars s : string) : string :=
  rstrip_chars chars (lstrip_chars chars s).

(** The loop of [generate_search_terms] over the lines of the answer. *)
Fixpoint collect_terms (lines : list string) : list string :=
  match lines with
  | [] => []
  | line :: rest =>
      if PyStr.truthy (PyStr.strip line) && negb (String.prefix "Search Terms:" line)
      then PyStr.strip (strip_chars "- " line) :: collect_terms rest
      else collect_terms rest
  end.

(** [LLMClient.generate_search_terms]. *)
Definition generate_search_terms (llm : LLMClient) (user_query : string)
  : result (list string) :=
  (response <- _call_llm llm (get_search_query_prompt user_query) ;;
   let lines := split_on (ascii_of_nat 10) (PyStr.strip response) in
   Ok (firstn 5 (collect_terms lines)))%py.

(* ===================================================================== *)
(** ** collector/scheduler.py: analysing what is pending *)
(* ===================================================================== *)

(** The loop of [analyze_pending_jobs] over the rows read at its start.
    The row object [job] is the one the session holds, so once
    [update_analysis_result] has run it carries the result: the list
    collects [mark_analyzed analysis job]. An exception for one row leaves
    it as it is and goes on. *)
Fixpoint analyze_loop (template : AnalysisPrompt) (cfg : Config) (llm : LLMClient)
  (unanalyzed : list JobEntry.t) (db : Database) (analyzed_jobs : list JobEntry.t)
  : Database * list JobEntry.t :=
  match unanalyzed with
  | [] => (db, analyzed_jobs)
  | job :: rest =>
      match analyze_job_posting template cfg llm job with
      | Ok analysis =>
          analyze_loop template cfg llm rest
            (update_analysis_result (JobEntry.id job) analysis db)
            (analyzed_jobs ++ [mark_analyzed analysis job])%list
      | Raise _ => analyze_loop template cfg llm rest db analyzed_jobs
      end
  end.

(** Whether the analysis of a row returns, and the rows a pass collects:
    those whose analysis returned, each with its result. *)
Definition analysis_ok (template : AnalysisPrompt) (cfg : Config) (llm : LLMClient)
  (job : JobEntry.t) : bool :=
  match analyze_job_posting template cfg llm job with
  | Ok _ => true
  | Raise _ => false
  end.

Definition analyzed_in_pass (template : AnalysisPrompt) (cfg : Config) (llm : LLMClient)
  (jobs : list JobEntry.t) : list JobEntry.t :=
  flat_map (fun job =>
              match analyze_job_posting template cfg llm job with
              | Ok analysis => [mark_analyzed analysis job]
              | Raise _ => []
              end) jobs.

Section SchedulerModel.

Variable M : Embedding.

(** [JobScheduler.analyze_pending_jobs]: the table and the vector store
    after it. An exception of the vector store is caught. *)
Definition analyze_pending_jobs (template : AnalysisPrompt) (cfg : Config)
  (llm : LLMClient) (db : Database) (vs : VectorStore M)
  : Database * VectorStore M :=
  let unanalyzed := get_unanalyzed_entries db in
  let '(db', analyzed_jobs) := analyze_loop template cfg llm unanalyzed db [] in
  match analyzed_jobs with
  | [] => (db', vs)
  | _ => (db', snd (add_job_entries analyzed_jobs vs))
  end.

(** [JobScheduler.fetch_and_analyze_jobs], the configuration file being
    there to reload: the table, the vector store and the loader after it,
    and the count it prints; the count is [None] when the [try] was left by
    an exception ([sync_feeds_to_miniflux] and the Direct provider need
    [config['rss_feeds']]; a loop over [None] raises). *)
Definition fetch_and_analyze_jobs (rss_mode : option string) (env : Env)
  (src : Sources) (template : AnalysisPrompt) (clock : nat -> Z)
  (cl : ConfigLoader) (db : Database) (vs : VectorStore M)
  : option Z * Database * VectorStore M * ConfigLoader :=
  let cl0 := {| cached := on_disk cl; on_disk := on_disk cl |} in
  let provider := _detect_provider rss_mode env in
  let synced :=
    if String.eqb provider "miniflux" then
      match rss_feeds src with
      | None => false
      | Some _ => true
      end
    else true in
  if synced then
    match fetch_entries provider src cl0 db with
    | (Ok (Some entries), cl1) =>
        let '(new_count, db1) := store_entries clock 0 entries db 0 in
        let '(db2, vs2) :=
          analyze_pending_jobs template (cached cl1) (llm_client (world src)) db1 vs in
        (Some new_count, db2, vs2, cl1)
    | (_, cl1) => (None, db, vs, cl1)
    end
  else (None, db, vs, cl0).

(** *** analysis/vector_store.py: searching *)

(** [index.search(x, k)] for one query row: [k] pairs of a score and a
    position, the position [-1] where the index has fewer rows. *)
Record Faiss : Type := {
  score : Type;
  index_search : IndexFlatIP M -> vec M -> Z -> list (score * Z)
}.

Variable F : Faiss.

(** A search result: the document, copied, and its [similarity_score]. *)
Record Hit : Type := {
  hit_doc : Doc.t;
  similarity_score : score F
}.

(** [documents[idx]] for a position that passed the bounds test. *)
Definition hit_of (documents : list Doc.t) (found : score F * Z) : option Hit :=
  let '(sc, idx) := found in
  if (0 <=? idx) && (idx <? Z.of_nat (List.length documents)) then
    match nth_error documents (Z.to_nat idx) with
    | Some doc => Some {| hit_doc := doc; similarity_score := sc |}
    | None => None
    end
  else None.

Fixpoint collect_hits (documents : list Doc.t) (found : list (score F * Z))
  : list Hit :=
  match found with
  | [] => []
  | p :: rest =>
      match hit_of documents p with
      | Some h => h :: collect_hits documents rest
      | None => collect_hits documents rest
      end
  end.

(** [VectorStore.search]. *)
Definition search (query : string) (top_k : Z) (vs : VectorStore M)
  : result (list Hit) :=
  if ntotal (index vs) =? 0 then Ok []
  else
    match encode M [query] with
    | Raise e => Raise e
    | Ok query_embedding =>
        match map (astype_float32 M) (map (normalize_L2 M) query_embedding) with
        | [q] =>
            if dimension M =? d (index vs)
            then Ok (collect_hits (documents vs) (index_search F (index vs) q top_k))
            else Raise (PyExn AssertionError "")
        | _ => Raise (PyExn AssertionError "")
        end
    end.

(** One day, in the microseconds of a [datetime]. *)
Definition day : Z := 86400 * 1000000.

(** [s in t] for two [str]. *)
Fixpoint str_contains (s t : string) : bool :=
  String.prefix s t
  || match t with
     | EmptyString => false
     | String _ r => str_contains s r
     end.

(** The cutoff [_apply_time_filter] derives from the label, [None] when it
    knows none of the three phrases. *)
Definition cutoff_of (now : Z) (time_filter : string) : option Z :=
  if str_contains "3 months" time_filter then Some (now - 90 * day)
  else if str_contains "6 months" time_filter then Some (now - 180 * day)
  else if str_contains "1 year" time_filter then Some (now - 365 * day)
  else None.

(** [VectorStore._apply_time_filter]; [parse] is
    [dateutil.parser.parse(...).replace(tzinfo=None)] as a count of
    microseconds, [None] when it raises, and [now] is [datetime.now()]. *)
Definition _apply_time_filter (parse : string -> option Z) (now : Z)
  (results : list Hit) (time_filter : string) : list Hit :=
  match cutoff_of now time_filter with
  | None => results
  | Some cutoff =>
      filter (fun result =>
                match parse (Doc.published (hit_doc result)) with
                | Some published_date => cutoff <=? published_date
                | None => true
                end) results
  end.

(** [VectorStore.semantic_search]. *)
Definition semantic_search (parse : string -> option Z) (now : Z) (llm : LLMClient)
  (user_query : string) (time_filter : option string) (vs : VectorStore M)
  : result (list Hit) :=
  (search_terms <- generate_search_terms llm user_query ;;
   let enhanced_query := user_query ++ " " ++ PyStr.join " " search_terms in
   results <- search enhanced_query 20 vs ;;
   let results :=
     if truthy_opt time_filter
     then _apply_time_filter parse now results (dict_get time_filter "")
     else results in
   Ok (firstn 10 results))%py.

End SchedulerModel.

(* ===================================================================== *)
(** ** More sample data *)
(* ===================================================================== *)

(** A stand-in for the analysis prompt, and a table of three rows of which
    the middle one is analyzed. *)
Definition title_prompt : AnalysisPrompt :=
  fun job kws => ("Analyze: " ++ JobEntry.title job ++ " " ++ JobEntry.link job)%string.

Definition three_rows : Database :=
  [numbered_row false 0; numbered_row true 1; numbered_row false 2].

(** An Ollama server that fails on the prompt of row 2 and answers the
    others. *)
Definition flaky_llm : LLMClient :=
  {| provider := "ollama";
     backend :=
       {| ollama_setup := None;
          ollama_generate := fun prompt =>
            if String.eqb prompt (title_prompt (numbered_row false 2) [])
            then Raise (PyExn RequestException "timed out")
            else Ok "## Summary";
          openai_setup := openai_setup no_backend;
          openai_chat := openai_chat no_backend;
          anthropic_setup := anthropic_setup no_backend;
          anthropic_messages := anthropic_messages no_backend |} |}.

(** An Ollama client whose [llm] section has no ['model']: the first
    statement of [_call_ollama] raises. *)
Definition modelless_llm : LLMClient :=
  {| provider := "ollama";
     backend :=
       {| ollama_setup := Some (PyExn KeyError "'model'");
          ollama_generate := fun _ => Ok "## Summary";
          openai_setup := openai_setup no_backend;
          openai_chat := openai_chat no_backend;
          anthropic_setup := anthropic_setup no_backend;
          anthropic_messages := anthropic_messages no_backend |} |}.

(** What [_apply_time_filter] keeps for a cutoff: a result whose date does
    not parse, or is not before the cutoff. *)
Definition in_window (parse : string -> option Z) (cutoff : Z) (published : string)
  : Prop :=
  match parse published with
  | Some published_date => cutoff <= published_date
  | None => True
  end.

(** A feed with one entry, one that cannot be read, and the sources of a
    poll over both. *)
Definition jobs_feed : Feed.t :=
  {| Feed.name := "Example Jobs"; Feed.url := "https://example.com/feed";
     Feed.category := None |}.

Definition dead_feed : Feed.t :=
  {| Feed.name := "Gone"; Feed.url := "https://gone.example/feed";
     Feed.category := Some "academic" |}.

Definition feed_item : Item.t :=
  {| Item.title := Some "Assistant Professor X";
     Item.link := Some "https://example.com/1";
     Item.description := Some "Tenure-track position";
     Item.published := Some "2024-05-01T10:00:00Z" |}.

Definition known_item : Item.t :=
  {| Item.title := Some "Postdoc Y";
     Item.link := Some "https://example.com/2";
     Item.description := None;
     Item.published := None |}.

Definition sample_feeds : Feeds :=
  fun url =>
    if String.eqb url "https://example.com/feed" then Ok [known_item; feed_item]
    else Raise (PyExn RequestException "name resolution failed").

Definition sample_sources : Sources :=
  {| rss_feeds := Some [dead_feed; jobs_feed];
     feed_answers := sample_feeds;
     freshrss_answer := Ok None;
     world := world_with [] "## Summary" |}.

(** Two reading-list items, the second with an empty [canonical] list. *)
Definition fresh_item : Fresh.t :=
  {| Fresh.title := Some "Lecturer Z";
     Fresh.canonical := Some [Some "https://example.com/3"];
     Fresh.summary := Some (Some "Teaching post");
     Fresh.published := Some "1714557600";
     Fresh.origin := Some (Some "Example Jobs");
     Fresh.content := None |}.

Definition broken_item : Fresh.t :=
  {| Fresh.title := Some "Reader W";
     Fresh.canonical := Some [];
     Fresh.summary := None;
     Fresh.published := None;
     Fresh.origin := None;
     Fresh.content := None |}.

(** A stand-in for the index search over [toy_embedding]: the rows ranked
    by inner product with the query, cut or padded with position [-1] to
    [k] answers. *)
Definition inner_product (a b : Z * Z) : Z := fst a * fst b + snd a * snd b.

Fixpoint insert_ranked (x : Z * Z) (l : list (Z * Z)) : list (Z * Z) :=
  match l with
  | [] => [x]
  | y :: r => if fst y <? fst x then x :: l else y :: insert_ranked x r
  end.

Definition toy_search (rows : list (Z * Z)) (q : Z * Z) (k : Z) : list (Z * Z) :=
  let scored := combine (map (inner_product q) rows)
                  (map Z.of_nat (seq 0 (List.length rows))) in
  let ranked := fold_right insert_ranked [] scored in
  (firstn (Z.to_nat k) ranked
   ++ repeat (-1, -1) (Z.to_nat k - List.length ranked))%list.

Definition toy_faiss : Faiss toy_embedding :=
  {| score := Z;
     index_search := fun (ix : IndexFlatIP toy_embedding) (q : vec toy_embedding) k =>
                       toy_search (xb ix) q k |}.

(** A stand-in for the date parser: a text that reads as an integer is
    that day, any other text does not parse. *)
Definition toy_parse (published : string) : option Z :=
  option_map (fun n => n * day) (PyStr.int_of_str published).

Definition dated_hit (published : string) : Hit toy_faiss :=
  @Build_Hit toy_embedding toy_faiss
    {| Doc.id := published; Doc.title := "Job"; Doc.link := "";
       Doc.source := ""; Doc.published := published; Doc.text := "Job";
       Doc.analysis := None |}
    (1 : score toy_faiss).

(** Results published on days 950, 800 and 500 and one without a date
    that parses, seen from day 1000. *)
Definition dated_hits : list (Hit toy_faiss) :=
  [dated_hit "950"; dated_hit "800"; dated_hit "soon"; dated_hit "500"].

(* ===================================================================== *)
(** * Properties *)
(* ===================================================================== *)

Local Open Scope list_scope.
Unset Implicit Arguments.

(** ** Checks of [hashlib.md5] and [generate_job_id] against known digests *)

Example md5_empty : MD5.hexdigest [] = "d41d8cd98f00b204e9800998ecf8427e".
Proof. vm_compute. reflexivity. Qed.

Example md5_abc :
  MD5.hexdigest (PyStr.encode_utf8 "abc") = "900150983cd24fb0d6963f7d28e17f72".
Proof. vm_compute. reflexivity. Qed.

Example md5_two_blocks :
  MD5.hexdigest (repeat 120 56) = "668a72d5ba17f08e62dabcafad6db14b"
  /\ MD5.hexdigest (repeat 121 64) = "b0c4864f4e28d2d76929c38d87db7ed5"
  /\ MD5.hexdigest (repeat 122 119) = "caf43ee6c9defaeccfc1d7c24647646e".
Proof. vm_compute. repeat split; reflexivity. Qed.

Example generate_job_id_example :
  generate_job_id "Assistant Professor X" "https://example.com/1"
  = "19e5fff12aaa52797b48f5459ef5ea50".
Proof. vm_compute. reflexivity. Qed.

Example generate_job_id_latin1 :
  generate_job_id (String (ascii_of_N 233) "") "x" = "0d2aaa055dfd007f8cfad12c1e8c758c".
Proof. vm_compute. reflexivity. Qed.


(** ** Strings *)

Lemma string_length_append (a b : string) :
  String.length (a ++ b)%string = (String.length a + String.length b)%nat.
Proof. induction a as [|c a IH]; simpl; [reflexivity | now rewrite IH]. Qed.



Lemma truthy_false_iff (s : string) : PyStr.truthy s = false <-> s = "".
Proof. destruct s; simpl; split; congruence. Qed.

(** ** The record store *)

Lemma query_by_id_app_new (job_id : string) (db : Database) (r : JobEntry.t) :
  query_by_id job_id db = None -> JobEntry.id r = job_id ->
  query_by_id job_id (db ++ [r]) = Some r.
Proof.
  unfold query_by_id. intros Hnone Hid.
  induction db as [|x db IH]; simpl in *.
  - now rewrite Hid, String.eqb_refl.
  - destruct (String.eqb (JobEntry.id x) job_id); [discriminate | auto].
Qed.

Lemma count_rows_none (job_id : string) (db : Database) :
  query_by_id job_id db = None ->
  count_rows (fun r => String.eqb (JobEntry.id r) job_id) db = 0.
Proof.
  unfold query_by_id, count_rows. induction db as [|x db IH]; simpl; intros H.
  - reflexivity.
  - destruct (String.eqb (JobEntry.id x) job_id); [discriminate | auto].
Qed.

Lemma count_rows_app (p : JobEntry.t -> bool) (a b : Database) :
  count_rows p (a ++ b) = count_rows p a + count_rows p b.
Proof. unfold count_rows. rewrite filter_app, length_app. lia. Qed.

Lemma query_none_not_in (job_id : string) (db : Database) :
  query_by_id job_id db = None -> ~ In job_id (map JobEntry.id db).
Proof.
  unfold query_by_id. induction db as [|x db IH]; simpl; intros H.
  - tauto.
  - destruct (String.eqb_spec (JobEntry.id x) job_id) as [|Hne]; [discriminate |].
    intros [Heq | Hin]; [contradiction | now apply IH].
Qed.

Lemma count_rows_unique (job_id : string) (db : Database) (r : JobEntry.t) :
  primary_key db -> query_by_id job_id db = Some r ->
  count_rows (fun r => String.eqb (JobEntry.id r) job_id) db = 1.
Proof.
  unfold primary_key. induction db as [|x db IH]; simpl; intros Hnd Hq.
  - discriminate.
  - inversion Hnd as [|? ? Hnotin Hnd']; subst.
    unfold query_by_id in Hq; simpl in Hq.
    change (x :: db) with ([x] ++ db)%list. rewrite count_rows_app.
    unfold count_rows at 1; simpl.
    destruct (String.eqb_spec (JobEntry.id x) job_id) as [Heq | Hne].
    + rewrite count_rows_none; [reflexivity |].
      destruct (query_by_id job_id db) as [y|] eqn:Hy; [|reflexivity].
      exfalso. apply Hnotin. unfold query_by_id in Hy.
      apply find_some in Hy. destruct Hy as [Hin Hid].
      apply String.eqb_eq in Hid. rewrite Heq, <- Hid. now apply in_map.
    + simpl. now apply IH.
Qed.

Lemma add_job_entry_primary_key (now : Z) (e : Entry.t) (db : Database) :
  primary_key db -> primary_key (snd (add_job_entry now e db)).
Proof.
  unfold add_job_entry, primary_key. intros Hnd.
  destruct (query_by_id _ db) eqn:Hq; simpl; [assumption |].
  rewrite map_app; simpl.
  rewrite <- (rev_involutive (map JobEntry.id db ++ [_])).
  apply NoDup_rev. rewrite rev_app_distr; simpl.
  constructor.
  - rewrite <- in_rev. now apply query_none_not_in.
  - now apply NoDup_rev.
Qed.

(** C1. Calling [add_job_entry] twice with the same (title, link) pair: the
    first call inserts when the id is not stored yet, the second call
    returns [False] and leaves the table as the first call left it, and
    the table then holds exactly one row with that id. *)
Theorem add_job_entry_idempotent :
  forall (db : Database) (now1 now2 : Z) (e1 e2 : Entry.t),
    primary_key db ->
    Entry.title e2 = Entry.title e1 ->
    Entry.link e2 = Entry.link e1 ->
    let job_id := generate_job_id (Entry.title e1) (Entry.link e1) in
    let first := add_job_entry now1 e1 db in
    let second := add_job_entry now2 e2 (snd first) in
    (query_by_id job_id db = None -> fst first = true)
    /\ fst second = false
    /\ snd second = snd first
    /\ count_rows (fun r => String.eqb (JobEntry.id r) job_id) (snd second) = 1.
Proof.
  intros db now1 now2 e1 e2 Hpk Ht Hl job_id first second.
  assert (Hfound : exists r, query_by_id job_id (snd first) = Some r).
  { subst first. unfold add_job_entry. fold job_id.
    destruct (query_by_id job_id db) as [r|] eqn:Hq; simpl.
    - exists r; assumption.
    - eexists. apply query_by_id_app_new; [assumption | reflexivity]. }
  destruct Hfound as [r Hr].
  assert (Hsecond : second = (false, snd first)).
  { subst second. unfold add_job_entry at 1. rewrite Ht, Hl. fold job_id.
    now rewrite Hr. }
  repeat split.
  - intros Hnone. subst first. unfold add_job_entry. fold job_id.
    now rewrite Hnone.
  - now rewrite Hsecond.
  - now rewrite Hsecond.
  - rewrite Hsecond; simpl. apply count_rows_unique with (r := r); [|assumption].
    subst first. now apply add_job_entry_primary_key.
Qed.

Lemma add_job_entry_idempotent_witness :
  primary_key sample_db
  /\ fst (add_job_entry 2000 sample_entry sample_db) = true
  /\ fst (add_job_entry 3000 sample_entry
            (snd (add_job_entry 2000 sample_entry sample_db))) = false
  /\ count_rows
       (fun r => String.eqb (JobEntry.id r)
                   (generate_job_id "Assistant Professor X" "https://example.com/1"))
       (snd (add_job_entry 3000 sample_entry
               (snd (add_job_entry 2000 sample_entry sample_db)))) = 1.
Proof.
  assert (Hpk : primary_key sample_db).
  { unfold primary_key. vm_compute. constructor; [simpl; tauto | constructor]. }
  destruct (add_job_entry_idempotent sample_db 2000 3000 sample_entry sample_entry
              Hpk eq_refl eq_refl) as (H1 & H2 & H3 & H4).
  split; [exact Hpk |].
  split; [apply H1; vm_compute; reflexivity |].
  split; [exact H2 | exact H4].
Defined.

(** ** Identity *)

Lemma hex_byte_length (b : Z) : String.length (MD5.hex_byte b) = 2%nat.
Proof. reflexivity. Qed.

Lemma hex_word_length (w : Z) : String.length (MD5.hex_word w) = 8%nat.
Proof.
  unfold MD5.hex_word. rewrite !string_length_append, !hex_byte_length. reflexivity.
Qed.

Lemma hexdigest_length (msg : list Z) : PyStr.len (MD5.hexdigest msg) = 32.
Proof.
  unfold PyStr.len, MD5.hexdigest.
  rewrite !string_length_append, !hex_word_length. reflexivity.
Qed.

(** C3 (amended). [generate_job_id] is a function of the joined text
    [title|link] alone: two pairs with the same joined text, in particular
    the same pair given twice, get the same id, and an id is always 32
    characters long. *)
Theorem generate_job_id_joined_text :
  forall t1 l1 t2 l2 : string,
    (t1 ++ "|" ++ l1)%string = (t2 ++ "|" ++ l2)%string ->
    generate_job_id t1 l1 = generate_job_id t2 l2
    /\ PyStr.len (generate_job_id t1 l1) = 32.
Proof.
  intros t1 l1 t2 l2 H. unfold generate_job_id. rewrite H.
  split; [reflexivity | apply hexdigest_length].
Qed.

Lemma generate_job_id_joined_text_witness :
  generate_job_id "Postdoc Y" "https://example.com/2"
  = generate_job_id "Postdoc Y" "https://example.com/2"
  /\ PyStr.len (generate_job_id "Postdoc Y" "https://example.com/2") = 32.
Proof.
  apply (generate_job_id_joined_text
           "Postdoc Y" "https://example.com/2" "Postdoc Y" "https://example.com/2").
  reflexivity.
Defined.

(** C3 as stated fails: two distinct (title, link) pairs with one id. *)
Lemma generate_job_id_collision :
  ("a|b", "c") <> ("a", "b|c")
  /\ generate_job_id "a|b" "c" = "2e077b3ec5932ac3cf914ebdf242b4ee"
  /\ generate_job_id "a" "b|c" = "2e077b3ec5932ac3cf914ebdf242b4ee".
Proof.
  split; [discriminate |]. split; vm_compute; reflexivity.
Qed.

(** ** Statistics *)

(** C10. [get_stats]: [analyzed_jobs] is [total_jobs - pending_analysis];
    [pending_analysis] counts every row that is not analyzed, [total_jobs]
    counts at most the first 10000 rows. With more than 10000 rows
    [total_jobs] is 10000 and not the number of rows, and
    [analyzed_jobs + pending_analysis] is the number of rows exactly when
    there are at most 10000. *)
Theorem get_stats_capped :
  forall db : Database,
    let s := get_stats db in
    let n := Z.of_nat (List.length db) in
    analyzed_jobs s = total_jobs s - pending_analysis s
    /\ pending_analysis s = count_rows (fun r => negb (JobEntry.analyzed r)) db
    /\ total_jobs s = Z.min 10000 n
    /\ (10000 < n -> total_jobs s = 10000 /\ total_jobs s <> n)
    /\ (analyzed_jobs s + pending_analysis s = n <-> n <= 10000)
    /\ (n <= 10000 -> analyzed_jobs s = count_rows JobEntry.analyzed db).
Proof.
  intros db s n.
  assert (Htotal : total_jobs s = Z.min 10000 n).
  { subst s n.
    change (total_jobs (get_stats db))
      with (Z.of_nat (List.length (firstn (N.to_nat 10000) db))).
    rewrite length_firstn, Nat2Z.inj_min, N_nat_Z. reflexivity. }
  assert (Hpend : pending_analysis s = count_rows (fun r => negb (JobEntry.analyzed r)) db)
    by reflexivity.
  assert (Han : analyzed_jobs s = total_jobs s - pending_analysis s) by reflexivity.
  assert (Hsplit : count_rows JobEntry.analyzed db
                   + count_rows (fun r => negb (JobEntry.analyzed r)) db = n).
  { subst n. unfold count_rows. clear. induction db as [|r db IH]; [reflexivity |].
    cbn [filter]. destruct (JobEntry.analyzed r); cbn [negb List.length]; lia. }
  repeat split; try lia.
Qed.

Lemma get_stats_capped_witness :
  10000 < Z.of_nat (List.length db10001)
  /\ total_jobs (get_stats db10001) = 10000
  /\ analyzed_jobs (get_stats db10001) = -1
  /\ pending_analysis (get_stats db10001) = 10001.
Proof.
  assert (Hlen : List.length db10001 = N.to_nat 10001).
  { unfold db10001. now rewrite length_map, length_seq. }
  assert (Hn : 10000 < Z.of_nat (List.length db10001)).
  { rewrite Hlen, N_nat_Z. reflexivity. }
  destruct (get_stats_capped db10001) as (H1 & H2 & H3 & H4 & H5 & H6).
  destruct (H4 Hn) as [H7 H8].
  split; [exact Hn |]. split; [exact H7 |].
  assert (Hp : pending_analysis (get_stats db10001) = 10001).
  { rewrite H2. unfold count_rows, db10001.
    rewrite forallb_filter_id.
    - rewrite length_map, length_seq, N_nat_Z. reflexivity.
    - apply forallb_forall. intros r Hr. apply in_map_iff in Hr.
      destruct Hr as [i [<- _]]. reflexivity. }
  split; [rewrite H1, H7, Hp; reflexivity | exact Hp].
Defined.

(** ** The relevance gate *)

Lemma rstrip_head (c : ascii) (r : string) :
  PyStr.isspace c = false -> exists r', PyStr.rstrip (String c r) = String c r'.
Proof.
  intros Hc. cbn [PyStr.rstrip]. rewrite Hc.
  destruct (PyStr.rstrip r); eauto.
Qed.

Lemma strip_head (c : ascii) (r : string) :
  PyStr.isspace c = false -> exists r', PyStr.strip (String c r) = String c r'.
Proof.
  intros Hc. unfold PyStr.strip. cbn [PyStr.lstrip]. rewrite Hc.
  now apply rstrip_head.
Qed.

(** The text a provider wrapper makes of an exception is not an integer. *)
Lemma error_text_not_int (m : string) :
  PyStr.int_of_str (PyStr.strip ("Error calling Ollama: " ++ m)%string) = None.
Proof.
  change ("Error calling Ollama: " ++ m)%string
    with (String "E" ("rror calling Ollama: " ++ m)%string).
  destruct (strip_head "E" ("rror calling Ollama: " ++ m)%string eq_refl) as [r1 H1].
  rewrite H1.
  destruct (strip_head "E" r1 eq_refl) as [r2 H2].
  unfold PyStr.int_of_str. rewrite H2. reflexivity.
Qed.

(** C4. With no cached score, when the scoring call raises or returns a
    text that [int] rejects, [_quick_relevance_check] returns [(True, 6)]. *)
Theorem quick_relevance_check_fail_open :
  forall (cfg : Config) (db : Database) (llm : LLMClient)
         (title description link prompt : string),
    cached_verdict db title link = None ->
    build_relevance_prompt cfg title description = Ok prompt ->
    (exists e, _call_llm llm prompt = Raise e)
    \/ (exists s, _call_llm llm prompt = Ok s
                  /\ PyStr.int_of_str (PyStr.strip s) = None) ->
    _quick_relevance_check cfg db llm title description link = Ok (true, 6).
Proof.
  intros cfg db llm title description link prompt Hcache Hprompt Hfail.
  unfold _quick_relevance_check. rewrite Hcache, Hprompt. cbn [bind].
  unfold score_with_llm.
  destruct Hfail as [[e He] | [s [Hs Hint]]].
  - rewrite He. reflexivity.
  - rewrite Hs. cbn [bind]. rewrite Hint. reflexivity.
Qed.

Lemma quick_relevance_check_fail_open_witness :
  _quick_relevance_check sample_config sample_db unsupported_llm
    "Assistant Professor X" "Tenure-track position" "https://example.com/1"
  = Ok (true, 6)
  /\ _quick_relevance_check sample_config sample_db (answering "seven")
       "Assistant Professor X" "Tenure-track position" "https://example.com/1"
     = Ok (true, 6).
Proof.
  split.
  - eapply (quick_relevance_check_fail_open sample_config sample_db unsupported_llm).
    + vm_compute; reflexivity.
    + reflexivity.
    + left. eexists. reflexivity.
  - eapply (quick_relevance_check_fail_open sample_config sample_db (answering "seven")).
    + vm_compute; reflexivity.
    + reflexivity.
    + right. exists "seven". split; [reflexivity | vm_compute; reflexivity].
Defined.

(** The same when the provider is Ollama and the request to it fails:
    [_call_ollama] turns the exception into a text, which [int] rejects. *)
Lemma quick_relevance_check_ollama_down :
  forall (cfg : Config) (db : Database) (llm : LLMClient)
         (title description link prompt : string) (e : exn),
    cached_verdict db title link = None ->
    build_relevance_prompt cfg title description = Ok prompt ->
    provider llm = "ollama" ->
    ollama_generate (backend llm) prompt = Raise e ->
    _quick_relevance_check cfg db llm title description link = Ok (true, 6).
Proof.
  intros cfg db llm title description link prompt e Hcache Hprompt Hprov Hdown.
  unfold _quick_relevance_check. rewrite Hcache, Hprompt. cbn [bind].
  unfold score_with_llm, _call_llm, _call_ollama. rewrite Hprov, Hdown.
  cbn [String.eqb Ascii.eqb Bool.eqb].
  destruct (ollama_setup (backend llm)); cbn [bind]; [reflexivity |].
  rewrite error_text_not_int. reflexivity.
Qed.

(** A score that parses is passed on: the gate is open from 6 upwards. *)
Example quick_relevance_check_scores :
  _quick_relevance_check sample_config sample_db (answering " 7 ")
    "Assistant Professor X" "Tenure-track position" "https://example.com/1"
  = Ok (true, 7)
  /\ _quick_relevance_check sample_config sample_db (answering "3")
       "Assistant Professor X" "Tenure-track position" "https://example.com/1"
     = Ok (false, 3).
Proof. split; vm_compute; reflexivity. Qed.

(** C5 (amended). For a non-empty link whose identity has a stored score
    above 0, the verdict is the stored one whatever the configuration, the
    description and the analysis service are: two checks agree. *)
Theorem quick_relevance_check_cache_hit :
  forall (cfg1 cfg2 : Config) (db : Database) (llm1 llm2 : LLMClient)
         (title d1 d2 link : string) (cached : JobEntry.t),
    link <> "" ->
    query_by_id (generate_job_id title link) db = Some cached ->
    0 < JobEntry.relevance_score cached ->
    _quick_relevance_check cfg1 db llm1 title d1 link
    = Ok (JobEntry.relevance_score cached >=? 6, JobEntry.relevance_score cached)
    /\ _quick_relevance_check cfg2 db llm2 title d2 link
       = _quick_relevance_check cfg1 db llm1 title d1 link.
Proof.
  intros cfg1 cfg2 db llm1 llm2 title d1 d2 link cached Hlink Hq Hpos.
  assert (Hc : cached_verdict db title link
               = Some (JobEntry.relevance_score cached >=? 6,
                       JobEntry.relevance_score cached)).
  { unfold cached_verdict. destruct link as [|c r]; [congruence |].
    cbn [PyStr.truthy]. rewrite Hq.
    destruct (Z.gtb_spec (JobEntry.relevance_score cached) 0); [reflexivity | lia]. }
  unfold _quick_relevance_check. rewrite Hc. split; reflexivity.
Qed.

Lemma quick_relevance_check_cache_hit_witness :
  _quick_relevance_check sample_config scored_db (answering "3")
    "Lecturer Z" "" "https://example.com/3" = Ok (true, 8)
  /\ _quick_relevance_check sample_config scored_db unreachable_llm
       "Lecturer Z" "" "https://example.com/3"
     = _quick_relevance_check sample_config scored_db (answering "3")
         "Lecturer Z" "" "https://example.com/3".
Proof.
  destruct (query_by_id (generate_job_id "Lecturer Z" "https://example.com/3") scored_db)
    as [row|] eqn:Hq; [| vm_compute in Hq; discriminate].
  assert (Hs : JobEntry.relevance_score row = 8).
  { vm_compute in Hq. injection Hq as <-. reflexivity. }
  assert (Hpos : 0 < JobEntry.relevance_score row) by (rewrite Hs; reflexivity).
  assert (Hlink : "https://example.com/3" <> "") by discriminate.
  pose proof (quick_relevance_check_cache_hit sample_config sample_config scored_db
                (answering "3") unreachable_llm "Lecturer Z" "" ""
                "https://example.com/3" row Hlink Hq Hpos) as H.
  rewrite Hs in H. exact H.
Defined.

(** C5 as stated fails for an identity whose link is empty: the stored
    score 8 is not consulted and the verdict follows the service. *)
Lemma quick_relevance_check_cache_bypassed :
  (exists cached,
      query_by_id (generate_job_id "T" "") scored_db = Some cached
      /\ JobEntry.relevance_score cached = 8)
  /\ _quick_relevance_check sample_config scored_db (answering "3") "T" "" ""
     = Ok (false, 3)
  /\ _quick_relevance_check sample_config scored_db (answering "9") "T" "" ""
     = Ok (true, 9).
Proof.
  split.
  - eexists. split; vm_compute; reflexivity.
  - split; vm_compute; reflexivity.
Qed.

(** ** Content fetching *)









(** ** The vector store *)

Section VectorStoreProperties.

Variable M : Embedding.

Lemma add_job_entries_appends (jobs : list JobEntry.t) (vs : VectorStore M) :
  exists new_docs,
    documents (snd (add_job_entries jobs vs)) = documents vs ++ new_docs
    /\ xb (index (snd (add_job_entries jobs vs)))
       = xb (index vs) ++ map (stored_vector M) new_docs
    /\ d (index (snd (add_job_entries jobs vs))) = d (index vs).
Proof.
  unfold add_job_entries.
  destruct jobs as [|job jobs].
  - exists []. cbn [snd map]. now rewrite !app_nil_r.
  - remember (job :: jobs) as js eqn:Hjs. clear Hjs. unfold encode.
    destruct (encode_error M _).
    + exists []. cbn [snd map]. now rewrite !app_nil_r.
    + unfold index_add. destruct (dimension M =? d (index vs)).
      * exists (map make_doc js). cbn [snd index documents xb d].
        repeat split. f_equal. rewrite !map_map. reflexivity.
      * exists []. cbn [snd map]. now rewrite !app_nil_r.
Qed.

Lemma add_job_entries_aligned (jobs : list JobEntry.t) (vs : VectorStore M) :
  aligned vs -> aligned (snd (add_job_entries jobs vs)).
Proof.
  unfold aligned. intros H.
  destruct (add_job_entries_appends jobs vs) as (new_docs & Hd & Hx & _).
  rewrite Hd, Hx, H, map_app. reflexivity.
Qed.

Lemma run_adds_aligned (calls : list (list JobEntry.t)) (vs : VectorStore M) :
  aligned vs -> aligned (run_adds calls vs).
Proof.
  revert vs. induction calls as [|jobs calls IH]; intros vs H; cbn.
  - exact H.
  - apply IH. now apply add_job_entries_aligned.
Qed.

(** C2. From an empty index and an empty document list, after any sequence
    of [add_job_entries] calls the index holds as many rows as there are
    documents, the row at position [i] is the vector of the document at
    position [i], and one more call appends to both in the same order. *)
Theorem add_job_entries_alignment :
  forall (dim : Z) (calls : list (list JobEntry.t)),
    let vs := run_adds calls (empty_store M dim) in
    ntotal (index vs) = Z.of_nat (List.length (documents vs))
    /\ (forall i doc,
          nth_error (documents vs) i = Some doc ->
          nth_error (xb (index vs)) i = Some (stored_vector M doc))
    /\ (forall jobs,
          exists new_docs,
            documents (snd (add_job_entries jobs vs)) = documents vs ++ new_docs
            /\ xb (index (snd (add_job_entries jobs vs)))
               = xb (index vs) ++ map (stored_vector M) new_docs).
Proof.
  intros dim calls vs.
  assert (Hal : aligned vs).
  { subst vs. apply run_adds_aligned. reflexivity. }
  split; [| split].
  - unfold ntotal. rewrite Hal, length_map. reflexivity.
  - intros i doc Hdoc. rewrite Hal. now apply map_nth_error.
  - intros jobs. destruct (add_job_entries_appends jobs vs) as (nd & Hd & Hx & _).
    exists nd. split; assumption.
Qed.

(** When the model does not fail and the index has the model's dimension,
    every call stores one document per job, in the order given. *)
Lemma run_adds_documents (calls : list (list JobEntry.t)) (vs : VectorStore M) :
  (forall texts, encode_error M texts = None) ->
  d (index vs) = dimension M ->
  documents (run_adds calls vs) = documents vs ++ map make_doc (List.concat calls)
  /\ d (index (run_adds calls vs)) = dimension M.
Proof.
  intros Hok. revert vs. induction calls as [|jobs calls IH]; intros vs Hd.
  - cbn. now rewrite app_nil_r.
  - change (run_adds (jobs :: calls) vs)
      with (run_adds calls (snd (add_job_entries jobs vs))).
    cbn [List.concat].
    assert (Hstep : documents (snd (add_job_entries jobs vs))
                    = documents vs ++ map make_doc jobs
                    /\ d (index (snd (add_job_entries jobs vs))) = dimension M).
    { unfold add_job_entries. destruct jobs as [|job jobs].
      - cbn. now rewrite app_nil_r.
      - remember (job :: jobs) as js. unfold encode, index_add.
        rewrite Hok, Hd, Z.eqb_refl. cbn. now split. }
    destruct Hstep as [Hdocs Hdim].
    destruct (IH _ Hdim) as [IH1 IH2]. split; [| exact IH2].
    rewrite IH1, Hdocs, map_app, app_assoc. reflexivity.
Qed.

(** C8 fails on the code: [rebuild_index] never returns. It raises, either
    at the probe embedding with the store untouched, or at
    [db_manager.JobEntry] with an [AttributeError], the index and the
    documents already emptied. *)
Theorem rebuild_index_raises :
  forall (db : Database) (vs : VectorStore M),
    exists e,
      fst (rebuild_index db vs) = Raise e
      /\ (snd (rebuild_index db vs) = vs
          \/ (exn_cls e = AttributeError
              /\ ntotal (index (snd (rebuild_index db vs))) = 0
              /\ documents (snd (rebuild_index db vs)) = [])).
Proof.
  intros db vs. unfold rebuild_index, _create_new_index.
  destruct (encode M ["sample text"]) as [sample|e].
  - eexists. split; [reflexivity |]. right. repeat split.
  - exists e. split; [reflexivity | left; reflexivity].
Qed.

(** The batches of the rebuild loop, put end to end, are the whole list. *)
Lemma chunks_concat (bs : nat) :
  forall (m : nat) (A : Type) (l : list A),
    (List.length l <= m * bs)%nat ->
    List.concat (map (fun k => slice l (k * bs) bs) (seq 0 m)) = l.
Proof.
  induction m as [|m IH]; intros A l Hlen.
  - cbn in *. destruct l; [reflexivity | cbn in Hlen; lia].
  - cbn [seq map List.concat]. rewrite <- seq_shift, map_map.
    transitivity (firstn bs l ++ skipn bs l); [| apply firstn_skipn].
    f_equal.
    etransitivity; [| apply (IH A (skipn bs l)); rewrite length_skipn; lia].
    f_equal. apply map_ext. intros k. unfold slice.
    rewrite skipn_skipn. do 2 f_equal. lia.
Qed.

Lemma range_step_covers (n bs : nat) :
  (0 < bs)%nat -> (n <= ((n + bs - 1) / bs) * bs)%nat.
Proof.
  intros Hbs.
  pose proof (Nat.div_mod_eq (n + bs - 1) bs) as Hdm.
  pose proof (Nat.mod_upper_bound (n + bs - 1) bs) as Hub.
  nia.
Qed.

Lemma add_batches_run_adds (all_jobs : list JobEntry.t) (bs : nat) :
  (forall texts, encode_error M texts = None) ->
  forall (starts : list nat) (vs : VectorStore M),
    d (index vs) = dimension M ->
    add_batches all_jobs bs starts vs
    = (Ok tt, run_adds (map (fun i => slice all_jobs i bs) starts) vs).
Proof.
  intros Hok. induction starts as [|i starts IH]; intros vs Hd.
  - reflexivity.
  - cbn [add_batches map].
    change (run_adds (slice all_jobs i bs :: ?r) vs)
      with (run_adds r (snd (add_job_entries (slice all_jobs i bs) vs))).
    destruct (run_adds_documents [slice all_jobs i bs] vs Hok Hd) as [_ Hd1].
    change (run_adds [slice all_jobs i bs] vs)
      with (snd (add_job_entries (slice all_jobs i bs) vs)) in Hd1.
    assert (Hfst : fst (add_job_entries (slice all_jobs i bs) vs) = Ok tt).
    { unfold add_job_entries. destruct (slice all_jobs i bs); [reflexivity |].
      unfold encode, index_add. rewrite Hok, Hd, Z.eqb_refl. reflexivity. }
    destruct (add_job_entries (slice all_jobs i bs) vs) as [r vs1].
    cbn [fst snd] in *. subst r. now apply IH.
Qed.

(** The loop of [rebuild_index], given the analyzed rows, a model that
    does not fail and a fresh index: it returns, and the documents are
    those of the rows, in order. *)
Lemma add_batches_complete (all_jobs : list JobEntry.t) (bs : nat) :
  (0 < bs)%nat ->
  (forall texts, encode_error M texts = None) ->
  let r := add_batches all_jobs bs (range_step (List.length all_jobs) bs)
             (empty_store M (dimension M)) in
  fst r = Ok tt
  /\ documents (snd r) = map make_doc all_jobs
  /\ ntotal (index (snd r)) = Z.of_nat (List.length all_jobs).
Proof.
  intros Hbs Hok r. subst r.
  rewrite (add_batches_run_adds all_jobs bs Hok _ (empty_store M (dimension M)) eq_refl).
  cbn [fst snd].
  destruct (run_adds_documents
              (map (fun i => slice all_jobs i bs) (range_step (List.length all_jobs) bs))
              (empty_store M (dimension M)) Hok eq_refl) as [Hdocs _].
  unfold range_step in *. rewrite map_map in *.
  rewrite chunks_concat in Hdocs by (now apply range_step_covers).
  cbn [empty_store documents app] in Hdocs.
  split; [reflexivity |]. split; [exact Hdocs |].
  assert (Hal : aligned (run_adds
                  (map (fun x => slice all_jobs (x * bs) bs)
                     (seq 0 ((List.length all_jobs + bs - 1) / bs)))
                  (empty_store M (dimension M)))).
  { apply run_adds_aligned. reflexivity. }
  unfold ntotal. rewrite Hal, length_map, Hdocs, length_map. reflexivity.
Qed.

End VectorStoreProperties.

Lemma add_job_entries_alignment_witness :
  let vs := run_adds [[analyzed_row 0; analyzed_row 1]; []; [analyzed_row 2]]
              (empty_store toy_embedding 2) in
  ntotal (index vs) = 3
  /\ map Doc.link (documents vs)
     = ["https://example.com/job/0"; "https://example.com/job/1";
        "https://example.com/job/2"]
  /\ nth_error (xb (index vs)) 2
     = Some (stored_vector toy_embedding (make_doc (analyzed_row 2))).
Proof.
  intros vs.
  destruct (add_job_entries_alignment toy_embedding 2
              [[analyzed_row 0; analyzed_row 1]; []; [analyzed_row 2]])
    as (Hsize & Hrow & _).
  fold vs in Hsize, Hrow.
  split; [rewrite Hsize; vm_compute; reflexivity |].
  split; [vm_compute; reflexivity |].
  apply Hrow. vm_compute. reflexivity.
Defined.

(** [rebuild_index] on a store of 250 analyzed rows, the index holding two
    documents before: an [AttributeError], and an empty index. *)
Example rebuild_index_250 :
  let before := run_adds [[analyzed_row 0; analyzed_row 1]] (empty_store toy_embedding 2) in
  count_rows JobEntry.analyzed db250 = 250
  /\ ntotal (index before) = 2
  /\ fst (rebuild_index db250 before)
     = Raise (PyExn AttributeError "'DatabaseManager' object has no attribute 'JobEntry'")
  /\ ntotal (index (snd (rebuild_index db250 before))) = 0.
Proof. vm_compute. repeat split; reflexivity. Qed.

(** What the loop of [rebuild_index] would do with the 250 rows, had the
    query returned them: batches of 100, 100 and 50, and 250 rows in the
    index. *)
Example add_batches_250 :
  let all_jobs := filter JobEntry.analyzed db250 in
  let starts := range_step (List.length all_jobs) 100 in
  starts = [0; 100; 200]%nat
  /\ map (fun i => List.length (slice all_jobs i 100)) starts = [100; 100; 50]%nat
  /\ ntotal (index (snd (add_batches all_jobs 100 starts (empty_store toy_embedding 2))))
     = 250.
Proof. vm_compute. repeat split; reflexivity. Qed.

(** A call that raises leaves the index and the documents as they were. *)
Example add_job_entries_failure_keeps_alignment :
  let vs := run_adds [[analyzed_row 0; analyzed_row 1];
                      [analyzed_row 2; analyzed_row 3; analyzed_row 4];
                      [analyzed_row 5]] (empty_store small_embedding 2) in
  map Doc.link (documents vs)
  = ["https://example.com/job/0"; "https://example.com/job/1";
     "https://example.com/job/5"]
  /\ ntotal (index vs) = 3.
Proof. vm_compute. repeat split; reflexivity. Qed.

(** ** The order of [str] comparison *)

Lemma string_compare_refl (s : string) : String.compare s s = Eq.
Proof.
  induction s as [|c s IH]; cbn; [reflexivity |].
  unfold Ascii.compare. now rewrite N.compare_refl.
Qed.

Lemma ascii_compare_lt_trans (a b c : ascii) :
  Ascii.compare a b = Lt -> Ascii.compare b c = Lt -> Ascii.compare a c = Lt.
Proof.
  unfold Ascii.compare. rewrite !N.compare_lt_iff. apply N.lt_trans.
Qed.

Lemma string_compare_lt_trans (a b c : string) :
  String.compare a b = Lt -> String.compare b c = Lt -> String.compare a c = Lt.
Proof.
  revert b c. induction a as [|x a IH]; intros [|y b] [|z c]; cbn;
    try congruence.
  destruct (Ascii.compare x y) eqn:Hxy; try discriminate.
  - apply Ascii.compare_eq_iff in Hxy. subst y.
    destruct (Ascii.compare x z); try congruence. apply IH.
  - intros _. destruct (Ascii.compare y z) eqn:Hyz; try discriminate.
    + apply Ascii.compare_eq_iff in Hyz. subst z. now rewrite Hxy.
    + now rewrite (ascii_compare_lt_trans x y z Hxy Hyz).
Qed.

Lemma string_leb_iff (a b : string) :
  String.leb a b = true <-> a = b \/ String.compare a b = Lt.
Proof.
  unfold String.leb. destruct (String.compare a b) eqn:H; split; intros H'.
  - left. now apply String.compare_eq_iff.
  - reflexivity.
  - now right.
  - reflexivity.
  - discriminate.
  - destruct H' as [-> | H']; [| discriminate].
    rewrite string_compare_refl in H. discriminate.
Qed.

Lemma string_leb_refl (a : string) : String.leb a a = true.
Proof. apply string_leb_iff. now left. Qed.

Lemma string_leb_trans (a b c : string) :
  String.leb a b = true -> String.leb b c = true -> String.leb a c = true.
Proof.
  rewrite !string_leb_iff. intros [-> | Hab] [-> | Hbc]; auto.
  right. eapply string_compare_lt_trans; eassumption.
Qed.

Lemma string_leb_empty (a : string) : String.leb "" a = true.
Proof. destruct a; reflexivity. Qed.

Lemma string_ltb_leb (a b : string) : String.ltb a b = true -> String.leb a b = true.
Proof. unfold String.ltb, String.leb. destruct (String.compare a b); congruence. Qed.

Lemma string_not_ltb_leb (a b : string) : String.ltb a b = false -> String.leb b a = true.
Proof.
  unfold String.ltb, String.leb. rewrite (String.compare_antisym a b).
  destruct (String.compare b a); cbn; congruence.
Qed.

Lemma falsy_watermark (v : option string) : truthy_opt v = false -> watermark v = "".
Proof. destruct v as [[|c s]|]; cbn; congruence. Qed.

(** One more timestamp: the tracked value stays the greatest seen. *)
Lemma track_latest_greatest (latest : option string) (t : string) (seen : list string) :
  greatest (watermark latest) seen ->
  greatest (watermark (track_latest latest t)) (seen ++ [t]).
Proof.
  intros [Hin Hmax]. unfold track_latest, PyStr.gtb.
  destruct (truthy_opt latest) eqn:Htr; cbn [negb orb].
  - destruct latest as [s|]; [| discriminate]. cbn [dict_get watermark] in *.
    destruct (String.ltb s t) eqn:Hlt; cbn [watermark dict_get]; split.
    + apply in_or_app. right. now left.
    + intros y Hy. apply in_app_or in Hy. destruct Hy as [Hy | [<- | []]].
      * eapply string_leb_trans; [now apply Hmax | now apply string_ltb_leb].
      * apply string_leb_refl.
    + apply in_or_app. now left.
    + intros y Hy. apply in_app_or in Hy. destruct Hy as [Hy | [<- | []]].
      * now apply Hmax.
      * now apply string_not_ltb_leb.
  - apply falsy_watermark in Htr. rewrite Htr in *. cbn [watermark dict_get]. split.
    + apply in_or_app. right. now left.
    + intros y Hy. apply in_app_or in Hy. destruct Hy as [Hy | [<- | []]].
      * eapply string_leb_trans; [now apply Hmax | apply string_leb_empty].
      * apply string_leb_refl.
Qed.

(** ** The Miniflux poll *)

Lemma miniflux_step_spec (w : World) (cfg : Config) (db : Database)
  (st st' : LoopState) (entry : Raw.t) :
  miniflux_step w cfg db st entry = Ok st' ->
  latest_timestamp st'
  = (if _is_job_already_processed db (dict_get (Raw.title entry) "")
          (dict_get (Raw.url entry) "")
     then latest_timestamp st
     else track_latest (latest_timestamp st) (dict_get (Raw.published_at entry) ""))
  /\ (Forall unscored (entries st) -> Forall unscored (entries st')).
Proof.
  unfold miniflux_step.
  destruct (_is_job_already_processed db _ _).
  - intros H; injection H as <-. cbn. auto.
  - destruct (_quick_relevance_check _ _ _ _ _ _) as [[is_relevant score]|e];
      cbn [bind]; [| discriminate].
    destruct is_relevant; cbn [negb].
    + destruct (score <? 6).
      * intros H; injection H as <-. cbn. auto.
      * destruct (_fetch_full_content _ _ _) as [full k].
        intros H; injection H as <-. cbn [latest_timestamp entries]. split; [reflexivity |].
        intros Hall. apply Forall_app. split; [assumption |].
        constructor; [reflexivity | constructor].
    + intros H; injection H as <-. cbn. auto.
Qed.

Lemma miniflux_loop_unscored (w : World) (cfg : Config) (db : Database) :
  forall (data : list Raw.t) (st st' : LoopState),
    miniflux_loop w cfg db st data = Ok st' ->
    Forall unscored (entries st) -> Forall unscored (entries st').
Proof.
  induction data as [|entry data IH]; intros st st' Hloop Hun.
  - cbn in Hloop. injection Hloop as <-. exact Hun.
  - cbn [miniflux_loop] in Hloop.
    destruct (miniflux_step w cfg db st entry) as [st1|e] eqn:Hstep;
      cbn [bind] in Hloop; [| discriminate].
    apply (IH st1 st' Hloop).
    now apply (miniflux_step_spec _ _ _ _ _ _ Hstep).
Qed.

Lemma miniflux_loop_watermark (w : World) (cfg : Config) (db : Database) :
  forall (data : list Raw.t) (st st' : LoopState) (seen_times : list string),
    miniflux_loop w cfg db st data = Ok st' ->
    greatest (watermark (latest_timestamp st)) seen_times ->
    greatest (watermark (latest_timestamp st'))
             (seen_times ++ published_times (fresh_entries db data)).
Proof.
  induction data as [|entry data IH]; intros st st' seen_times Hloop Hg.
  - cbn in Hloop. injection Hloop as <-. cbn. now rewrite app_nil_r.
  - cbn [miniflux_loop] in Hloop.
    destruct (miniflux_step w cfg db st entry) as [st1|e] eqn:Hstep;
      cbn [bind] in Hloop; [| discriminate].
    destruct (miniflux_step_spec _ _ _ _ _ _ Hstep) as [Hlatest _].
    unfold fresh_entries. cbn [filter]. fold (fresh_entries db data).
    destruct (_is_job_already_processed db _ _); cbn [negb].
    + rewrite <- Hlatest in Hg. exact (IH st1 st' seen_times Hloop Hg).
    + assert (Hg1 : greatest (watermark (latest_timestamp st1))
                      (seen_times ++ [dict_get (Raw.published_at entry) ""])).
      { rewrite Hlatest. now apply track_latest_greatest. }
      pose proof (IH st1 st' _ Hloop Hg1) as IH1.
      unfold published_times in *. cbn [map]. rewrite <- app_assoc in IH1. exact IH1.
Qed.

Lemma string_leb_empty_r (s : string) : String.leb s "" = true -> s = "".
Proof. destruct s; [reflexivity | discriminate]. Qed.

Lemma opt_neqb_false (a b : option string) : opt_neqb a b = false -> a = b.
Proof.
  destruct a as [x|], b as [y|]; cbn; try congruence.
  destruct (String.eqb_spec x y); cbn; congruence.
Qed.

(** C7 (amended). After a successful Miniflux poll the stored watermark is
    the greatest, in the order of [str] comparison, of the previous
    watermark and the [published_at] values of the entries of the answer
    that were not in the store already; whether the relevance gate kept an
    entry plays no part. *)
Theorem miniflux_watermark :
  forall (w : World) (cl cl' : ConfigLoader) (db : Database)
         (data : option (list Raw.t)) (es : list Entry.t),
    on_disk cl = cached cl ->
    poll_answer w cl = Ok data ->
    miniflux_try w cl db = (Ok es, cl') ->
    greatest (watermark (last_miniflux_fetch (on_disk cl')))
             (watermark (last_miniflux_fetch (cached cl))
              :: published_times (fresh_entries db (dict_get data []))).
Proof.
  intros w cl cl' db data es Hsync Hanswer Htry.
  unfold miniflux_try in Htry. unfold poll_answer in Hanswer.
  cbv zeta in Htry, Hanswer. rewrite Hanswer in Htry.
  destruct (miniflux_loop _ _ _ _ _) as [st|e] eqn:Hloop; [| discriminate].
  assert (Hg0 : greatest (watermark (last_miniflux_fetch (cached cl)))
                  [watermark (last_miniflux_fetch (cached cl))]).
  { split; [now left |]. intros y [<- | []]. apply string_leb_refl. }
  pose proof (miniflux_loop_watermark _ _ _ _ _ _ _ Hloop Hg0) as Hg.
  cbn [latest_timestamp app] in Hg.
  destruct (truthy_opt (latest_timestamp st)) eqn:Htr; cbn [andb] in Htry.
  - destruct (opt_neqb (latest_timestamp st) (last_miniflux_fetch (cached cl))) eqn:Hne.
    + unfold save_yaml_config in Htry.
      destruct (yaml_write_error w); [discriminate |].
      injection Htry as _ <-. cbn [on_disk set_last_miniflux_fetch last_miniflux_fetch].
      exact Hg.
    + apply opt_neqb_false in Hne. injection Htry as _ <-.
      rewrite Hsync. rewrite Hne in Hg. exact Hg.
  - injection Htry as _ <-. rewrite Hsync.
    apply falsy_watermark in Htr. rewrite Htr in Hg.
    assert (Hprev : watermark (last_miniflux_fetch (cached cl)) = "").
    { apply string_leb_empty_r. apply Hg. now left. }
    rewrite Hprev in *. exact Hg.
Qed.

Lemma miniflux_watermark_witness :
  miniflux_try (world_with [new_raw_entry; known_raw_entry] "3") sample_loader sample_db
  = (Ok [], advanced_loader)
  /\ last_miniflux_fetch (on_disk advanced_loader) = Some "2024-05-01T10:00:00Z"
  /\ greatest (watermark (last_miniflux_fetch (on_disk advanced_loader)))
       (watermark (last_miniflux_fetch (cached sample_loader))
        :: published_times
             (fresh_entries sample_db [new_raw_entry; known_raw_entry])).
Proof.
  assert (Htry : miniflux_try (world_with [new_raw_entry; known_raw_entry] "3")
                   sample_loader sample_db = (Ok [], advanced_loader))
    by (vm_compute; reflexivity).
  split; [exact Htry |]. split; [reflexivity |].
  exact (miniflux_watermark (world_with [new_raw_entry; known_raw_entry] "3")
           sample_loader advanced_loader sample_db
           (Some [new_raw_entry; known_raw_entry]) [] eq_refl eq_refl Htry).
Defined.

(** C7 as stated fails: the poll succeeds, the one entry of the answer is
    stored already, and the watermark stays below its timestamp. *)
Lemma miniflux_watermark_skips_known :
  miniflux_try (world_with [known_raw_entry] "8") sample_loader sample_db
  = (Ok [], sample_loader)
  /\ last_miniflux_fetch (on_disk sample_loader) = Some "2024-01-01T00:00:00Z"
  /\ published_times [known_raw_entry] = ["2024-06-01T00:00:00Z"]
  /\ ~ greatest "2024-01-01T00:00:00Z"
         ("2024-01-01T00:00:00Z" :: published_times [known_raw_entry]).
Proof.
  split; [vm_compute; reflexivity |].
  split; [reflexivity |]. split; [reflexivity |].
  intros [_ Hmax].
  specialize (Hmax "2024-06-01T00:00:00Z" (or_intror (or_introl eq_refl))).
  vm_compute in Hmax. discriminate.
Qed.

Lemma fetch_miniflux_unscored (w : World) (cl : ConfigLoader) (db : Database) :
  Forall unscored (fst (_fetch_miniflux w cl db)).
Proof.
  unfold _fetch_miniflux.
  destruct (miniflux_try w cl db) as [[es|e] cl'] eqn:Htry; cbn [fst]; [| constructor].
  unfold miniflux_try in Htry. cbv zeta in Htry.
  destruct (miniflux_entries w _) as [data|e]; [| discriminate].
  destruct (miniflux_loop _ _ _ _ _) as [st|e] eqn:Hloop; [| discriminate].
  assert (Hun : Forall unscored (entries st)).
  { apply (miniflux_loop_unscored _ _ _ _ _ _ Hloop). constructor. }
  destruct (_ && _).
  - destruct (save_yaml_config _ _ _) as [[u|e] cl1]; [| discriminate].
    injection Htry as <- _. exact Hun.
  - injection Htry as <- _. exact Hun.
Qed.

(** C6 fails on the code: an entry returned by the Miniflux poll never
    carries a relevance score (the score is written into the entry of the
    answer, not into the dictionary handed on), so the row inserted for it
    has [relevance_score = 0] whatever the gate returned. *)
Theorem fetch_miniflux_score_not_stored :
  forall (w : World) (cl : ConfigLoader) (db db0 : Database) (e : Entry.t) (now : Z),
    In e (fst (_fetch_miniflux w cl db)) ->
    query_by_id (generate_job_id (Entry.title e) (Entry.link e)) db0 = None ->
    Entry.relevance_score e = None
    /\ exists row,
         add_job_entry now e db0 = (true, db0 ++ [row])
         /\ JobEntry.relevance_score row = 0.
Proof.
  intros w cl db db0 e now Hin Hnew.
  assert (Hun : unscored e).
  { pose proof (fetch_miniflux_unscored w cl db) as Hall.
    rewrite Forall_forall in Hall. now apply Hall. }
  split; [exact Hun |].
  unfold add_job_entry. rewrite Hnew. eexists. split; [reflexivity |].
  cbn [JobEntry.relevance_score]. rewrite Hun. reflexivity.
Qed.

Lemma fetch_miniflux_score_not_stored_witness :
  _quick_relevance_check sample_config sample_db (answering "8")
    "Assistant Professor X" "" "" = Ok (true, 8)
  /\ fst (_fetch_miniflux (world_with [new_raw_entry] "8") sample_loader sample_db)
     = [fetched_entry]
  /\ (exists row,
         add_job_entry 2000 fetched_entry sample_db = (true, sample_db ++ [row])
         /\ JobEntry.relevance_score row = 0).
Proof.
  split; [vm_compute; reflexivity |].
  assert (Hfetch : fst (_fetch_miniflux (world_with [new_raw_entry] "8")
                          sample_loader sample_db) = [fetched_entry])
    by (vm_compute; reflexivity).
  split; [exact Hfetch |].
  apply (fetch_miniflux_score_not_stored (world_with [new_raw_entry] "8")
           sample_loader sample_db sample_db fetched_entry 2000).
  - rewrite Hfetch. now left.
  - vm_compute. reflexivity.
Defined.

(** The stored row does not serve as a cache: a later check of the same
    posting asks the analysis service again. *)
Example fetch_miniflux_cache_not_populated :
  let db' := snd (store_entries (fun _ => 2000) 0
                    (fst (_fetch_miniflux (world_with [new_raw_entry] "8")
                            sample_loader sample_db)) sample_db 0) in
  option_map JobEntry.relevance_score
    (query_by_id (generate_job_id "Assistant Professor X" "https://example.com/1") db')
  = Some 0
  /\ _quick_relevance_check sample_config db' (answering "2")
       "Assistant Professor X" "Tenure-track position" "https://example.com/1"
     = Ok (false, 2).
Proof. vm_compute. split; reflexivity. Qed.

(* ===================================================================== *)
(** * Further properties *)
(* ===================================================================== *)

(** ** The record store: updates, pages, histories *)

Lemma update_analysis_result_ids (job_id a : string) (db : Database) :
  map JobEntry.id (update_analysis_result job_id a db) = map JobEntry.id db.
Proof.
  induction db as [|r db IH]; [reflexivity |]. cbn [update_analysis_result].
  destruct (String.eqb (JobEntry.id r) job_id); cbn [map]; [reflexivity |].
  now rewrite IH.
Qed.

Lemma update_analysis_result_absent (job_id a : string) (db : Database) :
  query_by_id job_id db = None -> update_analysis_result job_id a db = db.
Proof.
  unfold query_by_id. induction db as [|r db IH]; [reflexivity |].
  cbn [find update_analysis_result].
  destruct (String.eqb (JobEntry.id r) job_id); [discriminate |].
  intros H. now rewrite IH.
Qed.

Lemma update_analysis_result_cons (job_id a : string) (r : JobEntry.t) (db : Database) :
  update_analysis_result job_id a (r :: db)
  = if String.eqb (JobEntry.id r) job_id then mark_analyzed a r :: db
    else r :: update_analysis_result job_id a db.
Proof. reflexivity. Qed.

Lemma update_analysis_result_query (job_id a other : string) (db : Database) :
  query_by_id other (update_analysis_result job_id a db)
  = if String.eqb other job_id
    then option_map (mark_analyzed a) (query_by_id job_id db)
    else query_by_id other db.
Proof.
  unfold query_by_id. induction db as [|r db IH].
  - cbn. now destruct (String.eqb other job_id).
  - rewrite update_analysis_result_cons. cbn [find].
    destruct (String.eqb_spec (JobEntry.id r) job_id) as [Hr | Hr];
      destruct (String.eqb_spec other job_id) as [Ho | Ho]; cbn [find option_map];
      change (JobEntry.id (mark_analyzed a r)) with (JobEntry.id r).
    + subst other. rewrite Hr, String.eqb_refl. reflexivity.
    + destruct (String.eqb_spec (JobEntry.id r) other); [congruence | reflexivity].
    + subst other. destruct (String.eqb_spec (JobEntry.id r) job_id); [contradiction |].
      exact IH.
    + destruct (String.eqb_spec (JobEntry.id r) other); [reflexivity |]. exact IH.
Qed.

(** X1. After [update_analysis_result] the row found under the id is the
    old one marked analyzed with the result, every other id finds the row
    it found before, and the ids of the table, in order, are unchanged. *)
Theorem update_analysis_result_lookup :
  forall (db : Database) (job_id analysis_result other : string),
    map JobEntry.id (update_analysis_result job_id analysis_result db)
    = map JobEntry.id db
    /\ query_by_id job_id (update_analysis_result job_id analysis_result db)
       = option_map (mark_analyzed analysis_result) (query_by_id job_id db)
    /\ (other <> job_id ->
        query_by_id other (update_analysis_result job_id analysis_result db)
        = query_by_id other db).
Proof.
  intros db job_id a other. split; [apply update_analysis_result_ids |]. split.
  - rewrite update_analysis_result_query, String.eqb_refl. reflexivity.
  - intros Hne. rewrite update_analysis_result_query.
    destruct (String.eqb_spec other job_id); [contradiction | reflexivity].
Qed.

Lemma update_analysis_result_lookup_witness :
  query_by_id "nobody" (update_analysis_result (JobEntry.id (numbered_row false 1)) "fit"
                          [numbered_row false 0; numbered_row false 1])
  = query_by_id "nobody" [numbered_row false 0; numbered_row false 1].
Proof.
  apply (update_analysis_result_lookup [numbered_row false 0; numbered_row false 1]
           (JobEntry.id (numbered_row false 1)) "fit" "nobody").
  vm_compute. discriminate.
Defined.

Lemma filter_other_ids (job_id : string) (l : list JobEntry.t) :
  ~ In job_id (map JobEntry.id l) ->
  filter (fun r => negb (String.eqb (JobEntry.id r) job_id)) l = l.
Proof.
  induction l as [|r l IH]; [reflexivity |]. cbn [map filter]. intros Hnot.
  destruct (String.eqb_spec (JobEntry.id r) job_id) as [Heq | Hne].
  - exfalso. apply Hnot. now left.
  - cbn [negb]. rewrite IH; [reflexivity |]. intros Hin. apply Hnot. now right.
Qed.

Lemma in_ids_filter (p : JobEntry.t -> bool) (job_id : string) (l : list JobEntry.t) :
  In job_id (map JobEntry.id (filter p l)) -> In job_id (map JobEntry.id l).
Proof.
  rewrite !in_map_iff. intros [r [Hid Hin]]. apply filter_In in Hin.
  exists r. tauto.
Qed.

Lemma pending_after_update (db : Database) (job_id a : string) :
  primary_key db ->
  get_unanalyzed_entries (update_analysis_result job_id a db)
  = filter (fun r => negb (String.eqb (JobEntry.id r) job_id))
      (get_unanalyzed_entries db).
Proof.
  intros Hpk.
  unfold primary_key, get_unanalyzed_entries in *.
  induction db as [|r db IH]; [reflexivity |].
  cbn [map] in Hpk. inversion Hpk as [|? ? Hnotin Hnd]; subst.
  rewrite update_analysis_result_cons.
  destruct (String.eqb (JobEntry.id r) job_id) eqn:Hid.
  - apply String.eqb_eq in Hid.
    assert (Hrest : filter (fun r0 => negb (String.eqb (JobEntry.id r0) job_id))
                      (filter (fun r0 => negb (JobEntry.analyzed r0)) db)
                    = filter (fun r0 => negb (JobEntry.analyzed r0)) db).
    { apply filter_other_ids. intros Hin. apply Hnotin. rewrite Hid.
      eapply in_ids_filter. exact Hin. }
    cbn [filter]. change (JobEntry.analyzed (mark_analyzed a r)) with true.
    cbn [negb].
    destruct (JobEntry.analyzed r); cbn [negb filter].
    + now rewrite Hrest.
    + rewrite Hid, String.eqb_refl. cbn [negb]. now rewrite Hrest.
  - cbn [filter]. destruct (JobEntry.analyzed r); cbn [negb filter].
    + now apply IH.
    + rewrite Hid. cbn [negb]. f_equal. now apply IH.
Qed.

(** X2. On a table with its primary key, [update_analysis_result] takes
    exactly the row with that id out of the pending list, the others keep
    their order; for an id that is not stored it changes nothing. *)
Theorem update_analysis_result_pending :
  forall (db : Database) (job_id analysis_result : string),
    primary_key db ->
    get_unanalyzed_entries (update_analysis_result job_id analysis_result db)
    = filter (fun r => negb (String.eqb (JobEntry.id r) job_id))
        (get_unanalyzed_entries db)
    /\ (query_by_id job_id db = None ->
        update_analysis_result job_id analysis_result db = db).
Proof.
  intros db job_id a Hpk.
  split; [now apply pending_after_update | apply update_analysis_result_absent].
Qed.

Lemma update_analysis_result_pending_witness :
  get_unanalyzed_entries
    (update_analysis_result (JobEntry.id (numbered_row false 1)) "fit"
       [numbered_row false 0; numbered_row false 1; numbered_row false 2])
  = [numbered_row false 0; numbered_row false 2].
Proof.
  assert (Hpk : primary_key [numbered_row false 0; numbered_row false 1;
                             numbered_row false 2]).
  { unfold primary_key. vm_compute.
    repeat (constructor; [cbn; intuition discriminate |]). constructor. }
  destruct (update_analysis_result_pending
              [numbered_row false 0; numbered_row false 1; numbered_row false 2]
              (JobEntry.id (numbered_row false 1)) "fit" Hpk) as [H _].
  rewrite H. vm_compute. reflexivity.
Defined.

Lemma firstn_add_skipn {A} (a b : nat) (l : list A) :
  firstn a l ++ firstn b (skipn a l) = firstn (a + b) l.
Proof.
  revert l. induction a as [|a IH]; intros l; [reflexivity |].
  destruct l as [|x l]; cbn [firstn skipn Nat.add app].
  - now rewrite firstn_nil.
  - now rewrite IH.
Qed.

(** X3. The pages of [get_all_entries] tile the table: a page of [limit]
    rows at [offset] followed by the page of [limit'] rows at
    [offset + limit] is the page of [limit + limit'] rows at [offset]; a page
    holds [limit] rows, or what is left of the table after [offset]. *)
Theorem get_all_entries_pages :
  forall (db : Database) (limit limit' offset : N),
    get_all_entries limit offset db ++ get_all_entries limit' (offset + limit) db
    = get_all_entries (limit + limit') offset db
    /\ Z.of_nat (List.length (get_all_entries limit offset db))
       = Z.min (Z.of_N limit) (Z.max 0 (Z.of_nat (List.length db) - Z.of_N offset)).
Proof.
  intros db limit limit' offset. unfold get_all_entries. split.
  - replace (N.to_nat (offset + limit)) with (N.to_nat limit + N.to_nat offset)%nat
      by lia.
    replace (N.to_nat (limit + limit')) with (N.to_nat limit + N.to_nat limit')%nat
      by lia.
    rewrite <- skipn_skipn. apply firstn_add_skipn.
  - rewrite length_firstn, length_skipn. lia.
Qed.

(** X4. Inserting an entry whose id is not stored: [add_job_entry] returns
    [True], the id then finds the new row, with the fields of the entry,
    not analyzed, the row is last in the pending list, and every id stored
    before finds the row it found before. *)
Theorem add_job_entry_lookup :
  forall (db : Database) (now : Z) (entry_data : Entry.t),
    query_by_id (generate_job_id (Entry.title entry_data) (Entry.link entry_data)) db
    = None ->
    let db' := snd (add_job_entry now entry_data db) in
    fst (add_job_entry now entry_data db) = true
    /\ query_by_id (generate_job_id (Entry.title entry_data) (Entry.link entry_data)) db'
       = Some (new_row now entry_data)
    /\ get_unanalyzed_entries db'
       = get_unanalyzed_entries db ++ [new_row now entry_data]
    /\ (forall other r, query_by_id other db = Some r -> query_by_id other db' = Some r).
Proof.
  intros db now e Hnew db'. subst db'. unfold add_job_entry. rewrite Hnew.
  cbn [fst snd]. fold (new_row now e). split; [reflexivity |]. split; [| split].
  - now apply query_by_id_app_new.
  - unfold get_unanalyzed_entries. rewrite filter_app. reflexivity.
  - intros other r Hr. unfold query_by_id in *.
    induction db as [|x db IH]; [discriminate |]. cbn [find app] in *.
    destruct (String.eqb (JobEntry.id x) other); [exact Hr |].
    apply IH; [| exact Hr].
    destruct (String.eqb (JobEntry.id x) _); [discriminate | exact Hnew].
Qed.

Lemma add_job_entry_lookup_witness :
  fst (add_job_entry 2000 sample_entry sample_db) = true
  /\ query_by_id (generate_job_id "Assistant Professor X" "https://example.com/1")
       (snd (add_job_entry 2000 sample_entry sample_db))
     = Some (new_row 2000 sample_entry).
Proof.
  destruct (add_job_entry_lookup sample_db 2000 sample_entry) as (H1 & H2 & _).
  - vm_compute. reflexivity.
  - split; [exact H1 | exact H2].
Defined.

Lemma nodup_map_inj {A B} (f : A -> B) (l : list A) (a b : A) :
  NoDup (map f l) -> In a l -> In b l -> f a = f b -> a = b.
Proof.
  induction l as [|x l IH]; cbn [map]; intros Hnd Ha Hb Hf; [contradiction |].
  inversion Hnd as [|? ? Hnotin Hnd']; subst.
  destruct Ha as [-> | Ha], Hb as [-> | Hb]; auto.
  - exfalso. apply Hnotin. rewrite Hf. now apply in_map.
  - exfalso. apply Hnotin. rewrite <- Hf. now apply in_map.
Qed.

Lemma add_job_entry_content_addressed (now : Z) (e : Entry.t) (db : Database) :
  content_addressed db -> content_addressed (snd (add_job_entry now e db)).
Proof.
  unfold content_addressed, add_job_entry. intros H.
  destruct (query_by_id _ db); cbn [snd]; [assumption |].
  apply Forall_app. split; [assumption |]. constructor; [reflexivity | constructor].
Qed.

Lemma update_analysis_result_content_addressed (j a : string) (db : Database) :
  content_addressed db -> content_addressed (update_analysis_result j a db).
Proof.
  unfold content_addressed. induction db as [|r db IH]; intros H; [constructor |].
  inversion H as [|? ? Hr Hdb]; subst. rewrite update_analysis_result_cons.
  destruct (String.eqb (JobEntry.id r) j); constructor; auto.
Qed.

Lemma update_analysis_result_primary_key (j a : string) (db : Database) :
  primary_key db -> primary_key (update_analysis_result j a db).
Proof. unfold primary_key. now rewrite update_analysis_result_ids. Qed.

Lemma run_ops_invariants (ops : list store_op) (db : Database) :
  primary_key db -> content_addressed db ->
  primary_key (run_ops ops db) /\ content_addressed (run_ops ops db).
Proof.
  revert db. induction ops as [|op ops IH]; intros db Hpk Hca; [now split |].
  change (run_ops (op :: ops) db) with (run_ops ops (run_op db op)).
  apply IH; destruct op as [now e | j a]; cbn [run_op].
  - now apply add_job_entry_primary_key.
  - now apply update_analysis_result_primary_key.
  - now apply add_job_entry_content_addressed.
  - now apply update_analysis_result_content_addressed.
Qed.

(** X5. Whatever sequence of [add_job_entry] and [update_analysis_result]
    calls built the table from nothing: ids are unique, every id is the one
    of the row's title and link, and no two rows have the same title and
    link. *)
Theorem store_history_invariants :
  forall ops : list store_op,
    let db := run_ops ops [] in
    primary_key db
    /\ content_addressed db
    /\ (forall r1 r2,
          In r1 db -> In r2 db ->
          JobEntry.title r1 = JobEntry.title r2 ->
          JobEntry.link r1 = JobEntry.link r2 ->
          r1 = r2).
Proof.
  intros ops db.
  destruct (run_ops_invariants ops []) as [Hpk Hca];
    [constructor | constructor |]. fold db in Hpk, Hca.
  split; [exact Hpk |]. split; [exact Hca |].
  intros r1 r2 H1 H2 Ht Hl.
  apply (nodup_map_inj JobEntry.id db r1 r2 Hpk H1 H2).
  unfold content_addressed in Hca. rewrite Forall_forall in Hca.
  rewrite (Hca r1 H1), (Hca r2 H2), Ht, Hl. reflexivity.
Qed.

(** ** Storing what was fetched *)

Lemma query_by_id_app (job_id : string) (db more : Database) (r : JobEntry.t) :
  query_by_id job_id db = Some r -> query_by_id job_id (db ++ more) = Some r.
Proof.
  unfold query_by_id. induction db as [|x db IH]; cbn [find app]; [discriminate |].
  destruct (String.eqb (JobEntry.id x) job_id); auto.
Qed.

Lemma processed_app (db more : Database) (title link : string) :
  _is_job_already_processed db title link = true ->
  _is_job_already_processed (db ++ more) title link = true.
Proof.
  unfold _is_job_already_processed.
  destruct (query_by_id _ db) as [r|] eqn:Hq; [| discriminate].
  now rewrite (query_by_id_app _ _ more _ Hq).
Qed.

Lemma add_job_entry_processed (now : Z) (e : Entry.t) (db : Database) :
  _is_job_already_processed (snd (add_job_entry now e db))
    (Entry.title e) (Entry.link e) = true.
Proof.
  unfold _is_job_already_processed, add_job_entry.
  destruct (query_by_id _ db) as [r|] eqn:Hq; cbn [snd].
  - now rewrite Hq.
  - erewrite query_by_id_app_new; [reflexivity | exact Hq | reflexivity].
Qed.

Lemma add_job_entry_extends (now : Z) (e : Entry.t) (db : Database) :
  exists added,
    snd (add_job_entry now e db) = db ++ added
    /\ List.length added = (if fst (add_job_entry now e db) then 1 else 0)%nat.
Proof.
  unfold add_job_entry. destruct (query_by_id _ db); cbn [fst snd].
  - exists []. now rewrite app_nil_r.
  - eexists. split; reflexivity.
Qed.

Lemma store_entries_extends (clock : nat -> Z) :
  forall (es : list Entry.t) (i : nat) (db : Database) (c : Z),
    exists added,
      snd (store_entries clock i es db c) = db ++ added
      /\ fst (store_entries clock i es db c) = c + Z.of_nat (List.length added)
      /\ (List.length added <= List.length es)%nat.
Proof.
  induction es as [|e es IH]; intros i db c.
  - exists []. cbn. rewrite app_nil_r. repeat split; lia.
  - cbn [store_entries].
    destruct (add_job_entry_extends (clock i) e db) as (a1 & Ha1 & Hl1).
    destruct (add_job_entry (clock i) e db) as [inserted db1]. cbn [fst snd] in *.
    destruct (IH (S i) db1 (if inserted then c + 1 else c)) as (a2 & Ha2 & Hc2 & Hl2).
    exists (a1 ++ a2). rewrite Ha2, Hc2, Ha1, app_assoc, length_app.
    split; [reflexivity |]. cbn [List.length]. destruct inserted; split; lia.
Qed.

Lemma store_entries_processed (clock : nat -> Z) :
  forall (es : list Entry.t) (i : nat) (db : Database) (c : Z),
    Forall (fun e => _is_job_already_processed (snd (store_entries clock i es db c))
                       (Entry.title e) (Entry.link e) = true) es.
Proof.
  induction es as [|e es IH]; intros i db c; [constructor |].
  cbn [store_entries].
  pose proof (add_job_entry_processed (clock i) e db) as He.
  destruct (add_job_entry (clock i) e db) as [inserted db1]. cbn [snd] in He.
  constructor; [| apply IH].
  destruct (store_entries_extends clock es (S i) db1 (if inserted then c + 1 else c))
    as (added & Hadd & _).
  rewrite Hadd. now apply processed_app.
Qed.

Lemma store_entries_primary_key (clock : nat -> Z) :
  forall (es : list Entry.t) (i : nat) (db : Database) (c : Z),
    primary_key db -> primary_key (snd (store_entries clock i es db c)).
Proof.
  induction es as [|e es IH]; intros i db c Hpk; [exact Hpk |].
  cbn [store_entries].
  pose proof (add_job_entry_primary_key (clock i) e db Hpk) as H1.
  destruct (add_job_entry (clock i) e db) as [inserted db1]. now apply IH.
Qed.

Lemma store_entries_known (clock : nat -> Z) :
  forall (es : list Entry.t) (i : nat) (db : Database) (c : Z),
    Forall (fun e => _is_job_already_processed db (Entry.title e) (Entry.link e) = true)
      es ->
    store_entries clock i es db c = (c, db).
Proof.
  induction es as [|e es IH]; intros i db c Hall; [reflexivity |].
  inversion Hall as [|? ? He Hes]; subst. cbn [store_entries].
  unfold add_job_entry. unfold _is_job_already_processed in He.
  destruct (query_by_id _ db); [| discriminate]. now apply IH.
Qed.

(** X6. The storing loop of the cycle only appends: the table after it is
    the table before it followed by the inserted rows, the count it
    reports is their number, afterwards every fetched entry is known to
    the store, the primary key is kept, and storing the same entries once
    more inserts nothing. *)
Theorem store_entries_counts :
  forall (clock clock' : nat -> Z) (i i' : nat) (es : list Entry.t) (db : Database),
    let r := store_entries clock i es db 0 in
    (exists added, snd r = db ++ added /\ fst r = Z.of_nat (List.length added))
    /\ Forall (fun e => _is_job_already_processed (snd r)
                          (Entry.title e) (Entry.link e) = true) es
    /\ (primary_key db -> primary_key (snd r))
    /\ store_entries clock' i' es (snd r) 0 = (0, snd r).
Proof.
  intros clock clock' i i' es db r. subst r.
  split; [| split; [| split]].
  - destruct (store_entries_extends clock es i db 0) as (added & H1 & H2 & _).
    exists added. split; [exact H1 | rewrite H2; lia].
  - apply store_entries_processed.
  - apply store_entries_primary_key.
  - apply store_entries_known. apply store_entries_processed.
Qed.

Lemma store_entries_counts_witness :
  store_entries (fun _ => 2000) 0 [sample_entry; other_entry; sample_entry] sample_db 0
  = (1, sample_db ++ [new_row 2000 sample_entry])
  /\ primary_key
       (snd (store_entries (fun _ => 2000) 0
               [sample_entry; other_entry; sample_entry] sample_db 0)).
Proof.
  split; [vm_compute; reflexivity |].
  apply (store_entries_counts (fun _ => 2000) (fun _ => 0) 0 0
           [sample_entry; other_entry; sample_entry] sample_db).
  unfold primary_key. vm_compute. constructor; [cbn; tauto | constructor].
Defined.

(** ** Provider selection *)

(** X7. [_detect_provider] always names one of the three providers, so the
    chain of [fetch_entries] takes a branch and never returns [None]; a
    mode of [direct], [miniflux] or [freshrss] in the configuration decides
    alone, the environment is consulted for [auto] (also the default) only,
    and any other mode means [direct]. *)
Theorem detect_provider_total :
  forall (rss_mode : option string) (env env' : Env) (src : Sources)
         (cl : ConfigLoader) (db : Database),
    In (_detect_provider rss_mode env) ["direct"; "miniflux"; "freshrss"]
    /\ fst (fetch_entries (_detect_provider rss_mode env) src cl db) <> Ok None
    /\ (dict_get rss_mode "auto" <> "auto" ->
        _detect_provider rss_mode env = _detect_provider rss_mode env'
        /\ (In (dict_get rss_mode "auto") ["direct"; "miniflux"; "freshrss"] ->
            _detect_provider rss_mode env = dict_get rss_mode "auto")
        /\ (~ In (dict_get rss_mode "auto") ["direct"; "miniflux"; "freshrss"] ->
            _detect_provider rss_mode env = "direct")).
Proof.
  intros rss_mode env env' src cl db.
  assert (Hin : In (_detect_provider rss_mode env) ["direct"; "miniflux"; "freshrss"]).
  { unfold _detect_provider. cbn [In].
    repeat match goal with
           | |- context [if ?b then _ else _] => destruct b
           end; auto. }
  split; [exact Hin |]. split.
  - cbn [In] in Hin. unfold fetch_entries.
    destruct Hin as [<- | [<- | [<- | []]]]; cbn [String.eqb Ascii.eqb Bool.eqb fst].
    + destruct (rss_feeds src); discriminate.
    + destruct (_fetch_miniflux _ _ _). discriminate.
    + discriminate.
  - intros Hmode. unfold _detect_provider. cbv zeta. cbn [In].
    destruct (String.eqb_spec (dict_get rss_mode "auto") "direct") as [-> | H1];
      [repeat split; auto; tauto |].
    destruct (String.eqb_spec (dict_get rss_mode "auto") "miniflux") as [-> | H2];
      [repeat split; auto; tauto |].
    destruct (String.eqb_spec (dict_get rss_mode "auto") "freshrss") as [-> | H3];
      [repeat split; auto; tauto |].
    destruct (String.eqb_spec (dict_get rss_mode "auto") "auto") as [H4 | H4];
      [contradiction |].
    repeat split; auto. intros [H | [H | [H | []]]]; congruence.
Qed.

Lemma detect_provider_total_witness :
  _detect_provider (Some "direct")
    {| MINIFLUX_URL := Some "http://miniflux"; FRESHRSS_URL := None |} = "direct"
  /\ _detect_provider (Some "rss")
       {| MINIFLUX_URL := Some "http://miniflux"; FRESHRSS_URL := None |} = "direct"
  /\ _detect_provider None
       {| MINIFLUX_URL := Some "http://miniflux"; FRESHRSS_URL := None |} = "miniflux".
Proof.
  pose (env := {| MINIFLUX_URL := Some "http://miniflux"; FRESHRSS_URL := None |}).
  pose (src := {| rss_feeds := Some []; feed_answers := fun _ => Ok [];
                  freshrss_answer := Ok None; world := world_with [] "0" |}).
  split; [| split].
  - destruct (detect_provider_total (Some "direct") env env src sample_loader [])
      as (_ & _ & H).
    destruct H as (_ & H & _); [discriminate |]. apply H. cbn. auto.
  - destruct (detect_provider_total (Some "rss") env env src sample_loader [])
      as (_ & _ & H).
    destruct H as (_ & _ & H); [discriminate |]. apply H.
    cbn. intros [H1 | [H1 | [H1 | []]]]; discriminate.
  - reflexivity.
Defined.

(** ** Batched content fetching *)

Lemma strdict_get_set (key k v : string) (dct : strdict) :
  strdict_get key (strdict_set k v dct)
  = if String.eqb key k then Some v else strdict_get key dct.
Proof.
  unfold strdict_get. induction dct as [|[k0 v0] dct IH]; cbn [strdict_set find fst].
  - rewrite (String.eqb_sym k key). now destruct (String.eqb key k).
  - destruct (String.eqb_spec k0 k) as [-> | Hne]; cbn [find fst].
    + rewrite (String.eqb_sym k key). now destruct (String.eqb key k).
    + destruct (String.eqb_spec k0 key) as [-> | Hne'].
      * destruct (String.eqb_spec key k); [contradiction | reflexivity].
      * exact IH.
Qed.

Lemma fetch_batch_filled (net : Network) :
  forall (batch : list string) (k : nat) (done : list string) (dct : strdict),
    filled net done dct ->
    filled net (done ++ batch) (fst (fetch_batch net k batch dct)).
Proof.
  induction batch as [|url batch IH]; intros k done dct Hf.
  - cbn. now rewrite app_nil_r.
  - cbn [fetch_batch].
    destruct (_fetch_full_content net k url) as [content k'] eqn:Hfetch.
    replace (done ++ url :: batch) with ((done ++ [url]) ++ batch)
      by (now rewrite <- app_assoc).
    apply IH. destruct Hf as [Hkeys Hvals]. split.
    + intros u. rewrite strdict_get_set, in_app_iff. cbn [In].
      destruct (String.eqb_spec u url) as [-> | Hne].
      * split; [auto | discriminate].
      * rewrite Hkeys. split; [auto |]. intros [H | [H | []]]; [exact H | congruence].
    + intros u v. rewrite strdict_get_set.
      destruct (String.eqb_spec u url) as [-> | Hne].
      * intros H. injection H as <-. exists k. now rewrite Hfetch.
      * apply Hvals.
Qed.

Lemma batch_loop_filled (net : Network) (urls : list string) (bs : nat) :
  forall (starts : list nat) (k : nat) (done : list string) (dct : strdict) (p : nat),
    filled net done dct ->
    filled net (done ++ List.concat (map (fun i => slice urls i bs) starts))
      (fst (fst (batch_loop net urls bs starts k dct p)))
    /\ snd (batch_loop net urls bs starts k dct p)
       = (p + List.length (filter (fun i => (i + bs <? List.length urls)%nat) starts))%nat.
Proof.
  induction starts as [|i starts IH]; intros k done dct p Hf.
  - cbn. rewrite app_nil_r. split; [exact Hf | lia].
  - cbn [batch_loop map List.concat filter].
    pose proof (fetch_batch_filled net (slice urls i bs) k done dct Hf) as Hb.
    destruct (fetch_batch net k (slice urls i bs) dct) as [dct' k']. cbn [fst] in Hb.
    rewrite app_assoc.
    destruct (IH k' (done ++ slice urls i bs) dct'
                (if (i + bs <? List.length urls)%nat then S p else p) Hb) as [H1 H2].
    split; [exact H1 |]. rewrite H2.
    destruct (i + bs <? List.length urls)%nat; cbn [List.length]; lia.
Qed.

Lemma filter_ltb_seq (c m : nat) :
  List.length (filter (fun k => (k <? c)%nat) (seq 0 m)) = Nat.min c m.
Proof.
  induction m as [|m IH]; [cbn; lia |].
  rewrite seq_S, filter_app, length_app, IH. cbn [Nat.add filter].
  destruct (Nat.ltb_spec m c); cbn [List.length]; lia.
Qed.

(** X8. [_fetch_full_content_batch] has an entry for every URL of the list
    and for no other key, each value is the content fetched for that URL,
    and it pauses only between batches of five: [(n - 1) / 5] times for
    [n] URLs, never after the last batch. *)
Theorem fetch_full_content_batch_covers :
  forall (net : Network) (k : nat) (urls : list string),
    let r := _fetch_full_content_batch net k urls in
    (forall url, strdict_get url (fst (fst r)) <> None <-> In url urls)
    /\ (forall url v, strdict_get url (fst (fst r)) = Some v ->
          exists j, v = fst (_fetch_full_content net j url))
    /\ snd r = ((List.length urls - 1) / 5)%nat.
Proof.
  intros net k urls r. subst r. unfold _fetch_full_content_batch.
  assert (Hempty : filled net [] []).
  { split; [| discriminate]. intros url. cbn. tauto. }
  destruct (batch_loop_filled net urls 5 (range_step (List.length urls) 5) k [] [] 0
              Hempty) as [[Hkeys Hvals] Hp].
  unfold range_step in Hkeys. rewrite map_map in Hkeys.
  rewrite chunks_concat in Hkeys by (apply range_step_covers; lia).
  cbn [app] in Hkeys.
  split; [exact Hkeys |]. split; [exact Hvals |].
  rewrite Hp. cbn [Nat.add]. unfold range_step.
  set (n := List.length urls).
  assert (Hfilter : filter (fun i => (i + 5 <? n)%nat)
                      (map (fun k0 => (k0 * 5)%nat) (seq 0 ((n + 5 - 1) / 5)))
                    = map (fun k0 => (k0 * 5)%nat)
                        (filter (fun k0 => (k0 <? (n - 1) / 5)%nat)
                           (seq 0 ((n + 5 - 1) / 5)))).
  { induction (seq 0 ((n + 5 - 1) / 5)) as [|x l IH]; [reflexivity |].
    cbn [map filter]. rewrite IH.
    assert (Hx : (x * 5 + 5 <? n)%nat = (x <? (n - 1) / 5)%nat).
    { destruct (Nat.ltb_spec (x * 5 + 5) n), (Nat.ltb_spec x ((n - 1) / 5));
        try reflexivity; exfalso.
      - pose proof (Nat.div_mod_eq (n - 1) 5).
        pose proof (Nat.mod_upper_bound (n - 1) 5). lia.
      - pose proof (Nat.div_mod_eq (n - 1) 5).
        pose proof (Nat.mod_upper_bound (n - 1) 5). lia. }
    rewrite Hx. destruct (x <? (n - 1) / 5)%nat; reflexivity. }
  rewrite Hfilter, length_map, filter_ltb_seq.
  pose proof (Nat.div_mod_eq (n - 1) 5). pose proof (Nat.mod_upper_bound (n - 1) 5).
  pose proof (Nat.div_mod_eq (n + 5 - 1) 5). pose proof (Nat.mod_upper_bound (n + 5 - 1) 5).
  lia.
Qed.

Lemma fetch_full_content_batch_covers_witness :
  snd (_fetch_full_content_batch offline 0
         ["a"; "b"; "c"; "d"; "e"; "f"; "g"; "h"; "i"; "j"; "k"]) = 2%nat
  /\ strdict_get "k" (fst (fst (_fetch_full_content_batch offline 0
         ["a"; "b"; "c"; "d"; "e"; "f"; "g"; "h"; "i"; "j"; "k"]))) <> None.
Proof.
  destruct (fetch_full_content_batch_covers offline 0
              ["a"; "b"; "c"; "d"; "e"; "f"; "g"; "h"; "i"; "j"; "k"])
    as (Hkeys & _ & Hp).
  split; [rewrite Hp; reflexivity |].
  apply Hkeys. cbn. tauto.
Defined.

(** ** The Direct and FreshRSS providers *)

Lemma direct_feed_candidates (feeds : Feeds) (net : Network) (db : Database) (k : nat)
  (feed_config : Feed.t) :
  map (with_content "") (fst (direct_feed feeds net db k feed_config))
  = feed_candidates feeds db feed_config.
Proof.
  unfold direct_feed, feed_candidates.
  destruct (feeds (Feed.url feed_config)) as [items|e]; [| reflexivity].
  destruct (_fetch_full_content_batch net (S k) _) as [[results k'] pauses].
  cbn [fst]. rewrite !map_map. apply map_ext. reflexivity.
Qed.

Lemma fetch_direct_candidates (feeds : Feeds) (net : Network) (db : Database) :
  forall (rss_feeds : list Feed.t) (k : nat),
    map (with_content "") (fst (_fetch_direct feeds net db k rss_feeds))
    = flat_map (feed_candidates feeds db) rss_feeds.
Proof.
  intros feed_list. induction feed_list as [|fc rest IH]; intros k; [reflexivity |].
  cbn [_fetch_direct flat_map].
  pose proof (direct_feed_candidates feeds net db k fc) as H1.
  destruct (direct_feed feeds net db k fc) as [es k']. cbn [fst] in H1.
  specialize (IH k'). destruct (_fetch_direct feeds net db k' rest) as [es' k''].
  cbn [fst] in *. now rewrite map_app, H1, IH.
Qed.

Lemma feed_candidates_new (feeds : Feeds) (db : Database) (feed_config : Feed.t) :
  Forall (fun e => _is_job_already_processed db (Entry.title e) (Entry.link e) = false)
    (feed_candidates feeds db feed_config).
Proof.
  unfold feed_candidates.
  destruct (feeds (Feed.url feed_config)) as [items|e]; [| constructor].
  apply Forall_forall. intros e He. apply in_map_iff in He.
  destruct He as [item [<- Hin]]. apply filter_In in Hin. destruct Hin as [_ Hnew].
  unfold item_is_new in Hnew. cbn [item_entry Entry.title Entry.link].
  now destruct (_is_job_already_processed db _ _).
Qed.

(** X9. What [_fetch_direct] returns, content aside, is the new entries of
    each feed in the order of the configuration: an entry already in the
    store is never returned, a feed whose request fails contributes
    nothing and the other feeds are read all the same; each entry carries
    its feed's name and category, [general] when the feed has none. *)
Theorem fetch_direct_new_entries :
  forall (feeds : Feeds) (net : Network) (db : Database) (k : nat)
         (rss_feeds : list Feed.t),
    let es := fst (_fetch_direct feeds net db k rss_feeds) in
    map (with_content "") es = flat_map (feed_candidates feeds db) rss_feeds
    /\ Forall (fun e => _is_job_already_processed db (Entry.title e) (Entry.link e)
                        = false) es
    /\ Forall (fun e => exists feed_config,
                   In feed_config rss_feeds
                   /\ Entry.source e = Feed.name feed_config
                   /\ Entry.category e = dict_get (Feed.category feed_config) "general")
         es.
Proof.
  intros feeds net db k rss_feeds es.
  pose proof (fetch_direct_candidates feeds net db rss_feeds k) as Hmap.
  fold es in Hmap. split; [exact Hmap |].
  assert (Hall : forall e, In e es ->
             exists fc, In fc rss_feeds
                        /\ In (with_content "" e) (feed_candidates feeds db fc)).
  { intros e He. apply (in_map (with_content "")) in He. rewrite Hmap in He.
    apply in_flat_map in He. exact He. }
  split; apply Forall_forall; intros e He;
    destruct (Hall e He) as (fc & Hfc & Hin).
  - pose proof (feed_candidates_new feeds db fc) as Hnew.
    rewrite Forall_forall in Hnew. exact (Hnew _ Hin).
  - exists fc. split; [exact Hfc |]. unfold feed_candidates in Hin.
    destruct (feeds (Feed.url fc)) as [items|x]; [| contradiction].
    apply in_map_iff in Hin. destruct Hin as (item & Heq & _).
    apply (f_equal Entry.source) in Heq as Hs.
    apply (f_equal Entry.category) in Heq as Hc.
    cbn in Hs, Hc. now split.
Qed.

Lemma candidates_none (feeds : Feeds) (db : Database) (feed_list : list Feed.t) :
  (forall fc items item,
      In fc feed_list -> feeds (Feed.url fc) = Ok items -> In item items ->
      item_is_new db item = false) ->
  flat_map (feed_candidates feeds db) feed_list = [].
Proof.
  induction feed_list as [|fc rest IH]; intros Hes; [reflexivity |].
  cbn [flat_map]. rewrite IH by (intros; eapply Hes; eauto; now right).
  rewrite app_nil_r. unfold feed_candidates.
  destruct (feeds (Feed.url fc)) as [items|x] eqn:Hitems; [| reflexivity].
  assert (Hf : filter (item_is_new db) items = []).
  { assert (Hall : forall item, In item items -> item_is_new db item = false)
      by (intros; eapply Hes; eauto; now left).
    clear -Hall. induction items as [|it items IH]; [reflexivity |].
    cbn [filter]. rewrite (Hall it) by now left.
    apply IH. intros. apply Hall. now right. }
  now rewrite Hf.
Qed.

(** X10. Polling the same feeds twice: once the entries of a Direct poll
    are stored, a second poll that gets the same answers from the feeds
    returns nothing, whatever the pages behind the links do. *)
Theorem fetch_direct_twice :
  forall (feeds : Feeds) (net net' : Network) (db : Database) (k k' i : nat)
         (clock : nat -> Z) (rss_feeds : list Feed.t),
    let es := fst (_fetch_direct feeds net db k rss_feeds) in
    let db' := snd (store_entries clock i es db 0) in
    fst (_fetch_direct feeds net' db' k' rss_feeds) = []
    /\ store_entries clock i (fst (_fetch_direct feeds net' db' k' rss_feeds)) db' 0
       = (0, db').
Proof.
  intros feeds net net' db k k' i clock rss_feeds es db'.
  assert (Hnone : fst (_fetch_direct feeds net' db' k' rss_feeds) = []).
  { apply (map_eq_nil (with_content "")).
    rewrite fetch_direct_candidates.
    assert (Hes : forall fc items item,
               In fc rss_feeds -> feeds (Feed.url fc) = Ok items -> In item items ->
               item_is_new db' item = false).
    { intros fc items item Hfc Hitems Hitem. unfold item_is_new.
      destruct (_is_job_already_processed db (dict_get (Item.title item) "")
                  (dict_get (Item.link item) "")) eqn:Hold.
      - destruct (store_entries_extends clock es i db 0) as (added & Hadd & _).
        subst db'. rewrite Hadd. now rewrite processed_app.
      - pose proof (store_entries_processed clock es i db 0) as Hproc.
        fold db' in Hproc. rewrite Forall_forall in Hproc.
        assert (Hin : In (item_entry fc item)
                        (map (with_content "") es)).
        { subst es. rewrite fetch_direct_candidates. apply in_flat_map.
          exists fc. split; [exact Hfc |]. unfold feed_candidates. rewrite Hitems.
          apply in_map. apply filter_In. split; [exact Hitem |].
          unfold item_is_new. now rewrite Hold. }
        apply in_map_iff in Hin. destruct Hin as (e & Heq & He).
        specialize (Hproc e He).
        apply (f_equal Entry.title) in Heq as Ht.
        apply (f_equal Entry.link) in Heq as Hl.
        cbn in Ht, Hl. rewrite Ht, Hl in Hproc. now rewrite Hproc. }
    now apply candidates_none. }
  split; [exact Hnone |]. rewrite Hnone. reflexivity.
Qed.

Lemma fresh_entry_none (item : Fresh.t) :
  fresh_entry item = None <-> Fresh.canonical item = Some [].
Proof.
  unfold fresh_entry. destruct (Fresh.canonical item) as [[|h t]|]; cbn;
    split; congruence.
Qed.

Lemma fresh_loop_spec :
  forall (items : list Fresh.t) (acc : list Entry.t),
    (Forall (fun item => Fresh.canonical item <> Some []) items ->
     exists es, fresh_loop items acc = Some (acc ++ es)
                /\ map Some es = map fresh_entry items)
    /\ (Exists (fun item => Fresh.canonical item = Some []) items ->
        fresh_loop items acc = None).
Proof.
  induction items as [|item items IH]; intros acc.
  - split.
    + intros _. exists []. cbn. now rewrite app_nil_r.
    + intros H. inversion H.
  - cbn [fresh_loop]. split.
    + intros Hall. inversion Hall as [|? ? Hi Hrest]; subst.
      destruct (fresh_entry item) as [e|] eqn:He;
        [| apply fresh_entry_none in He; contradiction].
      destruct (proj1 (IH (acc ++ [e])) Hrest) as (es & Hloop & Hmap).
      exists (e :: es). rewrite Hloop, <- app_assoc. cbn [app map].
      now rewrite Hmap, He.
    + intros Hex. destruct (fresh_entry item) as [e|] eqn:He; [| reflexivity].
      inversion Hex as [? ? Hi | ? ? Hrest]; subst.
      * apply fresh_entry_none in Hi. congruence.
      * now apply IH.
Qed.

(** X11. [_fetch_freshrss] is all or nothing: when no item has an empty
    [canonical] list it returns one entry per item, in order, all of
    category [general]; a single item with an empty [canonical] list makes
    it return no entry at all. *)
Theorem fetch_freshrss_all_or_nothing :
  forall items : list Fresh.t,
    (Forall (fun item => Fresh.canonical item <> Some []) items ->
     map Some (_fetch_freshrss (Ok (Some items))) = map fresh_entry items
     /\ List.length (_fetch_freshrss (Ok (Some items))) = List.length items
     /\ Forall (fun e => Entry.category e = "general")
          (_fetch_freshrss (Ok (Some items))))
    /\ (Exists (fun item => Fresh.canonical item = Some []) items ->
        _fetch_freshrss (Ok (Some items)) = []).
Proof.
  intros items. unfold _fetch_freshrss. cbn [dict_get].
  destruct (fresh_loop_spec items []) as [Hok Hbad]. split.
  - intros Hall. destruct (Hok Hall) as (es & Hloop & Hmap).
    rewrite Hloop. cbn [app]. split; [exact Hmap |]. split.
    + apply (f_equal (@List.length _)) in Hmap. now rewrite !length_map in Hmap.
    + apply Forall_forall. intros e He.
      apply (in_map Some) in He. rewrite Hmap in He. apply in_map_iff in He.
      destruct He as (item & Hitem & _). unfold fresh_entry in Hitem.
      destruct (dict_get (Fresh.canonical item) [None]); [discriminate |].
      injection Hitem as <-. reflexivity.
  - intros Hex. now rewrite (Hbad Hex).
Qed.

(** ** The relevance gate and the Miniflux loop *)

Lemma cached_verdict_consistent (db : Database) (title link : string) (b : bool) (s : Z) :
  cached_verdict db title link = Some (b, s) -> b = (s >=? 6) /\ 0 < s.
Proof.
  unfold cached_verdict. destruct (PyStr.truthy link); [| discriminate].
  destruct (query_by_id _ db) as [r|]; [| discriminate].
  destruct (Z.gtb_spec (JobEntry.relevance_score r) 0) as [Hpos | Hle]; [| discriminate].
  intros Hv. injection Hv as <- <-. split; [reflexivity | lia].
Qed.

(** X12. An exception leaves [_quick_relevance_check] only from the
    lines that read the configuration and build the prompt, which stand
    before the [try], and only when the cache gave no verdict: it is the
    exception of [build_relevance_prompt]. Nothing the analysis service
    does or answers makes the function raise: once the prompt is built it
    returns a verdict; and on a cache hit the configuration is not read at
    all. A verdict [(is_relevant, score)] it returns always has
    [is_relevant = (score >= 6)]. *)
Theorem quick_relevance_check_total :
  forall (cfg : Config) (db : Database) (llm : LLMClient)
         (title description link : string),
    (forall e, _quick_relevance_check cfg db llm title description link = Raise e ->
               cached_verdict db title link = None
               /\ build_relevance_prompt cfg title description = Raise e)
    /\ (forall prompt,
          build_relevance_prompt cfg title description = Ok prompt ->
          exists b s, _quick_relevance_check cfg db llm title description link = Ok (b, s))
    /\ (forall verdict,
          cached_verdict db title link = Some verdict ->
          _quick_relevance_check cfg db llm title description link = Ok verdict)
    /\ (forall b s, _quick_relevance_check cfg db llm title description link = Ok (b, s) ->
                    b = (s >=? 6)).
Proof.
  intros cfg db llm title description link. unfold _quick_relevance_check.
  destruct (cached_verdict db title link) as [[b0 s0]|] eqn:Hc.
  - split; [| split; [| split]].
    + discriminate.
    + intros prompt _. now exists b0, s0.
    + intros verdict H. now injection H as <-.
    + intros b s H. injection H as <- <-.
      now apply (cached_verdict_consistent db title link).
  - destruct (build_relevance_prompt cfg title description) as [prompt|x]; cbn [bind].
    + split; [| split; [| split]].
      * intros e. destruct (score_with_llm llm prompt); discriminate.
      * intros p _. destruct (score_with_llm llm prompt) as [[b s]|y]; eauto.
      * discriminate.
      * intros b s. unfold score_with_llm.
        destruct (_call_llm llm prompt) as [answer|y]; cbn [bind].
        -- destruct (PyStr.int_of_str (PyStr.strip answer)) as [n|];
             intros H; injection H as <- <-; reflexivity.
        -- intros H; injection H as <- <-; reflexivity.
    + split; [| split; [| split]].
      * intros e H. injection H as <-. split; reflexivity.
      * discriminate.
      * discriminate.
      * discriminate.
Qed.

(** Without [keywords] in the configuration the check of a new entry
    raises the [KeyError] of the prompt; with them, a service that cannot
    be reached gives the default verdict. *)
Lemma quick_relevance_check_total_witness :
  build_relevance_prompt
    {| keywords := None; recruitment_filters := None; last_miniflux_fetch := None |}
    "Assistant Professor X" "" = Raise (PyExn KeyError "'keywords'")
  /\ (exists b s,
        _quick_relevance_check sample_config sample_db unreachable_llm
          "Assistant Professor X" "" "" = Ok (b, s)
        /\ b = (s >=? 6)).
Proof.
  pose (cfg := {| keywords := None; recruitment_filters := None;
                  last_miniflux_fetch := None |}).
  split.
  - destruct (quick_relevance_check_total cfg sample_db (answering "8")
                "Assistant Professor X" "" "") as (Hraise & _).
    exact (proj2 (Hraise (PyExn KeyError "'keywords'") eq_refl)).
  - destruct (quick_relevance_check_total sample_config sample_db unreachable_llm
                "Assistant Professor X" "" "") as (_ & Hret & _ & Hcons).
    destruct (build_relevance_prompt sample_config "Assistant Professor X" "")
      as [prompt|e] eqn:Hp; [| vm_compute in Hp; discriminate].
    destruct (Hret prompt eq_refl) as (b & s & Hv).
    exists b, s. split; [exact Hv | exact (Hcons b s Hv)].
Defined.

Lemma fetch_full_content_requests (net : Network) (k : nat) (url : string) :
  (k <= snd (_fetch_full_content net k url) <= k + 3)%nat.
Proof.
  unfold _fetch_full_content.
  destruct (negb (PyStr.truthy url)); [cbn; lia |].
  destruct (PyStr.truthy (_fetch_with_jina net k url)); [cbn; lia |].
  destruct (PyStr.truthy (_fetch_with_enhanced_bs4 net (S k) url)); cbn; lia.
Qed.

Lemma miniflux_step_cost (w : World) (cfg : Config) (db : Database)
  (st st' : LoopState) (entry : Raw.t) :
  miniflux_step w cfg db st entry = Ok st' ->
  exists new,
    entries st' = entries st ++ new
    /\ Forall (unknown_to db) new
    /\ (requests st <= requests st' <= requests st + 3 * List.length new)%nat
    /\ (List.length new
        <= List.length (fresh_entries db [entry]))%nat.
Proof.
  unfold miniflux_step, fresh_entries. cbn [filter].
  destruct (_is_job_already_processed db (dict_get (Raw.title entry) "")
              (dict_get (Raw.url entry) "")) eqn:Hold.
  - intros H; injection H as <-. exists []. cbn. rewrite app_nil_r.
    repeat split; try constructor; lia.
  - cbn [negb List.length].
    destruct (_quick_relevance_check _ _ _ _ _ _) as [[is_relevant sc]|e];
      cbn [bind]; [| discriminate].
    destruct is_relevant; cbn [negb].
    + destruct (sc <? 6).
      * intros H; injection H as <-. exists []. cbn. rewrite app_nil_r.
        repeat split; try constructor; lia.
      * pose proof (fetch_full_content_requests (network w) (requests st)
                      (dict_get (Raw.url (if sc >=? 6
                                          then Raw.set_relevance_score sc entry
                                          else entry)) "")) as Hreq.
        destruct (_fetch_full_content _ _ _) as [full k]. cbn [snd] in Hreq.
        intros H; injection H as <-. cbn [entries requests].
        eexists. split; [reflexivity |]. cbn [List.length].
        split; [| split; lia].
        constructor; [| constructor]. unfold unknown_to.
        cbn [Entry.title Entry.link]. destruct (sc >=? 6); exact Hold.
    + intros H; injection H as <-. exists []. cbn. rewrite app_nil_r.
      repeat split; try constructor; lia.
Qed.

(** X13. In the loop of the Miniflux poll, pages are requested for the
    entries the gate accepted only: a successful loop sends at most three
    requests per entry it returns (none when it returns none), every entry
    it returns was not in the store, and it returns at most one entry per
    new entry of the answer. *)
Theorem miniflux_loop_cost :
  forall (w : World) (cfg : Config) (db : Database) (data : list Raw.t)
         (st st' : LoopState),
    miniflux_loop w cfg db st data = Ok st' ->
    exists new,
      entries st' = entries st ++ new
      /\ Forall (unknown_to db) new
      /\ (requests st <= requests st' <= requests st + 3 * List.length new)%nat
      /\ (List.length new <= List.length (fresh_entries db data))%nat.
Proof.
  intros w cfg db data. induction data as [|entry data IH]; intros st st' Hloop.
  - cbn in Hloop. injection Hloop as <-. exists []. cbn. rewrite app_nil_r.
    repeat split; try constructor; lia.
  - cbn [miniflux_loop] in Hloop.
    destruct (miniflux_step w cfg db st entry) as [st1|e] eqn:Hstep;
      cbn [bind] in Hloop; [| discriminate].
    destruct (miniflux_step_cost _ _ _ _ _ _ Hstep) as (n1 & He1 & Hu1 & Hr1 & Hl1).
    destruct (IH st1 st' Hloop) as (n2 & He2 & Hu2 & Hr2 & Hl2).
    exists (n1 ++ n2). rewrite He2, He1, app_assoc, length_app.
    split; [reflexivity |]. split; [now apply Forall_app |].
    split; [lia |].
    change (entry :: data) with ([entry] ++ data).
    unfold fresh_entries in *. rewrite filter_app, length_app. lia.
Qed.

Lemma miniflux_loop_cost_witness :
  exists st',
    miniflux_loop (world_with [new_raw_entry; known_raw_entry] "3") sample_config
      sample_db {| entries := []; latest_timestamp := None; seen := []; requests := 1 |}
      [new_raw_entry; known_raw_entry] = Ok st'
    /\ entries st' = [] /\ requests st' = 1%nat.
Proof.
  destruct (miniflux_loop (world_with [new_raw_entry; known_raw_entry] "3") sample_config
              sample_db {| entries := []; latest_timestamp := None; seen := [];
                           requests := 1 |}
              [new_raw_entry; known_raw_entry]) as [st'|e] eqn:Hloop;
    [| vm_compute in Hloop; discriminate].
  exists st'. split; [reflexivity |].
  destruct (miniflux_loop_cost _ _ _ _ _ _ Hloop) as (new & He & _ & Hr & _).
  assert (Hnone : entries st' = []).
  { vm_compute in Hloop. injection Hloop as <-. reflexivity. }
  split; [exact Hnone |].
  rewrite Hnone in He. cbn [entries app] in He. subst new.
  cbn [requests List.length] in Hr. lia.
Defined.

(** ** Analysing what is pending *)

Section AnalysisProperties.

Variable template : AnalysisPrompt.
Variable cfg : Config.
Variable llm : LLMClient.

Lemma analyze_loop_ids :
  forall (todo : list JobEntry.t) (db : Database) (acc : list JobEntry.t),
    map JobEntry.id (fst (analyze_loop template cfg llm todo db acc))
    = map JobEntry.id db.
Proof.
  induction todo as [|job todo IH]; intros db acc; [reflexivity |].
  cbn [analyze_loop]. destruct (analyze_job_posting template cfg llm job).
  - rewrite IH. apply update_analysis_result_ids.
  - apply IH.
Qed.

Lemma analyze_loop_collects :
  forall (todo : list JobEntry.t) (db : Database) (acc : list JobEntry.t),
    snd (analyze_loop template cfg llm todo db acc)
    = acc ++ analyzed_in_pass template cfg llm todo.
Proof.
  induction todo as [|job todo IH]; intros db acc.
  - cbn. now rewrite app_nil_r.
  - cbn [analyze_loop analyzed_in_pass flat_map].
    destruct (analyze_job_posting template cfg llm job).
    + rewrite IH, <- app_assoc. reflexivity.
    + rewrite IH. reflexivity.
Qed.

Lemma filter_filter {A} (f g : A -> bool) (l : list A) :
  filter f (filter g l) = filter (fun x => g x && f x) l.
Proof.
  induction l as [|x l IH]; [reflexivity |]. cbn [filter].
  destruct (g x); cbn [filter andb]; [destruct (f x) |]; now rewrite IH.
Qed.

(** The pending rows after the loop: those no analysed job of [todo]
    shares its id with. *)
Lemma analyze_loop_pending :
  forall (todo : list JobEntry.t) (db : Database) (acc : list JobEntry.t),
    primary_key db ->
    get_unanalyzed_entries (fst (analyze_loop template cfg llm todo db acc))
    = filter (fun r =>
                negb (existsb (fun job =>
                                 String.eqb (JobEntry.id job) (JobEntry.id r)
                                 && analysis_ok template cfg llm job) todo))
        (get_unanalyzed_entries db).
Proof.
  induction todo as [|job todo IH]; intros db acc Hpk.
  - cbn [analyze_loop fst existsb negb]. symmetry. apply forallb_filter_id.
    apply forallb_forall. reflexivity.
  - cbn [analyze_loop existsb]. unfold analysis_ok at 1.
    destruct (analyze_job_posting template cfg llm job) as [a|e].
    + rewrite IH by now apply update_analysis_result_primary_key.
      rewrite (pending_after_update db (JobEntry.id job) a Hpk), filter_filter. apply filter_ext. intros r.
      rewrite andb_true_r, negb_orb, (String.eqb_sym (JobEntry.id job)).
      reflexivity.
    + rewrite IH by assumption. apply filter_ext. intros r.
      now rewrite andb_false_r.
Qed.

Lemma analyze_loop_frame :
  forall (todo : list JobEntry.t) (db : Database) (acc : list JobEntry.t) (other : string),
    ~ In other (map JobEntry.id todo) ->
    query_by_id other (fst (analyze_loop template cfg llm todo db acc))
    = query_by_id other db.
Proof.
  induction todo as [|job todo IH]; intros db acc other Hnot; [reflexivity |].
  cbn [analyze_loop]. cbn [map In] in Hnot.
  destruct (analyze_job_posting template cfg llm job) as [a|e].
  - rewrite IH by tauto. rewrite update_analysis_result_query.
    destruct (String.eqb_spec other (JobEntry.id job)); [| reflexivity].
    exfalso. apply Hnot. left. congruence.
  - apply IH. tauto.
Qed.

Lemma analyze_loop_result :
  forall (todo : list JobEntry.t) (db : Database) (acc : list JobEntry.t)
         (job : JobEntry.t) (a : string),
    NoDup (map JobEntry.id todo) ->
    In job todo ->
    analyze_job_posting template cfg llm job = Ok a ->
    query_by_id (JobEntry.id job) db = Some job ->
    query_by_id (JobEntry.id job) (fst (analyze_loop template cfg llm todo db acc))
    = Some (mark_analyzed a job).
Proof.
  induction todo as [|x todo IH]; intros db acc job a Hnd Hin Hok Hq; [contradiction |].
  cbn [map] in Hnd. inversion Hnd as [|? ? Hnotin Hnd']; subst.
  cbn [analyze_loop]. destruct Hin as [-> | Hin].
  - rewrite Hok. rewrite analyze_loop_frame by assumption.
    rewrite update_analysis_result_query, String.eqb_refl, Hq. reflexivity.
  - assert (Hne : JobEntry.id job <> JobEntry.id x).
    { intros Heq. apply Hnotin. rewrite <- Heq. now apply in_map. }
    destruct (analyze_job_posting template cfg llm x) as [ax|e].
    + apply IH; try assumption.
      rewrite update_analysis_result_query.
      destruct (String.eqb_spec (JobEntry.id job) (JobEntry.id x));
        [contradiction | exact Hq].
    + now apply IH.
Qed.

Lemma pending_nodup (db : Database) :
  primary_key db -> NoDup (map JobEntry.id (get_unanalyzed_entries db)).
Proof.
  unfold primary_key, get_unanalyzed_entries.
  induction db as [|r db IH]; cbn [map filter]; intros Hnd; [constructor |].
  inversion Hnd as [|? ? Hnotin Hnd']; subst.
  destruct (negb (JobEntry.analyzed r)); cbn [map]; [| now apply IH].
  constructor; [| now apply IH]. intros Hin. apply Hnotin.
  eapply in_ids_filter. exact Hin.
Qed.

Lemma query_by_id_member (db : Database) (r : JobEntry.t) :
  primary_key db -> In r db -> query_by_id (JobEntry.id r) db = Some r.
Proof.
  unfold primary_key, query_by_id.
  induction db as [|x db IH]; cbn [map find]; intros Hnd Hin; [contradiction |].
  inversion Hnd as [|? ? Hnotin Hnd']; subst.
  destruct Hin as [-> | Hin]; [now rewrite String.eqb_refl |].
  destruct (String.eqb_spec (JobEntry.id x) (JobEntry.id r)) as [Heq | Hne];
    [| now apply IH].
  exfalso. apply Hnotin. rewrite Heq. now apply in_map.
Qed.

Lemma pending_after_pass (db : Database) :
  primary_key db ->
  get_unanalyzed_entries
    (fst (analyze_loop template cfg llm (get_unanalyzed_entries db) db []))
  = filter (fun job => negb (analysis_ok template cfg llm job))
      (get_unanalyzed_entries db).
Proof.
  intros Hpk. rewrite analyze_loop_pending by assumption.
  pose proof (pending_nodup db Hpk) as Hnd.
  set (todo := get_unanalyzed_entries db) in *.
  assert (Hex : forall r, In r todo ->
             existsb (fun job => String.eqb (JobEntry.id job) (JobEntry.id r)
                                 && analysis_ok template cfg llm job) todo
             = analysis_ok template cfg llm r).
  { intros r Hr. destruct (analysis_ok template cfg llm r) eqn:Hok.
    - apply existsb_exists. exists r. split; [exact Hr |].
      now rewrite String.eqb_refl, Hok.
    - destruct (existsb _ todo) eqn:He; [| reflexivity].
      apply existsb_exists in He. destruct He as (job & Hjob & Hb).
      apply andb_true_iff in Hb. destruct Hb as [Hid Hj].
      apply String.eqb_eq in Hid.
      rewrite (nodup_map_inj JobEntry.id todo job r Hnd Hjob Hr Hid) in Hj.
      congruence. }
  apply filter_ext_in. intros r Hr. now rewrite Hex.
Qed.

End AnalysisProperties.

Section PendingProperties.

Variable M : Embedding.
Variable template : AnalysisPrompt.
Variable cfg : Config.
Variable llm : LLMClient.

Lemma analyze_pending_jobs_fst (db : Database) (vs : VectorStore M) :
  fst (analyze_pending_jobs template cfg llm db vs)
  = fst (analyze_loop template cfg llm (get_unanalyzed_entries db) db []).
Proof.
  unfold analyze_pending_jobs.
  destruct (analyze_loop template cfg llm (get_unanalyzed_entries db) db [])
    as [db' [|j js]]; reflexivity.
Qed.

Lemma analyze_pending_jobs_snd (db : Database) (vs : VectorStore M) :
  snd (analyze_pending_jobs template cfg llm db vs)
  = snd (add_job_entries
           (analyzed_in_pass template cfg llm (get_unanalyzed_entries db)) vs).
Proof.
  unfold analyze_pending_jobs.
  pose proof (analyze_loop_collects template cfg llm
                (get_unanalyzed_entries db) db []) as Hc.
  destruct (analyze_loop template cfg llm (get_unanalyzed_entries db) db [])
    as [db' jobs]. cbn [snd app] in Hc. rewrite <- Hc.
  destruct jobs; reflexivity.
Qed.

(** X14. A pass of [analyze_pending_jobs] over a table with its primary
    key: the rows that stay pending are exactly those whose analysis
    raised, one failure does not stop the rest; each row whose analysis
    returned is found under its id, marked analyzed with that result; the
    rows that were not pending, and the ids of the table, are untouched. *)
Theorem analyze_pending_jobs_progress :
  forall (db : Database) (vs : VectorStore M),
    primary_key db ->
    let db' := fst (analyze_pending_jobs template cfg llm db vs) in
    map JobEntry.id db' = map JobEntry.id db
    /\ get_unanalyzed_entries db'
       = filter (fun job => negb (analysis_ok template cfg llm job))
           (get_unanalyzed_entries db)
    /\ (forall job a,
          In job (get_unanalyzed_entries db) ->
          analyze_job_posting template cfg llm job = Ok a ->
          query_by_id (JobEntry.id job) db' = Some (mark_analyzed a job))
    /\ (forall other,
          ~ In other (map JobEntry.id (get_unanalyzed_entries db)) ->
          query_by_id other db' = query_by_id other db).
Proof.
  intros db vs Hpk db'. subst db'. rewrite analyze_pending_jobs_fst.
  split; [apply analyze_loop_ids |].
  split; [now apply pending_after_pass |]. split.
  - intros job a Hin Hok. apply analyze_loop_result; try assumption.
    + now apply pending_nodup.
    + apply query_by_id_member; [assumption |].
      unfold get_unanalyzed_entries in Hin. apply filter_In in Hin. tauto.
  - intros other Hnot. now apply analyze_loop_frame.
Qed.

Lemma analyze_loop_all_raise (jobs : list JobEntry.t) (db : Database)
  (acc : list JobEntry.t) :
  (forall job, analysis_ok template cfg llm job = false) ->
  analyze_loop template cfg llm jobs db acc = (db, acc).
Proof.
  intros Hraise. induction jobs as [|job jobs IH]; [reflexivity |].
  cbn [analyze_loop]. specialize (Hraise job). unfold analysis_ok in Hraise.
  destruct (analyze_job_posting template cfg llm job); [discriminate | exact IH].
Qed.

(** X15. With Ollama as provider and [keywords] configured, a pass depends
    on the statements of [_call_ollama] before its [try], which read
    ['model'], ['temperature'] and ['max_tokens'] from the [llm] section.
    When they do not raise, the pass leaves no row pending: a request that
    fails is not retried later, its error text is stored as the analysis
    result of the row, like an answer. When they raise, every analysis
    raises and the pass changes neither the table nor the vector store. *)
Theorem analyze_pending_jobs_ollama :
  forall (db : Database) (vs : VectorStore M) (kws : list string),
    provider llm = "ollama" ->
    keywords cfg = Some kws ->
    primary_key db ->
    let db' := fst (analyze_pending_jobs template cfg llm db vs) in
    (ollama_setup (backend llm) = None ->
     get_unanalyzed_entries db' = []
     /\ (forall job,
           In job (get_unanalyzed_entries db) ->
           query_by_id (JobEntry.id job) db'
           = Some (mark_analyzed
                     (match ollama_generate (backend llm) (template job kws) with
                      | Ok response => response
                      | Raise e => "Error calling Ollama: " ++ exn_msg e
                      end)%string job)))
    /\ (forall e,
          ollama_setup (backend llm) = Some e ->
          analyze_pending_jobs template cfg llm db vs = (db, vs)).
Proof.
  intros db vs kws Hprov Hkws Hpk db'. subst db'. split.
  - intros Hsetup. rewrite analyze_pending_jobs_fst.
    assert (Hok : forall job,
               analyze_job_posting template cfg llm job
               = Ok (match ollama_generate (backend llm) (template job kws) with
                     | Ok response => response
                     | Raise e => "Error calling Ollama: " ++ exn_msg e
                     end)%string).
    { intros job. unfold analyze_job_posting, _call_llm, _call_ollama.
      rewrite Hkws, Hprov, Hsetup. cbn [String.eqb Ascii.eqb Bool.eqb].
      now destruct (ollama_generate (backend llm) (template job kws)). }
    split.
    + rewrite pending_after_pass by assumption.
      induction (get_unanalyzed_entries db) as [|job l IH]; [reflexivity |].
      cbn [filter]. unfold analysis_ok at 1. now rewrite Hok.
    + intros job Hin. apply analyze_loop_result; try apply Hok; try assumption.
      * now apply pending_nodup.
      * apply query_by_id_member; [assumption |].
        unfold get_unanalyzed_entries in Hin. apply filter_In in Hin. tauto.
  - intros e Hsetup. unfold analyze_pending_jobs.
    rewrite analyze_loop_all_raise; [reflexivity |].
    intros job. unfold analysis_ok, analyze_job_posting, _call_llm, _call_ollama.
    rewrite Hkws, Hprov, Hsetup. reflexivity.
Qed.

(** X16. What a pass hands to the vector store: the index stays aligned
    with the documents whether or not the store raises, and when the
    embedding model works and the index has its dimension, the documents
    added are those of the rows analysed in this pass, in order, each
    with its analysis result. *)
Theorem analyze_pending_jobs_index :
  forall (db : Database) (vs : VectorStore M),
    let vs' := snd (analyze_pending_jobs template cfg llm db vs) in
    let jobs := analyzed_in_pass template cfg llm (get_unanalyzed_entries db) in
    (aligned vs -> aligned vs')
    /\ ((forall texts, encode_error M texts = None) ->
        d (index vs) = dimension M ->
        documents vs' = documents vs ++ map make_doc jobs)
    /\ Forall (fun job => JobEntry.analyzed job = true
                          /\ JobEntry.analysis_result job <> None
                          /\ Doc.analysis (make_doc job) = JobEntry.analysis_result job)
         jobs.
Proof.
  intros db vs vs' jobs. subst vs'. rewrite analyze_pending_jobs_snd. fold jobs.
  split; [apply add_job_entries_aligned |]. split.
  - intros Hok Hd.
    destruct (run_adds_documents M [jobs] vs Hok Hd) as [Hdocs _].
    cbn [List.concat] in Hdocs. rewrite app_nil_r in Hdocs. exact Hdocs.
  - subst jobs. unfold analyzed_in_pass. apply Forall_forall. intros job Hin.
    apply in_flat_map in Hin. destruct Hin as (r & _ & Hjob).
    destruct (analyze_job_posting template cfg llm r) as [a|e]; [| contradiction].
    destruct Hjob as [<- | []]. cbn. repeat split. discriminate.
Qed.

End PendingProperties.

Lemma analyze_pending_jobs_progress_witness :
  primary_key three_rows
  /\ get_unanalyzed_entries
       (fst (analyze_pending_jobs title_prompt
               {| keywords := Some []; recruitment_filters := None;
                  last_miniflux_fetch := None |}
               flaky_llm three_rows (empty_store toy_embedding 2)))
     = []
  /\ query_by_id (JobEntry.id (numbered_row false 2))
       (fst (analyze_pending_jobs title_prompt
               {| keywords := Some []; recruitment_filters := None;
                  last_miniflux_fetch := None |}
               flaky_llm three_rows (empty_store toy_embedding 2)))
     = Some (mark_analyzed "Error calling Ollama: timed out" (numbered_row false 2)).
Proof.
  assert (Hpk : primary_key three_rows).
  { unfold primary_key. vm_compute.
    repeat (constructor; [cbn; intuition discriminate |]). constructor. }
  pose (c := {| keywords := Some []; recruitment_filters := None;
                last_miniflux_fetch := None |}).
  split; [exact Hpk |].
  destruct (analyze_pending_jobs_progress toy_embedding title_prompt c flaky_llm
              three_rows (empty_store toy_embedding 2) Hpk) as (_ & Hpend & Hres & _).
  split.
  - fold c. rewrite Hpend. vm_compute. reflexivity.
  - fold c. apply Hres; vm_compute; auto.
Defined.

Lemma analyze_pending_jobs_ollama_witness :
  get_unanalyzed_entries
    (fst (analyze_pending_jobs title_prompt
            {| keywords := Some []; recruitment_filters := None;
               last_miniflux_fetch := None |}
            flaky_llm three_rows (empty_store toy_embedding 2)))
  = []
  /\ analyze_pending_jobs title_prompt
       {| keywords := Some []; recruitment_filters := None;
          last_miniflux_fetch := None |}
       modelless_llm three_rows (empty_store toy_embedding 2)
     = (three_rows, empty_store toy_embedding 2).
Proof.
  assert (Hpk : primary_key three_rows).
  { unfold primary_key. vm_compute.
    repeat (constructor; [cbn; intuition discriminate |]). constructor. }
  pose (c := {| keywords := Some []; recruitment_filters := None;
                last_miniflux_fetch := None |}).
  split.
  - apply (analyze_pending_jobs_ollama toy_embedding title_prompt c
             flaky_llm three_rows (empty_store toy_embedding 2) []
             eq_refl eq_refl Hpk).
    reflexivity.
  - apply (proj2 (analyze_pending_jobs_ollama toy_embedding title_prompt c
                    modelless_llm three_rows (empty_store toy_embedding 2) []
                    eq_refl eq_refl Hpk) (PyExn KeyError "'model'")).
    reflexivity.
Defined.

Lemma analyze_pending_jobs_index_witness :
  map Doc.analysis
    (documents (snd (analyze_pending_jobs title_prompt
                       {| keywords := Some []; recruitment_filters := None;
                          last_miniflux_fetch := None |}
                       flaky_llm three_rows (empty_store toy_embedding 2))))
  = [Some "## Summary"; Some "Error calling Ollama: timed out"].
Proof.
  destruct (analyze_pending_jobs_index toy_embedding title_prompt
              {| keywords := Some []; recruitment_filters := None;
                 last_miniflux_fetch := None |}
              flaky_llm three_rows (empty_store toy_embedding 2)) as (_ & Hdocs & _).
  rewrite Hdocs; [vm_compute; reflexivity | reflexivity | reflexivity].
Defined.

(** ** Query expansion *)

Lemma lstrip_head (s : string) :
  PyStr.lstrip s = ""
  \/ exists c r, PyStr.lstrip s = String c r /\ PyStr.isspace c = false.
Proof.
  induction s as [|c s IH]; [now left |]. cbn [PyStr.lstrip].
  destruct (PyStr.isspace c) eqn:Hc; [exact IH |]. right. eauto.
Qed.

Lemma rstrip_idempotent (s : string) : PyStr.rstrip (PyStr.rstrip s) = PyStr.rstrip s.
Proof.
  induction s as [|c s IH]; [reflexivity |]. cbn [PyStr.rstrip].
  destruct (PyStr.rstrip s) as [|c' r'] eqn:Hr.
  - destruct (PyStr.isspace c) eqn:Hc; [reflexivity |].
    cbn [PyStr.rstrip]. now rewrite Hc.
  - cbn [PyStr.rstrip]. cbn [PyStr.rstrip] in IH.
    destruct (PyStr.rstrip r') as [|c'' r''] eqn:Hr'.
    + destruct (PyStr.isspace c'); [discriminate |]. now rewrite IH.
    + now rewrite IH.
Qed.

Lemma strip_idempotent (s : string) : PyStr.strip (PyStr.strip s) = PyStr.strip s.
Proof.
  unfold PyStr.strip.
  destruct (lstrip_head s) as [-> | (c & r & -> & Hc)]; [reflexivity |].
  destruct (rstrip_head c r Hc) as [r' Hr]. rewrite Hr.
  cbn [PyStr.lstrip]. rewrite Hc, <- Hr. apply rstrip_idempotent.
Qed.

Lemma collect_terms_stripped (lines : list string) :
  Forall (fun t => PyStr.strip t = t) (collect_terms lines).
Proof.
  induction lines as [|line lines IH]; [constructor |]. cbn [collect_terms].
  destruct (_ && _); [| exact IH].
  constructor; [apply strip_idempotent | exact IH].
Qed.

Lemma Forall_firstn {A} (P : A -> Prop) (n : nat) (l : list A) :
  Forall P l -> Forall P (firstn n l).
Proof.
  intros H. rewrite <- (firstn_skipn n l) in H. apply Forall_app in H. tauto.
Qed.

(** X17. [generate_search_terms] returns at most five terms and none of
    them has white space at either end; it raises exactly when the call of
    the analysis service raises. *)
Theorem generate_search_terms_shape :
  forall (llm : LLMClient) (user_query : string),
    (forall terms,
        generate_search_terms llm user_query = Ok terms ->
        (List.length terms <= 5)%nat
        /\ Forall (fun t => PyStr.strip t = t) terms)
    /\ (forall e,
          generate_search_terms llm user_query = Raise e
          <-> _call_llm llm (get_search_query_prompt user_query) = Raise e).
Proof.
  intros llm user_query. unfold generate_search_terms.
  destruct (_call_llm llm (get_search_query_prompt user_query)) as [response|x];
    cbn [bind]; split.
  - intros terms Hterms.
    assert (Heq : terms
                  = firstn 5 (collect_terms
                                (split_on (ascii_of_nat 10) (PyStr.strip response))))
      by congruence.
    rewrite Heq. split.
    + rewrite length_firstn. lia.
    + apply Forall_firstn. apply collect_terms_stripped.
  - intros e. split; discriminate.
  - discriminate.
  - intros e. split; intros Hraise; congruence.
Qed.

(** An answer with a header line, bullets and stray blanks. *)
Example generate_search_terms_example :
  generate_search_terms
    (answering ("Search Terms:" ++ PyStr.nl ++ "- assistant professor " ++ PyStr.nl
                ++ "-   machine learning" ++ PyStr.nl ++ PyStr.nl ++ "postdoc - "))
    "ml jobs"
  = Ok ["assistant professor"; "machine learning"; "postdoc"].
Proof. vm_compute. reflexivity. Qed.

(** ** Searching *)

Section SearchProperties.

Variable M : Embedding.
Variable F : Faiss M.
Variable parse : string -> option Z.
Variable now : Z.

Lemma collect_hits_in (documents : list Doc.t) (found : list (score F * Z)) :
  Forall (fun h => In (hit_doc h) documents) (collect_hits F documents found)
  /\ (List.length (collect_hits F documents found) <= List.length found)%nat.
Proof.
  induction found as [|[sc idx] found [IH1 IH2]]; [split; [constructor | cbn; lia] |].
  cbn [collect_hits hit_of].
  destruct ((0 <=? idx) && (idx <? Z.of_nat (List.length documents))).
  - destruct (nth_error documents (Z.to_nat idx)) as [doc|] eqn:Hdoc.
    + split; [| cbn [List.length]; lia].
      constructor; [| exact IH1]. cbn [hit_doc]. eapply nth_error_In. exact Hdoc.
    + split; [exact IH1 | cbn [List.length]; lia].
  - split; [exact IH1 | cbn [List.length]; lia].
Qed.

Lemma search_docs (query : string) (top_k : Z) (vs : VectorStore M) (hits : list (Hit F)) :
  search F query top_k vs = Ok hits ->
  Forall (fun h => In (hit_doc h) (documents vs)) hits.
Proof.
  unfold search. destruct (ntotal (index vs) =? 0).
  - intros H. injection H as <-. constructor.
  - destruct (encode M [query]) as [qe|e]; [| discriminate].
    destruct (map (astype_float32 M) (map (normalize_L2 M) qe)) as [|q [|q' l]];
      try discriminate.
    destruct (dimension M =? d (index vs)); [| discriminate].
    intros H. injection H as <-. apply collect_hits_in.
Qed.

Lemma apply_time_filter_forall (P : Hit F -> Prop) (results : list (Hit F))
  (time_filter : string) :
  Forall P results -> Forall P (_apply_time_filter parse now results time_filter).
Proof.
  unfold _apply_time_filter. destruct (cutoff_of now time_filter); [| auto].
  intros H. apply Forall_forall. intros h Hh. apply filter_In in Hh.
  rewrite Forall_forall in H. now apply H.
Qed.

(** X18. [search] on an empty index returns the empty list without
    calling the embedding model; otherwise every result is one of the
    stored documents (a position outside the document list is dropped, not
    an error), and when the index returns at most [top_k] positions there
    are at most [top_k] results. *)
Theorem search_results :
  forall (query : string) (top_k : Z) (vs : VectorStore M),
    (ntotal (index vs) = 0 -> search F query top_k vs = Ok [])
    /\ (forall hits,
          search F query top_k vs = Ok hits ->
          Forall (fun h => In (hit_doc h) (documents vs)) hits
          /\ ((forall ix q, Z.of_nat (List.length (index_search F ix q top_k)) <= top_k) ->
              Z.of_nat (List.length hits) <= Z.max 0 top_k)).
Proof.
  intros query top_k vs. unfold search. split.
  - intros ->. reflexivity.
  - intros hits. destruct (ntotal (index vs) =? 0).
    + intros H. injection H as <-. split; [constructor | cbn; lia].
    + destruct (encode M [query]) as [qe|e]; [| discriminate].
      destruct (map (astype_float32 M) (map (normalize_L2 M) qe)) as [|q [|q' l]];
        try discriminate.
      destruct (dimension M =? d (index vs)); [| discriminate].
      intros H. injection H as <-.
      destruct (collect_hits_in (documents vs) (index_search F (index vs) q top_k))
        as [H1 H2].
      split; [exact H1 |]. intros Hk. specialize (Hk (index vs) q). lia.
Qed.

Lemma str_contains_prefix (s t : string) :
  String.prefix s t = true -> str_contains s t = true.
Proof. intros H. destruct t; cbn [str_contains]; now rewrite H. Qed.

Lemma apply_time_filter_cutoff (results : list (Hit F)) (time_filter : string) (cutoff : Z) :
  cutoff_of now time_filter = Some cutoff ->
  _apply_time_filter parse now results time_filter
  = filter (fun result =>
              match parse (Doc.published (hit_doc result)) with
              | Some published_date => cutoff <=? published_date
              | None => true
              end) results.
Proof. unfold _apply_time_filter. now intros ->. Qed.

(** X19. The time filter fails open and its window is closed at the
    cutoff: for a label naming "3 months" (which wins over the other two
    phrases) a result is kept exactly when its date does not parse or is
    at most 90 days before now; a label with none of the three phrases
    filters nothing; the results kept stay in their order. *)
Theorem apply_time_filter_window :
  forall (results : list (Hit F)) (time_filter : string),
    (str_contains "3 months" time_filter = true ->
     forall h, In h (_apply_time_filter parse now results time_filter)
               <-> In h results
                   /\ in_window parse (now - 90 * day) (Doc.published (hit_doc h)))
    /\ (str_contains "3 months" time_filter = false ->
        str_contains "6 months" time_filter = false ->
        str_contains "1 year" time_filter = false ->
        _apply_time_filter parse now results time_filter = results)
    /\ (exists keep, _apply_time_filter parse now results time_filter
                     = filter keep results
                     /\ forall h, parse (Doc.published (hit_doc h)) = None ->
                                  keep h = true).
Proof.
  intros results time_filter. split; [| split].
  - intros H3 h. rewrite (apply_time_filter_cutoff results time_filter (now - 90 * day))
      by (unfold cutoff_of; now rewrite H3).
    rewrite filter_In. unfold in_window.
    destruct (parse (Doc.published (hit_doc h))) as [dt|].
    + rewrite Z.leb_le. tauto.
    + tauto.
  - intros H3 H6 H1. unfold _apply_time_filter, cutoff_of. now rewrite H3, H6, H1.
  - unfold _apply_time_filter. destruct (cutoff_of now time_filter) as [cutoff|].
    + eexists. split; [reflexivity |]. intros h Hh. cbv beta. now rewrite Hh.
    + exists (fun _ => true). split; [| reflexivity].
      symmetry. apply forallb_filter_id. apply forallb_forall. reflexivity.
Qed.



(** X21. [semantic_search] returns at most ten results, each a stored
    document; it has no default for a failing analysis service, whose
    exception it passes on; and no filter is applied for [None] or the
    empty label. *)
Theorem semantic_search_results :
  forall (llm : LLMClient) (user_query : string) (time_filter : option string)
         (vs : VectorStore M),
    (forall hits,
        semantic_search F parse now llm user_query time_filter vs = Ok hits ->
        (List.length hits <= 10)%nat
        /\ Forall (fun h => In (hit_doc h) (documents vs)) hits)
    /\ (forall e,
          _call_llm llm (get_search_query_prompt user_query) = Raise e ->
          semantic_search F parse now llm user_query time_filter vs = Raise e)
    /\ (truthy_opt time_filter = false ->
        semantic_search F parse now llm user_query time_filter vs
        = semantic_search F parse now llm user_query None vs).
Proof.
  intros llm user_query time_filter vs. unfold semantic_search. split; [| split].
  - intros hits.
    destruct (generate_search_terms llm user_query) as [terms|e]; cbn [bind];
      [| discriminate].
    destruct (search F _ 20 vs) as [found|e] eqn:Hs; cbn [bind]; [| discriminate].
    intros H.
    set (filtered := if truthy_opt time_filter
                     then _apply_time_filter parse now found (dict_get time_filter "")
                     else found) in *.
    assert (Heq : hits = firstn 10 filtered) by congruence.
    rewrite Heq. split; [rewrite length_firstn; lia |].
    apply Forall_firstn.
    pose proof (search_docs _ _ _ _ Hs) as Hdocs.
    subst filtered. destruct (truthy_opt time_filter); [| exact Hdocs].
    now apply apply_time_filter_forall.
  - intros e He. unfold generate_search_terms. rewrite He. reflexivity.
  - intros Hf. now rewrite Hf.
Qed.

End SearchProperties.

(** ** The whole cycle *)

Lemma detect_provider_fetches (rss_mode : option string) (env : Env) (src : Sources)
  (cl : ConfigLoader) (db : Database) :
  rss_feeds src <> None ->
  exists es cl',
    fetch_entries (_detect_provider rss_mode env) src cl db = (Ok (Some es), cl')
    /\ keywords (cached cl') = keywords (cached cl).
Proof.
  intros Hfeeds.
  assert (Hin : In (_detect_provider rss_mode env) ["direct"; "miniflux"; "freshrss"]).
  { unfold _detect_provider. cbn [In].
    repeat match goal with
           | |- context [if ?b then _ else _] => destruct b
           end; auto. }
  cbn [In] in Hin. unfold fetch_entries.
  destruct Hin as [<- | [<- | [<- | []]]]; cbn [String.eqb Ascii.eqb Bool.eqb].
  - destruct (rss_feeds src); [eauto | contradiction].
  - unfold _fetch_miniflux.
    assert (Hk : keywords (cached (snd (miniflux_try (world src) cl db)))
                 = keywords (cached cl)).
    { unfold miniflux_try. cbv zeta.
      destruct (miniflux_entries (world src) _); [| reflexivity].
      destruct (miniflux_loop _ _ _ _ _); [| reflexivity].
      destruct (_ && _); [| reflexivity].
      unfold save_yaml_config. destruct (yaml_write_error (world src)); reflexivity. }
    destruct (miniflux_try (world src) cl db) as [[es|e] cl']; cbn [snd] in Hk; eauto.
  - eauto.
Qed.

Lemma ollama_analysis_ok (template : AnalysisPrompt) (cfg : Config) (llm : LLMClient)
  (kws : list string) (job : JobEntry.t) :
  provider llm = "ollama" -> ollama_setup (backend llm) = None ->
  keywords cfg = Some kws ->
  analysis_ok template cfg llm job = true.
Proof.
  intros Hprov Hsetup Hkws.
  unfold analysis_ok, analyze_job_posting, _call_llm, _call_ollama.
  rewrite Hkws, Hprov, Hsetup. cbn [String.eqb Ascii.eqb Bool.eqb].
  now destruct (ollama_generate _ _).
Qed.

Lemma none_pending_when_ok (template : AnalysisPrompt) (cfg : Config) (llm : LLMClient)
  (jobs : list JobEntry.t) :
  (forall job, analysis_ok template cfg llm job = true) ->
  filter (fun job => negb (analysis_ok template cfg llm job)) jobs = [].
Proof.
  intros Hok. induction jobs as [|job jobs IH]; [reflexivity |].
  cbn [filter]. now rewrite Hok.
Qed.

(** X22. One cycle of [fetch_and_analyze_jobs] with [rss_feeds]
    configured, whatever the provider and whatever the sources answer: the
    cycle runs to its end, the table keeps its primary key and its old
    rows' ids in place and grows by the count reported, the vector store
    stays aligned; and with Ollama as analysis provider, no exception from
    the statements of [_call_ollama] before its [try] (the [llm] section
    has ['model'], ['temperature'] and ['max_tokens']) and [keywords] in
    [config.yaml], no row is pending when the cycle ends. *)
Theorem fetch_and_analyze_jobs_cycle :
  forall (M : Embedding) (rss_mode : option string) (env : Env) (src : Sources)
         (template : AnalysisPrompt) (clock : nat -> Z) (cl : ConfigLoader)
         (db : Database) (vs : VectorStore M),
    primary_key db ->
    rss_feeds src <> None ->
    exists new_count db2 vs2 cl2,
      fetch_and_analyze_jobs rss_mode env src template clock cl db vs
      = (Some new_count, db2, vs2, cl2)
      /\ primary_key db2
      /\ Z.of_nat (List.length db2) = Z.of_nat (List.length db) + new_count
      /\ firstn (List.length db) (map JobEntry.id db2) = map JobEntry.id db
      /\ (aligned vs -> aligned vs2)
      /\ (provider (llm_client (world src)) = "ollama" ->
          ollama_setup (backend (llm_client (world src))) = None ->
          keywords (on_disk cl) <> None ->
          get_unanalyzed_entries db2 = []).
Proof.
  intros M rss_mode env src template clock cl db vs Hpk Hfeeds.
  unfold fetch_and_analyze_jobs. cbv zeta.
  assert (Hsync : (if String.eqb (_detect_provider rss_mode env) "miniflux"
                   then match rss_feeds src with None => false | Some _ => true end
                   else true) = true).
  { destruct (String.eqb _ "miniflux"); [| reflexivity].
    destruct (rss_feeds src); [reflexivity | contradiction]. }
  rewrite Hsync.
  destruct (detect_provider_fetches rss_mode env src
              {| cached := on_disk cl; on_disk := on_disk cl |} db Hfeeds)
    as (es & cl1 & Hfetch & Hkw).
  rewrite Hfetch. cbn [cached] in Hkw.
  destruct (store_entries_extends clock es 0 db 0) as (added & Hadd & Hcount & _).
  pose proof (store_entries_primary_key clock es 0 db 0 Hpk) as Hpk1.
  destruct (store_entries clock 0 es db 0) as [new_count db1].
  cbn [fst snd] in Hadd, Hcount, Hpk1.
  pose proof (analyze_pending_jobs_fst M template (cached cl1)
                (llm_client (world src)) db1 vs) as Hfst.
  pose proof (analyze_pending_jobs_snd M template (cached cl1)
                (llm_client (world src)) db1 vs) as Hsnd.
  destruct (analyze_pending_jobs template (cached cl1) (llm_client (world src)) db1 vs)
    as [db2 vs2]. cbn [fst snd] in Hfst, Hsnd.
  exists new_count, db2, vs2, cl1. split; [reflexivity |].
  assert (Hids : map JobEntry.id db2 = map JobEntry.id db1).
  { rewrite Hfst. apply analyze_loop_ids. }
  split; [unfold primary_key; now rewrite Hids |].
  split.
  { apply (f_equal (@List.length _)) in Hids. rewrite !length_map in Hids.
    rewrite Hids, Hadd, length_app. lia. }
  split.
  { rewrite Hids, Hadd, map_app, <- (length_map JobEntry.id db), firstn_app.
    rewrite Nat.sub_diag, firstn_all. cbn [firstn]. now rewrite app_nil_r. }
  split.
  { intros Hal. rewrite Hsnd. now apply add_job_entries_aligned. }
  intros Hprov Hsetup Hkws. rewrite Hfst.
  rewrite pending_after_pass by assumption.
  destruct (keywords (on_disk cl)) as [kws|] eqn:Hk; [| contradiction].
  apply none_pending_when_ok. intros job.
  now apply (ollama_analysis_ok template (cached cl1) (llm_client (world src)) kws).
Qed.

(** ** The properties above on the sample data *)

Lemma fetch_direct_new_entries_witness :
  fst (_fetch_direct sample_feeds (reader_down nav_page) sample_db 0
         [dead_feed; jobs_feed])
  = [fetched_entry]
  /\ Forall (unknown_to sample_db)
       (fst (_fetch_direct sample_feeds (reader_down nav_page) sample_db 0
               [dead_feed; jobs_feed])).
Proof.
  split; [vm_compute; reflexivity |].
  apply (fetch_direct_new_entries sample_feeds (reader_down nav_page) sample_db 0
           [dead_feed; jobs_feed]).
Defined.

Lemma fetch_direct_twice_witness :
  fst (_fetch_direct sample_feeds offline
         (snd (store_entries (fun _ => 2000) 0
                 (fst (_fetch_direct sample_feeds (reader_down nav_page) sample_db 0
                         [dead_feed; jobs_feed])) sample_db 0))
         0 [dead_feed; jobs_feed])
  = [].
Proof.
  apply (fetch_direct_twice sample_feeds (reader_down nav_page) offline sample_db
           0 0 0 (fun _ => 2000) [dead_feed; jobs_feed]).
Defined.

Lemma fetch_freshrss_all_or_nothing_witness :
  List.length (_fetch_freshrss (Ok (Some [fresh_item; fresh_item]))) = 2%nat
  /\ _fetch_freshrss (Ok (Some [fresh_item; broken_item; fresh_item])) = [].
Proof.
  split.
  - apply (fetch_freshrss_all_or_nothing [fresh_item; fresh_item]).
    repeat constructor; discriminate.
  - apply (fetch_freshrss_all_or_nothing [fresh_item; broken_item; fresh_item]).
    apply Exists_cons_tl. apply Exists_cons_hd. reflexivity.
Defined.

Lemma search_results_witness :
  let vs := run_adds [[analyzed_row 0; analyzed_row 1; analyzed_row 2]]
              (empty_store toy_embedding 2) in
  search toy_faiss "anything" 5 (empty_store toy_embedding 2) = Ok []
  /\ (exists hits, search toy_faiss "professor" 5 vs = Ok hits
                   /\ List.length hits = 3%nat
                   /\ Forall (fun h => In (hit_doc h) (documents vs)) hits).
Proof.
  intros vs. split.
  - apply (search_results toy_embedding toy_faiss "anything" 5
             (empty_store toy_embedding 2)). reflexivity.
  - destruct (search toy_faiss "professor" 5 vs) as [hits|e] eqn:Hs;
      [| vm_compute in Hs; discriminate].
    exists hits. split; [reflexivity |]. split.
    + vm_compute in Hs. injection Hs as <-. reflexivity.
    + apply (search_results toy_embedding toy_faiss "professor" 5 vs). exact Hs.
Defined.

Lemma apply_time_filter_window_witness :
  map (fun h => Doc.published (hit_doc h))
    (_apply_time_filter toy_parse (1000 * day) dated_hits "Past 3 months")
  = ["950"; "soon"]
  /\ In (dated_hit "soon")
       (_apply_time_filter toy_parse (1000 * day) dated_hits "Past 3 months")
  /\ _apply_time_filter toy_parse (1000 * day) dated_hits "Recent" = dated_hits.
Proof.
  destruct (apply_time_filter_window toy_embedding toy_faiss toy_parse (1000 * day)
              dated_hits "Past 3 months") as (Hin & _ & _).
  destruct (apply_time_filter_window toy_embedding toy_faiss toy_parse (1000 * day)
              dated_hits "Recent") as (_ & Hall & _).
  split; [vm_compute; reflexivity |]. split.
  - apply Hin; [reflexivity |]. split; [cbn; tauto | exact I].
  - apply Hall; reflexivity.
Defined.


Lemma semantic_search_results_witness :
  let vs := run_adds [map analyzed_row (seq 0 12)] (empty_store toy_embedding 2) in
  exists hits,
    semantic_search toy_faiss toy_parse (1000 * day) (answering "- lecturer")
      "professor" (Some "Past 3 months") vs = Ok hits
    /\ (List.length hits <= 10)%nat
    /\ Forall (fun h => In (hit_doc h) (documents vs)) hits.
Proof.
  intros vs.
  destruct (semantic_search toy_faiss toy_parse (1000 * day) (answering "- lecturer")
              "professor" (Some "Past 3 months") vs) as [hits|e] eqn:Hs;
    [| vm_compute in Hs; discriminate].
  exists hits. split; [reflexivity |].
  apply (semantic_search_results toy_embedding toy_faiss toy_parse (1000 * day)
           (answering "- lecturer") "professor" (Some "Past 3 months") vs).
  exact Hs.
Defined.

(** One cycle with the Direct provider, from an empty table and an empty
    index: the dead feed is passed over, the two entries of the other feed
    are stored, analysed and indexed. *)
Lemma fetch_and_analyze_jobs_cycle_witness :
  exists db2 vs2 cl2,
    fetch_and_analyze_jobs (Some "direct")
      {| MINIFLUX_URL := None; FRESHRSS_URL := None |}
      sample_sources title_prompt (fun _ => 2000) sample_loader []
      (empty_store toy_embedding 2)
    = (Some 2, db2, vs2, cl2)
    /\ primary_key db2
    /\ map JobEntry.analyzed db2 = [true; true]
    /\ map Doc.link (documents vs2)
       = ["https://example.com/2"; "https://example.com/1"]
    /\ get_unanalyzed_entries db2 = [].
Proof.
  destruct (fetch_and_analyze_jobs_cycle toy_embedding (Some "direct")
              {| MINIFLUX_URL := None; FRESHRSS_URL := None |}
              sample_sources title_prompt (fun _ => 2000) sample_loader []
              (empty_store toy_embedding 2))
    as (n & db2 & vs2 & cl2 & Hrun & Hpk & _ & _ & _ & Hnone);
    [constructor | discriminate |].
  exists db2, vs2, cl2.
  assert (Hn : n = 2 /\ map JobEntry.analyzed db2 = [true; true]
               /\ map Doc.link (documents vs2)
                  = ["https://example.com/2"; "https://example.com/1"]).
  { vm_compute in Hrun. injection Hrun as <- <- <- _. repeat split; reflexivity. }
  destruct Hn as (-> & Ha & Hd).
  split; [exact Hrun |]. split; [exact Hpk |]. split; [exact Ha |].
  split; [exact Hd |]. apply Hnone; [reflexivity | reflexivity | discriminate].
Defined.
